(** * join_reviews: a shallow embedding of [scripts/join_reviews.py]

    The script joins a product-metadata JSONL file with a review JSONL file
    on the [asin] key, normalises prices and dates, and writes one JSON
    record per accepted review.  This file embeds its functions
    ([strip_html], [parse_price], [parse_date], [load_asin_meta],
    [make_embed_text], [process_reviews], [main]) and proves properties of
    them.

    Conventions of the embedding
    - A Python [str] is a [string]; a character is a code point below 256.
    - A value produced by [json.loads] is a [pyval]; a dict is an
      association list in insertion order.
    - A Python [float] is a binary64 [spec_float].
    - A function that can raise returns a [res].
    - A source file is the list of its lines, each blank, parsed by
      [json.loads], or refused by it ([jsonl_line]); the output file is
      the list of records written, rendered by [sink_text].
    - Library behaviour is that of CPython 3.11 on Linux.
    - The regular expressions are terms of [Re.regex], run by a
      backtracking matcher. *)

From Stdlib Require Import ZArith String Ascii List Bool Lia.
From Stdlib Require Import DecimalString.
From Stdlib Require Import Floats.SpecFloat.
Import ListNotations.

Local Open Scope list_scope.
Local Open Scope string_scope.

(* ===================================================================== *)
(** ** Exceptions *)

Inductive exn : Set :=
| ValueError
| TypeError
| AttributeError
| KeyError
| IndexError
| OverflowError
| JSONDecodeError
| RecursionError
| OSError.

Inductive res (A : Type) : Type :=
| Ok (a : A)
| Raise (e : exn).

Arguments Ok {A} a.
Arguments Raise {A} e.

Definition bind {A B : Type} (r : res A) (f : A -> res B) : res B :=
  match r with
  | Ok a => f a
  | Raise e => Raise e
  end.

Notation "x <- c1 ;; c2" := (bind c1 (fun x => c2))
  (at level 61, c1 at next level, right associativity).

(* ===================================================================== *)
(** ** Strings *)

Module Str.

(** [str.isspace] on one character, for code points below 256:
    TAB..CR, FS..US, SPACE, NEL (0x85) and NBSP (0xA0). *)
Definition is_space (c : ascii) : bool :=
  let n := nat_of_ascii c in
  (((9 <=? n) && (n <=? 13)) || ((28 <=? n) && (n <=? 32))
   || (n =? 133) || (n =? 160))%nat.

(** [\d] and [str.isdigit] below 256: the ASCII digits. *)
Definition is_digit (c : ascii) : bool :=
  let n := nat_of_ascii c in ((48 <=? n) && (n <=? 57))%nat.

Definition is_char (a : ascii) (c : ascii) : bool := Ascii.eqb a c.

Fixpoint lstrip (s : string) : string :=
  match s with
  | String c s' => if is_space c then lstrip s' else s
  | EmptyString => EmptyString
  end.

Fixpoint rstrip (s : string) : string :=
  match s with
  | String c s' =>
      match rstrip s' with
      | EmptyString => if is_space c then EmptyString else String c EmptyString
      | r => String c r
      end
  | EmptyString => EmptyString
  end.

(** [s.strip()] *)
Definition strip (s : string) : string := rstrip (lstrip s).

(** [s.replace(c, "")] for a one-character [c] *)
Fixpoint remove_char (a : ascii) (s : string) : string :=
  match s with
  | String c s' => if Ascii.eqb a c then remove_char a s' else String c (remove_char a s')
  | EmptyString => EmptyString
  end.

(** [s.startswith(c)] for a one-character [c] *)
Definition starts_with_char (a : ascii) (s : string) : bool :=
  match s with
  | String c _ => Ascii.eqb a c
  | EmptyString => false
  end.

(** [sep.join(l)] *)
Fixpoint join (sep : string) (l : list string) : string :=
  match l with
  | [] => ""
  | [x] => x
  | x :: rest => x ++ sep ++ join sep rest
  end.

Definition nonempty (s : string) : bool :=
  match s with
  | EmptyString => false
  | String _ _ => true
  end.

(** [s in l], membership in a collection of strings *)
Definition mem (s : string) (l : list string) : bool :=
  existsb (String.eqb s) l.

(** [str(n)] for an [int] *)
Definition of_Z (z : Z) : string := NilZero.string_of_int (Z.to_int z).

Definition ends_with (suffix s : string) : Prop :=
  exists pre, s = pre ++ suffix.

Fixpoint last_char (s : string) : option ascii :=
  match s with
  | EmptyString => None
  | String c EmptyString => Some c
  | String _ s' => last_char s'
  end.

(** The last character of [s], or [b] when [s] is empty. *)
Definition last_or (b : option ascii) (s : string) : option ascii :=
  match last_char s with
  | Some c => Some c
  | None => b
  end.

Definition first_char (s : string) : option ascii :=
  match s with
  | EmptyString => None
  | String c _ => Some c
  end.

(** Every character of [s] is in the class [p]. *)
Fixpoint all (p : ascii -> bool) (s : string) : bool :=
  match s with
  | EmptyString => true
  | String c s' => p c && all p s'
  end.

(** A non-empty run of digits. *)
Definition digit_run (s : string) : bool := nonempty s && all is_digit s.

(** The character is absent or is not a digit. *)
Definition not_digit (c : option ascii) : Prop :=
  match c with
  | Some c => is_digit c = false
  | None => True
  end.

(** [s.split("\n")] *)
Fixpoint lines (s : string) : list string :=
  match s with
  | EmptyString => [EmptyString]
  | String c s' =>
      if Ascii.eqb c "010" then EmptyString :: lines s'
      else
        match lines s' with
        | l :: ls => String c l :: ls
        | [] => [String c EmptyString]
        end
  end.

End Str.

(* ===================================================================== *)
(** ** Floats: binary64 *)

Module Float.

Definition prec : Z := 53.
Definition emax : Z := 1024.

(** The binary64 value nearest to [n / d] (ties to even), for [n >= 0] and
    [d > 0]: what [float()] returns for a decimal numeral of that value. *)
Definition of_ratio (n d : Z) : spec_float :=
  match n with
  | Zpos _ =>
      let '(q, e, l) := SFdiv_core_binary prec emax n 0 d 0 in
      binary_round_aux prec emax false q e l
  | _ => S754_zero false
  end.

Definition is_zero (f : spec_float) : bool :=
  match f with
  | S754_zero _ => true
  | _ => false
  end.

(** [int(f)]: truncation toward zero; [nan] raises [ValueError], an
    infinity raises [OverflowError]. *)
Definition to_int (f : spec_float) : res Z :=
  match f with
  | S754_zero _ => Ok 0%Z
  | S754_nan => Raise ValueError
  | S754_infinity _ => Raise OverflowError
  | S754_finite s m e =>
      let a := match e with
               | Zneg p => Z.shiftr (Zpos m) (Zpos p)
               | _ => Z.shiftl (Zpos m) e
               end in
      Ok (if s then Z.opp a else a)
  end.

End Float.

(* ===================================================================== *)
(** ** JSON values *)

Local Unset Elimination Schemes.

Inductive pyval : Type :=
| VNone
| VBool (b : bool)
| VInt (z : Z)
| VFloat (f : spec_float)
| VStr (s : string)
| VList (l : list pyval)
| VDict (d : list (string * pyval)).

Local Set Elimination Schemes.

(** A Python [dict] with string keys, in insertion order.  The keys of a
    dict are distinct; [Dict.lookup] reads the first binding of a key. *)
Definition dict : Type := list (string * pyval).

(** [bool(v)] *)
Definition truthy (v : pyval) : bool :=
  match v with
  | VNone => false
  | VBool b => b
  | VInt z => negb (Z.eqb z 0)
  | VFloat f => negb (Float.is_zero f)
  | VStr s => Str.nonempty s
  | VList l => match l with [] => false | _ :: _ => true end
  | VDict d => match d with [] => false | _ :: _ => true end
  end.

(** [a or b] *)
Definition py_or (a b : pyval) : pyval := if truthy a then a else b.

Module Dict.

Fixpoint lookup (d : dict) (k : string) : option pyval :=
  match d with
  | [] => None
  | (k', v) :: d' => if String.eqb k k' then Some v else lookup d' k
  end.

(** [k in d] *)
Definition contains (d : dict) (k : string) : bool :=
  match lookup d k with
  | Some _ => true
  | None => false
  end.

(** [d.get(k)] *)
Definition get (d : dict) (k : string) : pyval :=
  match lookup d k with
  | Some v => v
  | None => VNone
  end.

(** [d.get(k, dflt)] *)
Definition get_default (d : dict) (k : string) (dflt : pyval) : pyval :=
  match lookup d k with
  | Some v => v
  | None => dflt
  end.

(** [d[k] = v]: an existing key keeps its place. *)
Fixpoint set (d : dict) (k : string) (v : pyval) : dict :=
  match d with
  | [] => [(k, v)]
  | (k', v') :: d' =>
      if String.eqb k k' then (k', v) :: d' else (k', v') :: set d' k v
  end.

End Dict.

(** [obj.get]: only a dict has the method; anything else that
    [json.loads] can return raises [AttributeError]. *)
Definition as_dict (v : pyval) : res dict :=
  match v with
  | VDict d => Ok d
  | _ => Raise AttributeError
  end.

(* ===================================================================== *)
(** ** Regular expressions

    The fragment of Python's [re] that the script and [strptime] use,
    with the semantics of a backtracking matcher: alternatives are tried
    left to right, [+] and [?] are greedy, and the first success wins. *)

Module Re.

Inductive regex : Type :=
| Eps
| Chr (p : ascii -> bool)         (* one character of a class *)
| Seq (r1 r2 : regex)
| Alt (r1 r2 : regex)             (* r1|r2 *)
| Plus (p : ascii -> bool)        (* c+ for a one-character class c *)
| Opt (r : regex)                 (* (?:r)? *)
| Group (name : string) (r : regex)
| NotBehind (p : ascii -> bool)   (* (?<!c) *)
| NotAhead (p : ascii -> bool).   (* (?!c) *)

(** A position in the subject: the character just before it, the text
    from it on, and the groups captured so far. *)
Record pos : Type := mkpos {
  before : option ascii;
  rest : string;
  groups : list (string * string)
}.

Fixpoint take (n : nat) (s : string) : string :=
  match n, s with
  | S n', String c s' => String c (take n' s')
  | _, _ => EmptyString
  end.

(** The text between a position and a later one. *)
Definition consumed (s s' : string) : string :=
  take (String.length s - String.length s') s.

Section Matcher.

Context {A : Type}.

(** [c*] from a position, longest first. *)
Fixpoint star (p : ascii -> bool) (b : option ascii) (s : string)
    (g : list (string * string)) (k : pos -> option A) : option A :=
  match s with
  | String c s' =>
      if p c then
        match star p (Some c) s' g k with
        | Some a => Some a
        | None => k (mkpos b s g)
        end
      else k (mkpos b s g)
  | EmptyString => k (mkpos b s g)
  end.

Fixpoint run (r : regex) (st : pos) (k : pos -> option A) : option A :=
  match r with
  | Eps => k st
  | Chr p =>
      match rest st with
      | String c s' => if p c then k (mkpos (Some c) s' (groups st)) else None
      | EmptyString => None
      end
  | Seq r1 r2 => run r1 st (fun st' => run r2 st' k)
  | Alt r1 r2 =>
      match run r1 st k with
      | Some a => Some a
      | None => run r2 st k
      end
  | Plus p =>
      match rest st with
      | String c s' => if p c then star p (Some c) s' (groups st) k else None
      | EmptyString => None
      end
  | Opt r1 =>
      match run r1 st k with
      | Some a => Some a
      | None => k st
      end
  | Group name r1 =>
      run r1 st (fun st' =>
        k (mkpos (before st') (rest st')
             ((name, consumed (rest st) (rest st')) :: groups st')))
  | NotBehind p =>
      match before st with
      | Some c => if p c then None else k st
      | None => k st
      end
  | NotAhead p =>
      match rest st with
      | String c _ => if p c then None else k st
      | EmptyString => k st
      end
  end.

End Matcher.

(** [pattern.match] at one position: the position after the match. *)
Definition match_at (r : regex) (b : option ascii) (s : string) : option pos :=
  run r (mkpos b s []) Some.

(** [re.search]: the leftmost position where the pattern matches. *)
Fixpoint search_from (r : regex) (b : option ascii) (s : string) : option pos :=
  match match_at r b s with
  | Some m => Some m
  | None =>
      match s with
      | String c s' => search_from r (Some c) s'
      | EmptyString => None
      end
  end.

Definition search (r : regex) (s : string) : option pos := search_from r None s.

(** [m.group(name)] *)
Fixpoint group (name : string) (g : list (string * string)) : option string :=
  match g with
  | [] => None
  | (n, t) :: g' => if String.eqb name n then Some t else group name g'
  end.

(** [re.sub(r, repl, s)] for a pattern that matches no empty string and
    a replacement without group references.  Every round consumes a
    character, so [length s] rounds are enough. *)
Fixpoint sub_from (fuel : nat) (r : regex) (repl : string)
    (b : option ascii) (s : string) : string :=
  match fuel with
  | O => s
  | S fuel' =>
      match match_at r b s with
      | Some m => repl ++ sub_from fuel' r repl (before m) (rest m)
      | None =>
          match s with
          | String c s' => String c (sub_from fuel' r repl (Some c) s')
          | EmptyString => EmptyString
          end
      end
  end.

Definition sub (r : regex) (repl : string) (s : string) : string :=
  sub_from (S (String.length s)) r repl None s.

End Re.

(* ===================================================================== *)
(** ** Decimal numerals *)

Module Numeral.

Definition digit_value (c : ascii) : Z := Z.of_nat (nat_of_ascii c) - 48.

(** The value of a run of digits read after the accumulator [acc];
    [None] when a character is not a digit. *)
Fixpoint digits_value (acc : Z) (s : string) : option Z :=
  match s with
  | EmptyString => Some acc
  | String c s' =>
      if Str.is_digit c then digits_value (10 * acc + digit_value c) s'
      else None
  end.

(** Split at the first ["."]: the text before it and, when there is one,
    the text after it. *)
Fixpoint split_dot (s : string) : string * option string :=
  match s with
  | EmptyString => (EmptyString, None)
  | String c s' =>
      if Ascii.eqb c "." then (EmptyString, Some s')
      else let '(i, f) := split_dot s' in (String c i, f)
  end.

(** [float(s)] for the plain decimal numerals [digits], [digits.],
    [digits.digits] and [.digits]: the binary64 nearest to the decimal
    value.  Any other text is answered with [None], which stands for
    [ValueError]; signs, exponents, underscores, [inf] and [nan], which
    [float] also reads, are outside this fragment (the pattern of
    [parse_price] cannot produce them, see [float_of_str_shape]). *)
Definition float_of_str (s : string) : option spec_float :=
  let '(i, f) := split_dot s in
  let f := match f with Some f => f | None => EmptyString end in
  if Str.nonempty i || Str.nonempty f then
    match digits_value 0 (i ++ f) with
    | Some n => Some (Float.of_ratio n (10 ^ Z.of_nat (String.length f)))
    | None => None
    end
  else None.

(** The numerals the pattern of [parse_price] can capture: digits,
    digits with a fraction, and a bare fraction. *)
Inductive shape : string -> Prop :=
| shape_int (ds : string) :
    Str.digit_run ds = true -> shape ds
| shape_dec (ds fs : string) :
    Str.digit_run ds = true -> Str.digit_run fs = true -> shape (ds ++ "." ++ fs)
| shape_frac (fs : string) :
    Str.digit_run fs = true -> shape ("." ++ fs).

End Numeral.

(** [int(s)] for a [str]: surrounding whitespace, an optional sign, and
    decimal digits in which single underscores may separate digits, at
    most 4300 of them. *)
Module IntLit.

Fixpoint digits_us (acc : Z) (after_digit : bool) (s : string) : option Z :=
  match s with
  | EmptyString => if after_digit then Some acc else None
  | String c s' =>
      if Str.is_digit c then
        digits_us (10 * acc + Numeral.digit_value c) true s'
      else if Ascii.eqb c "_" then
        (if after_digit then digits_us acc false s' else None)
      else None
  end.

(** The number of digits of [s]; underscores do not count. *)
Fixpoint digit_count (s : string) : nat :=
  match s with
  | EmptyString => O
  | String c s' => if Str.is_digit c then S (digit_count s') else digit_count s'
  end.

(** [sys.get_int_max_str_digits()]: a longer numeral, leading zeros
    included, is refused. *)
Definition max_str_digits : nat := 4300.

Definition magnitude (t : string) : option Z :=
  if (digit_count t <=? max_str_digits)%nat then digits_us 0 false t else None.

Definition int_of_str (s : string) : option Z :=
  match Str.strip s with
  | String "-" t => option_map Z.opp (magnitude t)
  | String "+" t => magnitude t
  | t => magnitude t
  end.

End IntLit.

(** [int(v)] *)
Definition py_int (v : pyval) : res Z :=
  match v with
  | VBool b => Ok (if b then 1%Z else 0%Z)
  | VInt z => Ok z
  | VFloat f => Float.to_int f
  | VStr s =>
      match IntLit.int_of_str s with
      | Some z => Ok z
      | None => Raise ValueError
      end
  | VNone | VList _ | VDict _ => Raise TypeError
  end.

(** [v.strip()]: only a [str] has the method. *)
Definition py_strip (v : pyval) : res string :=
  match v with
  | VStr s => Ok (Str.strip s)
  | _ => Raise AttributeError
  end.

(** [v[0]] for a truthy [v]: the first element of a list, the first
    character of a string; a dict from JSON has no key [0]; the other
    values cannot be subscripted. *)
Definition py_first (v : pyval) : res pyval :=
  match v with
  | VList (x :: _) => Ok x
  | VList [] => Raise IndexError
  | VStr (String c _) => Ok (VStr (String c EmptyString))
  | VStr EmptyString => Raise IndexError
  | VDict _ => Raise KeyError
  | VNone | VBool _ | VInt _ | VFloat _ => Raise TypeError
  end.

Definition opt_str (o : option string) : pyval :=
  match o with
  | Some s => VStr s
  | None => VNone
  end.

Definition opt_float (o : option spec_float) : pyval :=
  match o with
  | Some f => VFloat f
  | None => VNone
  end.

(* ===================================================================== *)
(** ** Calendar dates ([datetime]) *)

Module Date.

Local Open Scope Z_scope.

Record date : Set := mkdate { year : Z; month : Z; day : Z }.

Definition is_leap (y : Z) : bool :=
  (y mod 4 =? 0) && (negb (y mod 100 =? 0) || (y mod 400 =? 0)).

(** The tables [_DAYS_IN_MONTH] and [_DAYS_BEFORE_MONTH] of a common year. *)
Definition days_in_month_common (m : Z) : Z :=
  if m =? 2 then 28
  else if (m =? 4) || (m =? 6) || (m =? 9) || (m =? 11) then 30
  else 31.

Definition days_before_month_common (m : Z) : Z :=
  if m =? 1 then 0 else if m =? 2 then 31 else if m =? 3 then 59
  else if m =? 4 then 90 else if m =? 5 then 120 else if m =? 6 then 151
  else if m =? 7 then 181 else if m =? 8 then 212 else if m =? 9 then 243
  else if m =? 10 then 273 else if m =? 11 then 304 else 334.

Definition b2z (b : bool) : Z := if b then 1 else 0.

Definition days_in_month (y m : Z) : Z :=
  days_in_month_common m + b2z ((m =? 2) && is_leap y).

(** Days of the year before the first of month [m]. *)
Definition days_before_month (y m : Z) : Z :=
  days_before_month_common m + b2z ((2 <? m) && is_leap y).

(** Days before the first of January of year [y]. *)
Definition days_before_year (y : Z) : Z :=
  let p := y - 1 in p * 365 + p / 4 - p / 100 + p / 400.

Definition valid (d : date) : bool :=
  (1 <=? year d) && (year d <=? 9999)
  && (1 <=? month d) && (month d <=? 12)
  && (1 <=? day d) && (day d <=? days_in_month (year d) (month d)).

(** [date.toordinal()]: 0001-01-01 is day 1. *)
Definition to_ordinal (d : date) : Z :=
  days_before_year (year d) + days_before_month (year d) (month d) + day d.

(** Month and day of the [n]-th day (from 0) of a year: the month is
    estimated as [(n + 50) >> 5] and corrected when it overshoots. *)
Definition month_day (n : Z) (leap : bool) : Z * Z :=
  let m := Z.shiftr (n + 50) 5 in
  let preceding := days_before_month_common m + b2z ((2 <? m) && leap) in
  if n <? preceding then
    let m' := m - 1 in
    let preceding' :=
      preceding - (days_in_month_common m' + b2z ((m' =? 2) && leap)) in
    (m', n - preceding' + 1)
  else (m, n - preceding + 1).

(** [date.fromordinal(n)], by 400-, 100-, 4- and 1-year cycles. *)
Definition of_ordinal (n : Z) : date :=
  let n := n - 1 in
  let n400 := n / 146097 in
  let n := n mod 146097 in
  let n100 := n / 36524 in
  let n := n mod 36524 in
  let n4 := n / 1461 in
  let n := n mod 1461 in
  let n1 := n / 365 in
  let n := n mod 365 in
  let y := n400 * 400 + 1 + n100 * 100 + n4 * 4 + n1 in
  if (n1 =? 4) || (n100 =? 4) then mkdate (y - 1) 12 31
  else
    let leap := (n1 =? 3) && (negb (n4 =? 24) || (n100 =? 3)) in
    let '(m, d) := month_day n leap in
    mkdate y m d.

(** The check that [month_day] is right for day [n] of a year. *)
Definition month_day_ok (leap : bool) (n : Z) : bool :=
  let '(m, d) := month_day n leap in
  (1 <=? m) && (m <=? 12) && (1 <=? d)
  && (d <=? days_in_month_common m + b2z ((m =? 2) && leap))
  && (days_before_month_common m + b2z ((2 <? m) && leap) + d =? n + 1).

(** [f] holds on the [k] integers from [lo] on. *)
Fixpoint all_from (f : Z -> bool) (k : nat) (lo : Z) : bool :=
  match k with
  | O => true
  | S k' => f lo && all_from f k' (lo + 1)
  end.

Definition max_ordinal : Z := 3652059.   (* 9999-12-31 *)
Definition epoch_ordinal : Z := 719163.  (* 1970-01-01 *)

(** The least and greatest timestamps inside the years 1..9999. *)
Definition min_timestamp : Z := -62135596800.
Definition max_timestamp : Z := 253402300799.

(** The timestamps that fit the platform's [time_t] (64 bits), and among
    them the ones its [gmtime] can break down (the year fits a C [int]). *)
Definition min_time_t : Z := -9223372036854775808.
Definition max_time_t : Z := 9223372036854775807.
Definition min_gmtime : Z := -67768040609740800.
Definition max_gmtime : Z := 67768036191676799.

(** [datetime.utcfromtimestamp(t)] for an [int], date part, on Linux with
    a 64-bit [time_t]: a timestamp that does not fit [time_t] raises
    [OverflowError], one that [gmtime] refuses raises [OSError], and any
    other outside the years 1..9999 raises [ValueError] (year out of
    range). *)
Definition utcfromtimestamp (t : Z) : res date :=
  if (t <? min_time_t) || (max_time_t <? t) then Raise OverflowError
  else if (t <? min_gmtime) || (max_gmtime <? t) then Raise OSError
  else
    let n := t / 86400 + epoch_ordinal in
    if (1 <=? n) && (n <=? max_ordinal) then Ok (of_ordinal n)
    else Raise ValueError.

Definition pad (width : nat) (z : Z) : string :=
  let s := Str.of_Z z in
  String.concat "" (repeat "0"%string (width - String.length s)) ++ s.

Definition in_range (lo hi : ascii) (c : ascii) : bool :=
  (nat_of_ascii lo <=? nat_of_ascii c)%nat && (nat_of_ascii c <=? nat_of_ascii hi)%nat.

(** The pattern [strptime] compiles for ["%m %d, %Y"]: each directive is
    its group, a run of whitespace in the format is [\s+], and the comma
    is literal. *)
Definition re_m : Re.regex :=
  Re.Group "m"
    (Re.Alt (Re.Seq (Re.Chr (Str.is_char "1")) (Re.Chr (in_range "0" "2")))
    (Re.Alt (Re.Seq (Re.Chr (Str.is_char "0")) (Re.Chr (in_range "1" "9")))
            (Re.Chr (in_range "1" "9")))).

Definition re_d : Re.regex :=
  Re.Group "d"
    (Re.Alt (Re.Seq (Re.Chr (Str.is_char "3")) (Re.Chr (in_range "0" "1")))
    (Re.Alt (Re.Seq (Re.Chr (in_range "1" "2")) (Re.Chr Str.is_digit))
    (Re.Alt (Re.Seq (Re.Chr (Str.is_char "0")) (Re.Chr (in_range "1" "9")))
    (Re.Alt (Re.Chr (in_range "1" "9"))
            (Re.Seq (Re.Chr (Str.is_char " ")) (Re.Chr (in_range "1" "9"))))))).

Definition re_Y : Re.regex :=
  Re.Group "Y"
    (Re.Seq (Re.Chr Str.is_digit) (Re.Seq (Re.Chr Str.is_digit)
    (Re.Seq (Re.Chr Str.is_digit) (Re.Chr Str.is_digit)))).

Definition re_m_d_Y : Re.regex :=
  Re.Seq re_m (Re.Seq (Re.Plus Str.is_space) (Re.Seq re_d
    (Re.Seq (Re.Chr (Str.is_char ",")) (Re.Seq (Re.Plus Str.is_space) re_Y)))).

Definition group_int (name : string) (m : Re.pos) : option Z :=
  match Re.group name (Re.groups m) with
  | Some t => IntLit.int_of_str t
  | None => None
  end.

(** [datetime.strptime(s, "%m %d, %Y")], date part: the pattern must match
    at the start and use up the text, and the fields must form a date. *)
Definition strptime_m_d_Y (s : string) : res date :=
  match Re.match_at re_m_d_Y None s with
  | None => Raise ValueError
  | Some m =>
      match Re.rest m with
      | String _ _ => Raise ValueError
      | EmptyString =>
          match group_int "Y" m, group_int "m" m, group_int "d" m with
          | Some y, Some mo, Some d =>
              let dt := mkdate y mo d in
              if valid dt then Ok dt else Raise ValueError
          | _, _, _ => Raise ValueError
          end
      end
  end.

End Date.

(* ===================================================================== *)
(** ** Dictionary keys

    [asin_map] is keyed by whatever truthy value a row carries under
    ["asin"].  Keys compare with [==]: strings by content, [bool], [int]
    and [float] by numeric value ([True == 1 == 1.0]); lists and dicts are
    not hashable.  A [nan] differs from every number, but [json.loads]
    answers every [NaN] literal with one and the same float object (the
    [NaN] of [json.decoder]), and a dict finds a key that is the very
    object it is probed with: so one [nan] key equals another. *)

Module Key.

Inductive num : Set :=
| Fin (m e : Z)        (* m * 2^e *)
| Inf (neg : bool)
| NaN.

Definition num_of (v : pyval) : option num :=
  match v with
  | VBool b => Some (Fin (if b then 1 else 0) 0)
  | VInt z => Some (Fin z 0)
  | VFloat (S754_zero _) => Some (Fin 0 0)
  | VFloat (S754_infinity s) => Some (Inf s)
  | VFloat S754_nan => Some NaN
  | VFloat (S754_finite s m e) => Some (Fin (if s then Zneg m else Zpos m) e)
  | VNone | VStr _ | VList _ | VDict _ => None
  end.

Definition num_eqb (a b : num) : bool :=
  match a, b with
  | Fin m1 e1, Fin m2 e2 =>
      let e := Z.min e1 e2 in
      Z.eqb (Z.shiftl m1 (e1 - e)) (Z.shiftl m2 (e2 - e))
  | Inf s1, Inf s2 => Bool.eqb s1 s2
  | NaN, NaN => true
  | _, _ => false
  end.

Definition hashable (v : pyval) : bool :=
  match v with
  | VList _ | VDict _ => false
  | _ => true
  end.

Definition eqb (a b : pyval) : bool :=
  match a, b with
  | VNone, VNone => true
  | VStr s, VStr t => String.eqb s t
  | _, _ =>
      match num_of a, num_of b with
      | Some x, Some y => num_eqb x y
      | _, _ => false
      end
  end.

End Key.

(** The metadata index: product identifier to projected record. *)
Definition asin_index : Type := list (pyval * dict).

Module Index.

Fixpoint lookup (m : asin_index) (k : pyval) : option dict :=
  match m with
  | [] => None
  | (k', v) :: m' => if Key.eqb k k' then Some v else lookup m' k
  end.

(** [asin_map.get(k)] *)
Definition get (m : asin_index) (k : pyval) : res (option dict) :=
  if Key.hashable k then Ok (lookup m k) else Raise TypeError.

Fixpoint insert (m : asin_index) (k : pyval) (v : dict) : asin_index :=
  match m with
  | [] => [(k, v)]
  | (k', v') :: m' =>
      if Key.eqb k k' then (k', v) :: m' else (k', v') :: insert m' k v
  end.

(** [asin_map[k] = v] *)
Definition set (m : asin_index) (k : pyval) (v : dict) : res asin_index :=
  if Key.hashable k then Ok (insert m k v) else Raise TypeError.

End Index.

(** One line of a JSONL source, as the loops see it: blank
    ([not line.strip()]); the value [json.loads] returns for it; text
    that is not JSON, on which [json.loads] raises [JSONDecodeError]; or
    text on which [json.loads] raises another exception ([RecursionError]
    when the nesting is too deep, [ValueError] for an integer of more
    than 4300 digits). *)
Inductive jsonl_line : Type :=
| Blank
| Parsed (v : pyval)
| Malformed
| Rejected (e : exn).

(** The summary [process_reviews] returns. *)
Record stats : Set := mkstats {
  read : nat;
  written : nat;
  missing_meta : nat
}.

(* ===================================================================== *)
(** ** Sample data *)

Module Sample.

(** Stand-ins for the library functions the script is parametric in, to
    run it on the samples below (none of which renders a float or a
    container). *)
Definition html_unescape (s : string) : string := s.
Definition float_repr (f : spec_float) : string := "0.0".
Definition str_repr (s : string) : string := "'" ++ s ++ "'".
Definition json_dumps (v : pyval) : string := "{}".
Definition year_text (y : Z) : string := Str.of_Z y.

Definition row (fields : dict) : jsonl_line := Parsed (VDict fields).

(** The metadata and review lines of the end-to-end scenario. *)
Definition meta : list jsonl_line :=
  [ row [("asin", VStr "B1"); ("title", VStr "Toy Car"); ("brand", VStr "Acme");
         ("price", VStr "$9.99")] ].

Definition reviews : list jsonl_line :=
  [ row [("asin", VStr "B1"); ("reviewerID", VStr "R1");
         ("unixReviewTime", VInt 1243296000); ("overall", VInt 5);
         ("verified", VBool true); ("summary", VStr "Great");
         ("reviewText", VStr "Loved it")] ].

(** A metadata row with markup in its title. *)
Definition markup_meta : list jsonl_line :=
  [ row [("asin", VStr "B1"); ("title", VStr "<b>Toy Car</b>")] ].

(** An index with a full record and an empty one, and reviews that are
    kept, blank, dropped, and without identifier. *)
Definition index : asin_index :=
  [ (VStr "B1", [("title", VStr "Toy Car")]); (VStr "B2", []) ].

Definition mixed_reviews : list jsonl_line :=
  [ row [("asin", VStr "B1"); ("reviewText", VStr "Loved it")];
    Blank;
    row [("asin", VStr "B2")];
    row [("summary", VStr "no product")];
    row [("asin", VStr "B3")] ].

(** An index whose only entry is the empty record, and a review of it. *)
Definition empty_index : asin_index := [ (VStr "B1", []) ].
Definition bare_review : dict := [("asin", VStr "B1")].

(** A record whose categories start with an empty string. *)
Definition empty_first_category : dict :=
  [("main_cat", VStr "Games"); ("category", VList [VStr ""])].

Definition puzzles : dict :=
  [("main_cat", VStr "Games"); ("category", VList [VStr "Puzzles"; VStr "Toys"])].

(** Metadata in which the identifier B1 comes twice. *)
Definition repeated_meta : list jsonl_line :=
  [ row [("asin", VStr "B1"); ("title", VStr "Old Car")];
    row [("asin", VStr "B1"); ("title", VStr "New Car")];
    row [("asin", VStr "B2"); ("title", VStr "Kite")] ].

(** A metadata row of another product. *)
Definition later_meta : list jsonl_line :=
  [ row [("asin", VStr "B2"); ("title", VStr "Kite")] ].

(** A metadata row that carries [also_buy]. *)
Definition meta_with_also : list jsonl_line :=
  [ row [("asin", VStr "B1"); ("title", VStr "Toy Car");
         ("also_buy", VList [VStr "B2"])] ].

(** Two products and two reviews that differ in fields the embedding
    text does not read. *)
Definition car : dict := [("title", VStr "Toy Car"); ("price", VStr "$9.99")].
Definition car_repriced : dict :=
  [("title", VStr "Toy Car"); ("price", VStr "$12.00"); ("rank", VInt 7)].
Definition praise : dict :=
  [("asin", VStr "B1"); ("reviewerID", VStr "R1"); ("reviewText", VStr "Loved it")].
Definition praise_again : dict :=
  [("asin", VStr "B1"); ("reviewerID", VStr "R2"); ("reviewText", VStr "Loved it");
   ("unixReviewTime", VInt 1243296000)].

End Sample.

(* ===================================================================== *)
(** ** The script *)

Section Script.

(** Library behaviour the script relies on and this development does not
    fix: [html.unescape]; [repr] of a float and of a string (inside
    [str()] of a container); [json.dumps(_, ensure_ascii=False)]; and the
    platform's [strftime("%Y")], whose zero-filling below the year 1000
    differs between C libraries.  These are taken to return on every
    value the script hands them; a value nested as deep as the
    interpreter's recursion limit allows, on which [json.dumps] raises
    [RecursionError], is outside the embedding. *)
Variable html_unescape : string -> string.
Variable float_repr : spec_float -> string.
Variable str_repr : string -> string.
Variable json_dumps : pyval -> string.
Variable year_text : Z -> string.

(** [repr(v)] *)
Fixpoint py_repr (v : pyval) : string :=
  match v with
  | VNone => "None"
  | VBool true => "True"
  | VBool false => "False"
  | VInt z => Str.of_Z z
  | VFloat f => float_repr f
  | VStr s => str_repr s
  | VList l => "[" ++ Str.join ", " (map py_repr l) ++ "]"
  | VDict d =>
      "{" ++ Str.join ", "
               (map (fun '(k, x) => str_repr k ++ ": " ++ py_repr x) d) ++ "}"
  end.

(** [str(v)], also what an f-string field [{v}] renders. *)
Definition py_str (v : pyval) : string :=
  match v with
  | VStr s => s
  | _ => py_repr v
  end.

(** *** strip_html *)

(** [r"<[^>]+>"] *)
Definition tag_re : Re.regex :=
  Re.Seq (Re.Chr (Str.is_char "<"))
    (Re.Seq (Re.Plus (fun c => negb (Str.is_char ">" c)))
            (Re.Chr (Str.is_char ">"))).

Definition strip_html (s : pyval) : res string :=
  if negb (truthy s) then Ok ""
  else
    match s with
    | VStr t => Ok (Str.strip (Re.sub tag_re " " (html_unescape t)))
    | _ => Raise TypeError
    end.

(** *** parse_price *)

(** [\d+(?:\.\d+)?|\.\d+] *)
Definition numeral_re : Re.regex :=
  Re.Alt
    (Re.Seq (Re.Plus Str.is_digit)
       (Re.Opt (Re.Seq (Re.Chr (Str.is_char ".")) (Re.Plus Str.is_digit))))
    (Re.Seq (Re.Chr (Str.is_char ".")) (Re.Plus Str.is_digit)).

(** [r'(?<!\d)(\d+(?:\.\d+)?|\.\d+)(?!\d)'] *)
Definition price_re : Re.regex :=
  Re.Seq (Re.NotBehind Str.is_digit)
    (Re.Seq (Re.Group "1" numeral_re) (Re.NotAhead Str.is_digit)).

Definition garbage_prices : list string := ["."; "-"; "N/A"; "na"; "NA"; ""].

(** [".99"] becomes ["0.99"]. *)
Definition with_leading_zero (num : string) : string :=
  if Str.starts_with_char "." num then "0" ++ num else num.

Definition parse_price (price_str : pyval) : res (option spec_float) :=
  if negb (truthy price_str) then Ok None
  else
    let s := Str.strip (py_str price_str) in
    if Str.mem s garbage_prices then Ok None
    else
      let s := Str.remove_char "," s in
      match Re.search price_re s with
      | None => Ok None
      | Some m =>
          match Re.group "1" (Re.groups m) with
          | None => Raise AttributeError
          | Some num =>
              let num := with_leading_zero num in
              match Numeral.float_of_str num with
              | Some f => Ok (Some f)
              | None => Ok None          (* except ValueError *)
              end
          end
      end.

(** *** parse_date *)

Definition strftime (d : Date.date) : string :=
  year_text (Date.year d) ++ "-" ++ Date.pad 2 (Date.month d)
    ++ "-" ++ Date.pad 2 (Date.day d).

(** [datetime.strptime(v, "%m %d, %Y")]: a value that is not a [str]
    raises [TypeError]. *)
Definition strptime (v : pyval) : res Date.date :=
  match v with
  | VStr s => Date.strptime_m_d_Y s
  | _ => Raise TypeError
  end.

Definition parse_date (review_time_str unix_ts : pyval) : res (option string) :=
  if truthy unix_ts then
    t <- py_int unix_ts ;;
    d <- Date.utcfromtimestamp t ;;
    Ok (Some (strftime d))
  else if negb (truthy review_time_str) then Ok None
  else
    match strptime review_time_str with
    | Ok d => Ok (Some (strftime d))
    | Raise _ => Ok None                 (* except Exception *)
    end.

(** *** load_asin_meta *)

Definition default_keep_fields : list string :=
  ["title"; "brand"; "main_cat"; "category"; "price"; "rank"].

(** [{k: obj.get(k) for k in keep_fields if k in obj}] *)
Definition project (keep_fields : list string) (obj : dict) : dict :=
  fold_left
    (fun rec k => if Dict.contains obj k then Dict.set rec k (Dict.get obj k) else rec)
    keep_fields [].

Definition is_str (v : pyval) : bool :=
  match v with
  | VStr _ => true
  | _ => false
  end.

(** The two ["sanitize"] steps on a projected record. *)
Definition sanitize (rec : dict) : res dict :=
  rec <- (if Dict.contains rec "price" then
            p <- parse_price (Dict.get rec "price") ;;
            Ok (Dict.set rec "price" (opt_float p))
          else Ok rec) ;;
  Ok (if Dict.contains rec "category" && is_str (Dict.get rec "category") then
        Dict.set rec "category" (VList [Dict.get rec "category"])
      else rec).

(** [max_rows and i >= max_rows] *)
Definition cap_reached (max_rows : option Z) (i : Z) : bool :=
  match max_rows with
  | Some n => negb (Z.eqb n 0) && Z.leb n i
  | None => false
  end.

(** The loop of [load_asin_meta] from line number [i] on. *)
Fixpoint load_loop (keep_fields : list string) (max_rows : option Z)
    (lines : list jsonl_line) (i : Z) (asin_map : asin_index) : res asin_index :=
  match lines with
  | [] => Ok asin_map
  | Blank :: rest => load_loop keep_fields max_rows rest (i + 1)%Z asin_map
  | Malformed :: _ => Raise JSONDecodeError
  | Rejected e :: _ => Raise e
  | Parsed v :: rest =>
      obj <- as_dict v ;;
      let asin := Dict.get obj "asin" in
      if negb (truthy asin) then
        load_loop keep_fields max_rows rest (i + 1)%Z asin_map
      else
        rec <- sanitize (project keep_fields obj) ;;
        asin_map <- Index.set asin_map asin rec ;;
        if cap_reached max_rows i then Ok asin_map
        else load_loop keep_fields max_rows rest (i + 1)%Z asin_map
  end.

(** [keep_fields or [...]] *)
Definition keep_fields_or_default (keep_fields : option (list string)) : list string :=
  match keep_fields with
  | Some (k :: ks) => k :: ks
  | Some [] | None => default_keep_fields
  end.

Definition load_asin_meta (meta : list jsonl_line)
    (keep_fields : option (list string)) (max_rows : option Z) : res asin_index :=
  load_loop (keep_fields_or_default keep_fields) max_rows meta 1%Z [].

(** *** make_embed_text *)

Definition is_none (v : pyval) : bool :=
  match v with
  | VNone => true
  | _ => false
  end.

Definition newline : string := String "010" EmptyString.

(** [title], with its fallback to the product identifier of the review. *)
Definition title_of (prod review : dict) : pyval :=
  py_or (Dict.get prod "title")
        (VStr ("ASIN " ++ py_str (Dict.get_default review "asin" (VStr "")))).

(** [cat_line]: [(cats[0] if cats else main_cat) or "Toys & Games"]. *)
Definition cat_line (prod : dict) : res pyval :=
  let cats := py_or (Dict.get prod "category") (VList []) in
  let main_cat := py_or (Dict.get prod "main_cat") (VStr "") in
  c <- (if truthy cats then py_first cats else Ok main_cat) ;;
  Ok (py_or c (VStr "Toys & Games")).

(** [summary] and [body]: [(review.get(k) or "").strip()]. *)
Definition stripped_field (review : dict) (k : string) : res string :=
  py_strip (py_or (Dict.get review k) (VStr "")).

(** The five entries of [parts]. *)
Definition product_part (prod review : dict) : string :=
  let brand := Dict.get prod "brand" in
  "Product: " ++ py_str (title_of prod review)
    ++ (if truthy brand then " (Brand: " ++ py_str brand ++ ")" else "").

Definition category_part (c : pyval) : string := "Category: " ++ py_str c.

Definition rating_part (review : dict) : res string :=
  let rating := Dict.get review "overall" in
  let verified := Dict.get review "verified" in
  if is_none rating then Ok ""
  else
    n <- py_int rating ;;
    Ok ("Rating: " ++ Str.of_Z n ++ " stars"
          ++ (if truthy verified then " (Verified Purchase)" else "")).

Definition summary_part (summary : string) : string :=
  if Str.nonempty summary then "Review Summary: " ++ summary else "".

Definition body_part (body : string) : string := "Full Review: " ++ body.

Definition make_embed_text (prod review : dict) : res string :=
  c <- cat_line prod ;;
  summary <- stripped_field review "summary" ;;
  body <- stripped_field review "reviewText" ;;
  rating <- rating_part review ;;
  let parts :=
    [ product_part prod review;
      category_part c;
      rating;
      summary_part summary;
      body_part body ] in
  Ok (Str.strip (Str.join newline (filter Str.nonempty parts))).

(** *** process_reviews *)

(** The counters and the records written so far, oldest first. *)
Record pr_state : Type := mkst {
  n_in : nat;
  n_out : nat;
  bad_asin : nat;
  fout : list pyval
}.

(** [bool(prod)] for what [asin_map.get] returned: [None] and the empty
    record are false. *)
Definition prod_truthy (prod : option dict) : bool :=
  match prod with
  | Some d => truthy (VDict d)
  | None => false
  end.

(** [prod or {}] *)
Definition prod_or_empty (prod : option dict) : dict :=
  if prod_truthy prod then
    match prod with
    | Some d => d
    | None => []
    end
  else [].

(** The record [rec] built for one review. *)
Definition make_record (asin : pyval) (prod r : dict) (text : string)
    (review_time : option string) : pyval :=
  VDict
    [ ("id", VStr (py_str asin ++ "_"
                     ++ py_str (Dict.get_default r "reviewerID" (VStr "")) ++ "_"
                     ++ py_str (Dict.get_default r "unixReviewTime" (VStr ""))));
      ("asin", asin);
      ("embedding_text", VStr text);
      ("meta",
        VDict
          [ ("product_title", Dict.get prod "title");
            ("brand", Dict.get prod "brand");
            ("main_cat", Dict.get prod "main_cat");
            ("categories", Dict.get prod "category");
            ("price", Dict.get prod "price");
            ("also_buy", Dict.get prod "also_buy");
            ("also_view", Dict.get prod "also_view");
            ("review_time", opt_str review_time);
            ("rating", Dict.get r "overall");
            ("verified", Dict.get r "verified");
            ("review_summary", Dict.get r "summary");
            ("review_text", Dict.get r "reviewText") ]) ].

(** One turn of the loop of [process_reviews]. *)
Definition loop_body (asin_map : asin_index) (drop_if_missing_meta : bool)
    (st : pr_state) (line : jsonl_line) : res pr_state :=
  match line with
  | Blank => Ok st
  | Malformed => Raise JSONDecodeError
  | Rejected e => Raise e
  | Parsed v =>
      let st := mkst (S (n_in st)) (n_out st) (bad_asin st) (fout st) in
      r <- as_dict v ;;
      let asin := Dict.get r "asin" in
      if negb (truthy asin) then Ok st
      else
        prod <- Index.get asin_map asin ;;
        if negb (prod_truthy prod) && drop_if_missing_meta then
          Ok (mkst (n_in st) (n_out st) (S (bad_asin st)) (fout st))
        else
          let prod := prod_or_empty prod in
          text <- make_embed_text prod r ;;
          review_time <-
            parse_date (Dict.get r "reviewTime") (Dict.get r "unixReviewTime") ;;
          let rec := make_record asin prod r text review_time in
          Ok (mkst (n_in st) (S (n_out st)) (bad_asin st) (fout st ++ [rec])%list)
  end.

(** The loop: the state when it stops, and the exception that stopped
    it, if any. *)
Fixpoint process_loop (asin_map : asin_index) (drop_if_missing_meta : bool)
    (lines : list jsonl_line) (st : pr_state) : pr_state * option exn :=
  match lines with
  | [] => (st, None)
  | line :: rest =>
      match loop_body asin_map drop_if_missing_meta st line with
      | Ok st' => process_loop asin_map drop_if_missing_meta rest st'
      | Raise e => (st, Some e)
      end
  end.

(** [process_reviews]: the records written to [out_path], and the stats
    returned or the exception raised. *)
Definition process_reviews (reviews : list jsonl_line) (asin_map : asin_index)
    (drop_if_missing_meta : bool) : list pyval * res stats :=
  let '(st, e) := process_loop asin_map drop_if_missing_meta reviews (mkst 0 0 0 []) in
  (fout st,
   match e with
   | None => Ok (mkstats (n_in st) (n_out st) (bad_asin st))
   | Some e => Raise e
   end).

(** The text of the output file: one [json.dumps] line per record. *)
Definition sink_text (records : list pyval) : string :=
  String.concat "" (map (fun r => json_dumps r ++ newline) records).

(** *** main *)

(** The three files of a run.  [out_file] is [None] while the output path
    does not exist. *)
Record files : Type := mkfiles {
  meta_file : list jsonl_line;
  reviews_file : list jsonl_line;
  out_file : option string
}.

(** The summary [main] prints. *)
Record summary : Set := mksummary {
  run_stats : stats;
  unique_asins_meta : nat
}.

(** [main], with the policy of [process_reviews] made a parameter: the
    files after the run, and what is printed or raised.  The output is
    opened (and truncated) only once the metadata is loaded. *)
Definition main_with (drop_if_missing_meta : bool) (fs : files) : files * res summary :=
  match load_asin_meta (meta_file fs) None None with
  | Raise e => (fs, Raise e)
  | Ok asin_map =>
      let '(records, r) :=
        process_reviews (reviews_file fs) asin_map drop_if_missing_meta in
      (mkfiles (meta_file fs) (reviews_file fs) (Some (sink_text records)),
       s <- r ;; Ok (mksummary s (length asin_map)))
  end.

Definition main (fs : files) : files * res summary := main_with true fs.

(** *** Vocabulary of the statements *)

(** The optional lines between the category line and the review body. *)
Definition middle_lines (rating summary : string) : string :=
  (if Str.nonempty rating then rating ++ newline else "")
    ++ (if Str.nonempty summary then "Review Summary: " ++ summary ++ newline else "").

(** The tail of the text: the body part as [strip] leaves it. *)
Definition body_tail (body : string) : string :=
  "Full Review:" ++ (if Str.nonempty body then " " ++ body else "").

(** A line that [process_reviews] counts in [read]. *)
Definition counted (line : jsonl_line) : bool :=
  match line with
  | Blank => false
  | Parsed _ | Malformed | Rejected _ => true
  end.

(** A review row with a present, non-empty product identifier. *)
Definition has_asin (line : jsonl_line) : bool :=
  match line with
  | Parsed (VDict r) => truthy (Dict.get r "asin")
  | _ => false
  end.

(** A counted row without a usable product identifier. *)
Definition lacks_asin (line : jsonl_line) : bool :=
  counted line && negb (has_asin line).

(** A review row that the join keeps: it has a product identifier, and
    its index entry is truthy or the drop policy is off. *)
Definition accepted (asin_map : asin_index) (drop_if_missing_meta : bool)
    (line : jsonl_line) : bool :=
  match line with
  | Parsed (VDict r) =>
      let asin := Dict.get r "asin" in
      truthy asin
      && (prod_truthy (Index.lookup asin_map asin) || negb drop_if_missing_meta)
  | _ => false
  end.

(** A review row that the join drops for missing metadata. *)
Definition dropped (asin_map : asin_index) (drop_if_missing_meta : bool)
    (line : jsonl_line) : bool :=
  match line with
  | Parsed (VDict r) =>
      let asin := Dict.get r "asin" in
      truthy asin
      && negb (prod_truthy (Index.lookup asin_map asin)) && drop_if_missing_meta
  | _ => false
  end.

(** [rec] is the record of review row [line]. *)
Definition emits (asin_map : asin_index) (line : jsonl_line) (rec : pyval) : Prop :=
  exists r text review_time,
    line = Parsed (VDict r) /\
    let asin := Dict.get r "asin" in
    let prod := prod_or_empty (Index.lookup asin_map asin) in
    make_embed_text prod r = Ok text /\
    parse_date (Dict.get r "reviewTime") (Dict.get r "unixReviewTime")
      = Ok review_time /\
    rec = make_record asin prod r text review_time.

Definition count {A : Type} (f : A -> bool) (l : list A) : nat :=
  length (filter f l).

Definition b2n (b : bool) : nat := if b then 1 else 0.

(** A line on which the loops do not raise is blank or a JSON object. *)
Definition well_formed (line : jsonl_line) : Prop :=
  line = Blank \/ exists r, line = Parsed (VDict r).

(** The index entry [(asin, rec)] was made from the metadata row [obj]:
    the row carries the identifier (or one equal to it as a key) and
    [rec] is its sanitized projection. *)
Definition from_row (keep_fields : list string) (obj : dict)
    (asin : pyval) (rec : dict) : Prop :=
  truthy (Dict.get obj "asin") = true /\
  (asin = Dict.get obj "asin" \/ Key.eqb (Dict.get obj "asin") asin = true) /\
  sanitize (project keep_fields obj) = Ok rec.

(** Field values of the declared types: a text field is a string or
    absent, a rating is an integer, a boolean, a finite float or absent,
    and the categories are a sequence or absent. *)
Definition text_or_absent (v : pyval) : bool :=
  match v with
  | VNone | VStr _ => true
  | _ => false
  end.

Definition rating_or_absent (v : pyval) : bool :=
  match v with
  | VNone | VInt _ | VBool _ => true
  | VFloat (S754_zero _) | VFloat (S754_finite _ _ _) => true
  | _ => false
  end.

Definition sequence_or_absent (v : pyval) : bool :=
  match v with
  | VNone | VList _ => true
  | _ => false
  end.

(** Some character of [s] is in the class [p]. *)
Fixpoint any_char (p : ascii -> bool) (s : string) : bool :=
  match s with
  | EmptyString => false
  | String c s' => p c || any_char p s'
  end.

(** [a in s] for a one-character [a] *)
Definition has_char (a : ascii) (s : string) : bool := any_char (Str.is_char a) s.


(** A float that is neither negative nor [nan]: [0.0], a positive finite
    value, or [inf]. *)
Definition nonneg_float (f : spec_float) : bool :=
  match f with
  | S754_zero false | S754_infinity false | S754_finite false _ _ => true
  | _ => false
  end.


(** The exception [e] comes from a line of [lines], in one of the four
    ways the loop of [load_asin_meta] can fail: text that is not JSON,
    text on which [json.loads] raises something else, a value that is not
    a JSON object, a row whose identifier cannot be hashed. *)
Definition raised_by_line (e : exn) (lines : list jsonl_line) : Prop :=
  (e = JSONDecodeError /\ In Malformed lines) \/
  In (Rejected e) lines \/
  (e = AttributeError /\
   exists v, In (Parsed v) lines /\ as_dict v = Raise AttributeError) \/
  (e = TypeError /\
   exists obj, In (Parsed (VDict obj)) lines /\
               truthy (Dict.get obj "asin") = true /\
               Key.hashable (Dict.get obj "asin") = false).

(** The identifiers of the rows that have one, in the order of the
    source. *)
Definition row_ids (lines : list jsonl_line) : list pyval :=
  flat_map
    (fun line =>
       match line with
       | Parsed (VDict obj) =>
           if truthy (Dict.get obj "asin") then [Dict.get obj "asin"] else []
       | _ => []
       end) lines.

(** The identifiers of [ks] without repeats: each one where it first
    occurs, and none that equals, as a dict key, one before it. *)
Fixpoint first_occurrences (ks : list pyval) : list pyval :=
  match ks with
  | [] => []
  | k :: ks' => k :: filter (fun k' => negb (Key.eqb k' k)) (first_occurrences ks')
  end.

(** A metadata line on which the loop of [load_asin_meta] does not raise:
    a blank line, or a JSON object whose identifier is falsy or can be
    hashed. *)
Definition loadable (line : jsonl_line) : bool :=
  match line with
  | Blank => true
  | Parsed (VDict obj) =>
      negb (truthy (Dict.get obj "asin")) || Key.hashable (Dict.get obj "asin")
  | _ => false
  end.


(** The counters and records of two stretches of a run, put together. *)
Definition st_add (a b : pr_state) : pr_state :=
  mkst (n_in a + n_in b) (n_out a + n_out b) (bad_asin a + bad_asin b)
       (fout a ++ fout b)%list.

(** A review row that is a JSON object without a usable identifier. *)
Definition no_asin_row (line : jsonl_line) : bool :=
  match line with
  | Parsed (VDict r) => negb (truthy (Dict.get r "asin"))
  | _ => false
  end.

(** The field [k] of the ["meta"] object of an output record. *)
Definition record_meta (rec : pyval) (k : string) : option pyval :=
  match rec with
  | VDict d =>
      match Dict.lookup d "meta" with
      | Some (VDict m) => Dict.lookup m k
      | _ => None
      end
  | _ => None
  end.


(* ===================================================================== *)
(** ** Properties *)

(** *** Stripping *)

Lemma append_nonempty (a b : string) : b <> "" -> a ++ b <> "".
Proof.
  destruct a; simpl; [auto|discriminate].
Qed.

Lemma append_assoc (a b c : string) : (a ++ b) ++ c = a ++ b ++ c.
Proof.
  induction a as [|x a IH]; simpl; [reflexivity|now rewrite IH].
Qed.

Lemma append_empty_r (a : string) : a ++ "" = a.
Proof.
  induction a as [|x a IH]; simpl; [reflexivity|now rewrite IH].
Qed.

Lemma rstrip_cons_nonempty (c : ascii) (s : string) :
  Str.rstrip s <> "" -> Str.rstrip (String c s) = String c (Str.rstrip s).
Proof.
  intros H. simpl. destruct (Str.rstrip s); [contradiction|reflexivity].
Qed.

(** Stripping on the right leaves alone what precedes a part that does
    not vanish. *)
Lemma rstrip_app (a b : string) :
  Str.rstrip b <> "" -> Str.rstrip (a ++ b) = a ++ Str.rstrip b.
Proof.
  intros H. induction a as [|c a IH]; [reflexivity|].
  change (String c a ++ b) with (String c (a ++ b)).
  rewrite rstrip_cons_nonempty; rewrite IH.
  - reflexivity.
  - now apply append_nonempty.
Qed.

Lemma rstrip_idem (s : string) : Str.rstrip (Str.rstrip s) = Str.rstrip s.
Proof.
  induction s as [|c s IH]; [reflexivity|].
  simpl. destruct (Str.rstrip s) as [|d r] eqn:E.
  - destruct (Str.is_space c) eqn:Ec; simpl; [reflexivity|now rewrite Ec].
  - rewrite rstrip_cons_nonempty; rewrite IH; [reflexivity|discriminate].
Qed.

Lemma rstrip_strip (s : string) : Str.rstrip (Str.strip s) = Str.strip s.
Proof.
  unfold Str.strip. apply rstrip_idem.
Qed.

Lemma nonempty_true (s : string) : Str.nonempty s = true <-> s <> "".
Proof.
  destruct s; simpl; split; congruence.
Qed.

(** What [strip] leaves of a text that begins with a letter [P] and ends
    with the body part of a stripped body: only the space after the colon
    can go, and it goes exactly when the body is empty. *)
Lemma strip_parts (pre x : string) :
  let body := Str.strip x in
  Str.strip (String "P" pre ++ body_part body) =
    String "P" pre ++ "Full Review:"
      ++ (if Str.nonempty body then " " ++ body else "").
Proof.
  intros body. unfold Str.strip at 1.
  change (Str.lstrip (String "P" pre ++ body_part body))
    with (String "P" pre ++ body_part body).
  destruct (Str.nonempty body) eqn:E.
  - apply nonempty_true in E.
    assert (Hb : Str.rstrip (body_part body) = body_part body).
    { unfold body_part. rewrite rstrip_app; unfold body; rewrite rstrip_strip;
        [reflexivity|exact E]. }
    rewrite rstrip_app; rewrite Hb.
    + reflexivity.
    + discriminate.
  - destruct body; [|discriminate]. rewrite rstrip_app; reflexivity || discriminate.
Qed.

(** *** Endings *)

Lemma last_char_app (a b : string) :
  b <> "" -> Str.last_char (a ++ b) = Str.last_char b.
Proof.
  intros Hb. induction a as [|c a IH]; [reflexivity|].
  cbn [append Str.last_char]. rewrite IH.
  destruct (a ++ b) eqn:E; [|reflexivity].
  exfalso. apply (append_nonempty a b Hb). exact E.
Qed.

Lemma ends_with_last_char (suffix s : string) :
  suffix <> "" -> Str.ends_with suffix s ->
  Str.last_char s = Str.last_char suffix.
Proof.
  intros Hs (pre & ->). now apply last_char_app.
Qed.

Lemma rstrip_last_char (s : string) (c : ascii) :
  Str.last_char (Str.rstrip s) = Some c -> Str.is_space c = false.
Proof.
  induction s as [|d s IH]; [discriminate|].
  cbn [Str.rstrip]. destruct (Str.rstrip s) as [|e r] eqn:E.
  - destruct (Str.is_space d) eqn:Ed; [discriminate|].
    cbn. intros H; injection H as <-. exact Ed.
  - intros H. apply IH. exact H.
Qed.

(** A stripped text does not end with whitespace. *)
Lemma strip_last_char (s : string) (c : ascii) :
  Str.last_char (Str.strip s) = Some c -> Str.is_space c = false.
Proof.
  unfold Str.strip. apply rstrip_last_char.
Qed.

Lemma make_embed_text_stripped (prod review : dict) (text : string) :
  make_embed_text prod review = Ok text -> exists s, text = Str.strip s.
Proof.
  unfold make_embed_text. intros H.
  destruct (cat_line prod); [|discriminate].
  destruct (stripped_field review "summary"); [|discriminate].
  destruct (stripped_field review "reviewText"); [|discriminate].
  destruct (rating_part review); [|discriminate].
  unfold bind in H. injection H as <-. eauto.
Qed.

(** *** The matcher *)

Lemma star_result {A : Type} (p : ascii -> bool) (s : string) :
  forall (b : option ascii) (g : list (string * string))
         (k : Re.pos -> option A) (a : A),
    Re.star p b s g k = Some a -> exists st, k st = Some a.
Proof.
  induction s as [|c s IH]; intros b g k a H; simpl in H.
  - eauto.
  - destruct (p c); [|eauto].
    destruct (Re.star p (Some c) s g k) eqn:E.
    + inversion H; subst. eapply IH; eauto.
    + eauto.
Qed.

(** Whatever a successful run returns was returned by its continuation. *)
Lemma run_result {A : Type} (r : Re.regex) :
  forall (st : Re.pos) (k : Re.pos -> option A) (a : A),
    Re.run r st k = Some a -> exists st', k st' = Some a.
Proof.
  induction r as [|p|r1 IH1 r2 IH2|r1 IH1 r2 IH2|p|r1 IH1|name r1 IH1|p|p];
    intros st k a H; simpl in H.
  - eauto.
  - destruct (Re.rest st) as [|c s']; [discriminate|].
    destruct (p c); [eauto|discriminate].
  - apply IH1 in H. destruct H as [st1 H]. apply IH2 in H. exact H.
  - destruct (Re.run r1 st k) eqn:E.
    + inversion H; subst. eapply IH1; eauto.
    + eapply IH2; eauto.
  - destruct (Re.rest st) as [|c s']; [discriminate|].
    destruct (p c); [|discriminate].
    eapply star_result; eauto.
  - destruct (Re.run r1 st k) eqn:E.
    + inversion H; subst. eapply IH1; eauto.
    + eauto.
  - apply IH1 in H. destruct H as [st1 H]. eauto.
  - destruct (Re.before st) as [c|]; [destruct (p c)|]; try discriminate; eauto.
  - destruct (Re.rest st) as [|c s']; [eauto|].
    destruct (p c); [discriminate|eauto].
Qed.

Lemma search_from_match (r : Re.regex) (s : string) :
  forall (b : option ascii) (m : Re.pos),
    Re.search_from r b s = Some m ->
    exists b' s', Re.match_at r b' s' = Some m.
Proof.
  induction s as [|c s IH]; intros b m H; simpl in H.
  - destruct (Re.match_at r b "") eqn:E; [|discriminate].
    inversion H; subst; eauto.
  - destruct (Re.match_at r b (String c s)) eqn:E.
    + inversion H; subst; eauto.
    + eapply IH; eauto.
Qed.

(** How a match of the price pattern runs: the look-behind, the numeral,
    the look-ahead, and then the group is recorded. *)
Lemma price_re_run (b : option ascii) (s : string) :
  Re.match_at price_re b s =
    match b with
    | Some c =>
        if Str.is_digit c then None
        else
          Re.run numeral_re (Re.mkpos b s [])
            (fun st => Re.run (Re.NotAhead Str.is_digit)
               (Re.mkpos (Re.before st) (Re.rest st)
                  (("1", Re.consumed s (Re.rest st)) :: Re.groups st)) Some)
    | None =>
        Re.run numeral_re (Re.mkpos b s [])
          (fun st => Re.run (Re.NotAhead Str.is_digit)
             (Re.mkpos (Re.before st) (Re.rest st)
                (("1", Re.consumed s (Re.rest st)) :: Re.groups st)) Some)
    end.
Proof.
  destruct b as [c|]; reflexivity.
Qed.

(** A match of the price pattern always carries its group 1. *)
Lemma price_re_group (s : string) (m : Re.pos) :
  Re.search price_re s = Some m ->
  exists num, Re.group "1" (Re.groups m) = Some num.
Proof.
  intros H. apply search_from_match in H. destruct H as (b & s' & H).
  rewrite price_re_run in H.
  assert (G : exists st,
             Re.run (Re.NotAhead Str.is_digit)
               (Re.mkpos (Re.before st) (Re.rest st)
                  (("1", Re.consumed s' (Re.rest st)) :: Re.groups st))
               Some = Some m).
  { destruct b as [c|]; [destruct (Str.is_digit c); [discriminate|]|];
      apply run_result in H; exact H. }
  destruct G as (st & G). cbn [Re.run Re.rest] in G.
  destruct (Re.rest st) as [|c t].
  - inversion G; subst. simpl. eauto.
  - destruct (Str.is_digit c); [discriminate|].
    inversion G; subst. simpl. eauto.
Qed.

(** [parse_price] returns for every value: nothing in it raises except
    [float], whose [ValueError] is caught. *)
Lemma parse_price_total (v : pyval) :
  exists r, parse_price v = Ok r.
Proof.
  unfold parse_price.
  destruct (negb (truthy v)); [eauto|].
  destruct (Str.mem _ garbage_prices); [eauto|].
  destruct (Re.search price_re _) as [m|] eqn:E; [|eauto].
  apply price_re_group in E. destruct E as (num & ->).
  destruct (Numeral.float_of_str _); eauto.
Qed.

(** Without a usable timestamp [parse_date] returns for every text. *)
Lemma parse_date_text_total (text ts : pyval) :
  truthy ts = false -> exists r, parse_date text ts = Ok r.
Proof.
  intros H. unfold parse_date. rewrite H.
  destruct (negb (truthy text)); [eauto|].
  destruct (strptime text); eauto.
Qed.

(** *** What the price pattern matches *)

Lemma last_or_cons (b : option ascii) (c : ascii) (s : string) :
  Str.last_or b (String c s) = Str.last_or (Some c) s.
Proof.
  unfold Str.last_or. cbn [Str.last_char]. destruct s as [|d s]; [reflexivity|].
  destruct (Str.last_char (String d s)) eqn:E; [reflexivity|].
  exfalso. clear -E. revert d E. induction s as [|e s IH]; intros d E; [discriminate|].
  cbn [Str.last_char] in E. eapply IH; eauto.
Qed.

Lemma star_split {A : Type} (p : ascii -> bool) (s : string) :
  forall (b : option ascii) (g : list (string * string))
         (k : Re.pos -> option A) (a : A),
    Re.star p b s g k = Some a ->
    exists ds s',
      s = ds ++ s' /\ Str.all p ds = true /\
      k (Re.mkpos (Str.last_or b ds) s' g) = Some a.
Proof.
  induction s as [|c s IH]; intros b g k a H; cbn [Re.star] in H.
  - exists "", "". auto.
  - destruct (p c) eqn:Ec.
    + destruct (Re.star p (Some c) s g k) as [a'|] eqn:E.
      * injection H as ->. destruct (IH _ _ _ _ E) as (ds & s' & -> & Hall & Hk).
        exists (String c ds), s'. rewrite last_or_cons. cbn [Str.all]. rewrite Ec.
        auto.
      * exists "", (String c s). auto.
    + exists "", (String c s). auto.
Qed.

Lemma plus_split {A : Type} (p : ascii -> bool) (st : Re.pos)
    (k : Re.pos -> option A) (a : A) :
  Re.run (Re.Plus p) st k = Some a ->
  exists ds s',
    Re.rest st = ds ++ s' /\ Str.nonempty ds = true /\ Str.all p ds = true /\
    k (Re.mkpos (Str.last_char ds) s' (Re.groups st)) = Some a.
Proof.
  cbn [Re.run]. destruct (Re.rest st) as [|c s]; [discriminate|].
  destruct (p c) eqn:Ec; [|discriminate].
  intros H. destruct (star_split _ _ _ _ _ _ H) as (ds & s' & -> & Hall & Hk).
  exists (String c ds), s'. cbn [Str.all Str.nonempty]. rewrite Ec.
  repeat (split; [reflexivity || assumption|]).
  replace (Str.last_char (String c ds)) with (Str.last_or (Some c) ds); [exact Hk|].
  rewrite <- (last_or_cons None). unfold Str.last_or.
  destruct (Str.last_char (String c ds)) eqn:E; [reflexivity|].
  exfalso. clear -E. revert c E. induction ds as [|e s IH]; intros d E; [discriminate|].
  cbn [Str.last_char] in E. eapply IH; eauto.
Qed.

Lemma run_seq {A} r1 r2 st (k : Re.pos -> option A) :
  Re.run (Re.Seq r1 r2) st k = Re.run r1 st (fun st' => Re.run r2 st' k).
Proof. reflexivity. Qed.

Lemma run_alt {A} r1 r2 st (k : Re.pos -> option A) :
  Re.run (Re.Alt r1 r2) st k =
    match Re.run r1 st k with Some a => Some a | None => Re.run r2 st k end.
Proof. reflexivity. Qed.

Lemma run_opt {A} r st (k : Re.pos -> option A) :
  Re.run (Re.Opt r) st k =
    match Re.run r st k with Some a => Some a | None => k st end.
Proof. reflexivity. Qed.

Lemma chr_split {A : Type} (c : ascii) (st : Re.pos)
    (k : Re.pos -> option A) (a : A) :
  Re.run (Re.Chr (Str.is_char c)) st k = Some a ->
  exists s', Re.rest st = String c s' /\
             k (Re.mkpos (Some c) s' (Re.groups st)) = Some a.
Proof.
  cbn [Re.run]. destruct (Re.rest st) as [|d s]; [discriminate|].
  unfold Str.is_char. destruct (Ascii.eqb_spec c d) as [->|]; [|discriminate].
  eauto.
Qed.

Lemma last_char_nonempty (s : string) :
  Str.nonempty s = true -> Str.last_char s <> None.
Proof.
  induction s as [|c s IH]; [discriminate|]. intros _.
  cbn [Str.last_char]. destruct s; [discriminate|]. now apply IH.
Qed.

(** *** Greediness *)

(** A star succeeds as soon as its continuation accepts one of the ways
    to split off a run. *)
Lemma star_complete {A : Type} (p : ascii -> bool) (s : string) :
  forall (b : option ascii) (g : list (string * string))
         (k : Re.pos -> option A) (ds s' : string),
    s = ds ++ s' -> Str.all p ds = true ->
    k (Re.mkpos (Str.last_or b ds) s' g) <> None ->
    Re.star p b s g k <> None.
Proof.
  induction s as [|c s IH]; intros b g k ds s' Hs Hall Hk; cbn [Re.star].
  - destruct ds; [|discriminate]. cbn [append] in Hs. subst s'. exact Hk.
  - destruct ds as [|d ds].
    + cbn [append] in Hs. subst s'.
      destruct (p c); [|exact Hk].
      destruct (Re.star p (Some c) s g k); [discriminate|exact Hk].
    + cbn [append] in Hs. injection Hs as Hc Hs. subst c s.
      cbn [Str.all] in Hall. apply andb_true_iff in Hall. destruct Hall as [-> Hall].
      rewrite last_or_cons in Hk.
      pose proof (IH (Some d) g k ds s' eq_refl Hall Hk) as Hne.
      destruct (Re.star p (Some d) (ds ++ s') g k); [discriminate|contradiction].
Qed.

(** Every text starts with a longest run of digits. *)
Lemma digit_span (s : string) :
  exists ds s',
    s = ds ++ s' /\ Str.all Str.is_digit ds = true /\
    Str.not_digit (Str.first_char s').
Proof.
  induction s as [|c s (ds & s' & -> & Hall & Hn)].
  - exists "", "". repeat split.
  - destruct (Str.is_digit c) eqn:Ec.
    + exists (String c ds), s'. cbn [Str.all]. rewrite Ec. auto.
    + exists "", (String c (ds ++ s')). cbn [Str.first_char Str.not_digit]. auto.
Qed.

(** A fraction is read whenever one is there and the continuation accepts
    every position that no digit follows. *)
Lemma fraction_complete {A : Type} (st : Re.pos) (k : Re.pos -> option A)
    (c : ascii) (t : string) :
  Re.rest st = String "." (String c t) -> Str.is_digit c = true ->
  (forall st', Str.not_digit (Str.first_char (Re.rest st')) -> k st' <> None) ->
  Re.run (Re.Seq (Re.Chr (Str.is_char ".")) (Re.Plus Str.is_digit)) st k <> None.
Proof.
  intros Hs Hc Hk. rewrite run_seq. cbn [Re.run]. rewrite Hs.
  change (Str.is_char "." ".") with true. cbv iota. cbn [Re.rest Re.groups].
  rewrite Hc.
  destruct (digit_span t) as (ds & s' & -> & Hall & Hn).
  apply (star_complete _ _ _ _ _ ds s' eq_refl Hall).
  apply Hk. exact Hn.
Qed.

Lemma all_digits_no_dot (a b : string) :
  Str.all Str.is_digit (a ++ String "." b) = false.
Proof.
  induction a as [|c a IH]; [reflexivity|].
  cbn [append Str.all]. rewrite IH. apply andb_false_r.
Qed.

(** The numeral read is the longest one: a numeral without fraction is
    not followed by a fraction. *)
Lemma numeral_split_greedy {A : Type} (st : Re.pos)
    (k : Re.pos -> option A) (a : A) :
  (forall st', Str.not_digit (Str.first_char (Re.rest st')) -> k st' <> None) ->
  Re.run numeral_re st k = Some a ->
  exists num s',
    Re.rest st = num ++ s' /\ Numeral.shape num /\
    k (Re.mkpos (Str.last_char num) s' (Re.groups st)) = Some a /\
    (Str.digit_run num = true ->
     forall c t, s' = String "." (String c t) -> Str.is_digit c = false).
Proof.
  intros Hk. unfold numeral_re. rewrite run_alt, !run_seq. intros H.
  destruct (Re.run (Re.Plus Str.is_digit) st _) as [a'|] eqn:E1.
  - injection H as ->. apply plus_split in E1.
    destruct E1 as (ds & s1 & Hs & Hne & Hall & H1).
    rewrite run_opt in H1.
    destruct (Re.run (Re.Seq (Re.Chr (Str.is_char ".")) (Re.Plus Str.is_digit)) _ _)
      as [a'|] eqn:E2.
    + injection H1 as ->. rewrite run_seq in E2.
      apply chr_split in E2. cbn [Re.rest Re.groups] in E2.
      destruct E2 as (s2 & -> & E2). apply plus_split in E2.
      cbn [Re.rest Re.groups] in E2.
      destruct E2 as (fs & s3 & -> & Hne2 & Hall2 & H2).
      exists (ds ++ "." ++ fs), s3. split; [|split; [|split]].
      * rewrite Hs. rewrite !append_assoc. reflexivity.
      * apply Numeral.shape_dec; unfold Str.digit_run;
          [now rewrite Hne, Hall|now rewrite Hne2, Hall2].
      * rewrite last_char_app; [|discriminate].
        change ("." ++ fs) with (String "." fs).
        cbn [Str.last_char]. destruct fs; [discriminate|]. exact H2.
      * unfold Str.digit_run. change ("." ++ fs) with (String "." fs).
        rewrite all_digits_no_dot, andb_false_r. discriminate.
    + exists ds, s1. split; [assumption|]. split; [|split; [assumption|]].
      * apply Numeral.shape_int. unfold Str.digit_run. now rewrite Hne, Hall.
      * intros _ c t Hs1. destruct (Str.is_digit c) eqn:Ec; [|reflexivity].
        exfalso.
        eapply (fraction_complete
                  (Re.mkpos (Str.last_char ds) s1 (Re.groups st)) k c t);
          eauto.
  - apply chr_split in H. destruct H as (s1 & Hs & H).
    apply plus_split in H. cbn [Re.rest Re.groups] in H.
    destruct H as (fs & s2 & -> & Hne & Hall & H).
    exists ("." ++ fs), s2. split; [|split; [|split]].
    + rewrite Hs. reflexivity.
    + apply Numeral.shape_frac. unfold Str.digit_run. now rewrite Hne, Hall.
    + change ("." ++ fs) with (String "." fs).
      cbn [Str.last_char]. destruct fs; [discriminate|]. exact H.
    + unfold Str.digit_run. change ("." ++ fs) with ("" ++ String "." fs).
      rewrite all_digits_no_dot, andb_false_r. discriminate.
Qed.

Lemma length_append (a b : string) :
  String.length (a ++ b) = (String.length a + String.length b)%nat.
Proof.
  induction a as [|c a IH]; simpl; [reflexivity|now rewrite IH].
Qed.

Lemma take_append (a b : string) : Re.take (String.length a) (a ++ b) = a.
Proof.
  induction a as [|c a IH]; simpl; [destruct b; reflexivity|now rewrite IH].
Qed.

Lemma consumed_append (a b : string) : Re.consumed (a ++ b) b = a.
Proof.
  unfold Re.consumed. rewrite length_append.
  replace (String.length a + String.length b - String.length b)%nat
    with (String.length a) by lia.
  apply take_append.
Qed.

(** A match of the price pattern at a position: the character before is
    no digit, a numeral follows and is group 1, no digit follows it, and
    a numeral without fraction is not followed by a fraction. *)
Lemma price_re_match (b : option ascii) (s : string) (m : Re.pos) :
  Re.match_at price_re b s = Some m ->
  exists num post,
    s = num ++ post /\ Numeral.shape num /\
    Re.group "1" (Re.groups m) = Some num /\
    Str.not_digit b /\ Str.not_digit (Str.first_char post) /\
    (Str.digit_run num = true ->
     forall c t, post = String "." (String c t) -> Str.is_digit c = false).
Proof.
  rewrite price_re_run. intros H.
  set (k := fun st : Re.pos =>
              Re.run (Re.NotAhead Str.is_digit)
                (Re.mkpos (Re.before st) (Re.rest st)
                   (("1", Re.consumed s (Re.rest st)) :: Re.groups st)) Some) in H.
  assert (Hb : Str.not_digit b /\ Re.run numeral_re (Re.mkpos b s []) k = Some m).
  { destruct b as [c|]; [|split; [exact I|exact H]].
    cbn [Str.not_digit]. destruct (Str.is_digit c); [discriminate|auto]. }
  destruct Hb as (Hb & Hrun).
  assert (Hk : forall st', Str.not_digit (Str.first_char (Re.rest st')) ->
                           k st' <> None).
  { intros st' Hn. unfold k. cbn [Re.run Re.rest].
    destruct (Re.rest st') as [|c t]; [discriminate|].
    cbn [Str.first_char Str.not_digit] in Hn. rewrite Hn. discriminate. }
  apply (numeral_split_greedy _ _ _ Hk) in Hrun.
  cbn [Re.rest Re.groups Re.before] in Hrun.
  destruct Hrun as (num & post & Hs & Hshape & Hkm & Hmax).
  exists num, post. unfold k in Hkm. cbn [Re.rest Re.groups Re.before] in Hkm.
  rewrite Hs, consumed_append in Hkm. cbn [Re.run Re.rest] in Hkm.
  assert (Hpost : Str.not_digit (Str.first_char post) /\
            Re.mkpos (Str.last_char num) post [("1", num)] = m).
  { destruct post as [|c post]; cbn [Str.first_char Str.not_digit].
    - injection Hkm as <-. auto.
    - destruct (Str.is_digit c); [discriminate|]. injection Hkm as <-. auto. }
  destruct Hpost as (Hpost & <-). cbn [Re.groups Re.group].
  rewrite String.eqb_refl. auto 7.
Qed.

(** [re.search] finds the match at the leftmost position that has one. *)
Lemma search_from_split (r : Re.regex) (s : string) :
  forall (b : option ascii) (m : Re.pos),
    Re.search_from r b s = Some m ->
    exists pre s0,
      s = pre ++ s0 /\
      Re.match_at r (Str.last_or b pre) s0 = Some m /\
      (forall p1 p2, pre = p1 ++ p2 -> p2 <> "" ->
         Re.match_at r (Str.last_or b p1) (p2 ++ s0) = None).
Proof.
  induction s as [|c s IH]; intros b m H; cbn [Re.search_from] in H.
  - destruct (Re.match_at r b "") eqn:E; [|discriminate]. injection H as ->.
    exists "", "". split; [reflexivity|]. split; [exact E|].
    intros p1 p2 Hp Hne. destruct p1; [destruct p2|]; try discriminate. now elim Hne.
  - destruct (Re.match_at r b (String c s)) eqn:E.
    + injection H as ->. exists "", (String c s).
      split; [reflexivity|]. split; [exact E|].
      intros p1 p2 Hp Hne. destruct p1; [destruct p2|]; try discriminate. now elim Hne.
    + destruct (IH _ _ H) as (pre & s0 & -> & Hm & Hleft).
      exists (String c pre), s0. split; [reflexivity|].
      split; [rewrite last_or_cons; exact Hm|].
      intros p1 p2 Hp Hne. destruct p1 as [|d p1].
      * cbn [append] in Hp. subst p2. cbn [append]. exact E.
      * cbn [append] in Hp. injection Hp as <- ->.
        rewrite last_or_cons. now apply Hleft.
Qed.

(** *** Markup tags *)

(** A match of the tag pattern is an opening bracket, a non-empty run
    without closing bracket, and a closing bracket. *)
Lemma tag_re_match (b : option ascii) (s : string) (m : Re.pos) :
  Re.match_at tag_re b s = Some m ->
  exists inner,
    s = "<" ++ inner ++ ">" ++ Re.rest m /\
    Str.nonempty inner = true /\
    Str.all (fun c => negb (Str.is_char ">" c)) inner = true.
Proof.
  unfold Re.match_at, tag_re. rewrite !run_seq. intros H.
  apply chr_split in H. cbn [Re.rest Re.groups] in H.
  destruct H as (s1 & -> & H). apply plus_split in H.
  cbn [Re.rest Re.groups] in H. destruct H as (inner & s2 & -> & Hne & Hall & H).
  destruct s2 as [|c s3]; [discriminate|].
  unfold Str.is_char in H at 1.
  destruct (Ascii.eqb_spec ">" c) as [<-|]; [|discriminate].
  injection H as <-. exists inner. auto.
Qed.

Lemma tag_re_shorter (b : option ascii) (s : string) (m : Re.pos) :
  Re.match_at tag_re b s = Some m ->
  (String.length (Re.rest m) < String.length s)%nat.
Proof.
  intros H. apply tag_re_match in H. destruct H as (inner & Hs & _).
  apply (f_equal String.length) in Hs. rewrite !length_append in Hs.
  cbn [String.length] in Hs. lia.
Qed.

(** The rounds that [Re.sub] allows are enough for the tag pattern: more
    of them change nothing. *)
Lemma sub_tags_rounds (repl : string) (n : nat) :
  forall n' s b,
    (String.length s < n)%nat -> (String.length s < n')%nat ->
    Re.sub_from n tag_re repl b s = Re.sub_from n' tag_re repl b s.
Proof.
  induction n as [|n IH]; intros n' s b Hn Hn'; [lia|].
  destruct n' as [|n']; [lia|]. cbn [Re.sub_from].
  destruct (Re.match_at tag_re b s) as [m|] eqn:E.
  - apply tag_re_shorter in E. f_equal. apply IH; lia.
  - destruct s as [|c s]; [reflexivity|].
    cbn [String.length] in Hn, Hn'. f_equal. apply IH; lia.
Qed.

(** *** Numerals as floats *)

Lemma digit_not_dot (c : ascii) : Str.is_digit c = true -> Ascii.eqb c "." = false.
Proof.
  destruct (Ascii.eqb_spec c ".") as [->|]; [discriminate|reflexivity].
Qed.

Lemma digits_value_all (s : string) :
  forall acc, Str.all Str.is_digit s = true ->
              exists n, Numeral.digits_value acc s = Some n.
Proof.
  induction s as [|c s IH]; intros acc H; cbn [Numeral.digits_value].
  - eauto.
  - cbn [Str.all] in H. apply andb_true_iff in H. destruct H as [-> H].
    now apply IH.
Qed.

Lemma all_append (p : ascii -> bool) (a b : string) :
  Str.all p (a ++ b) = Str.all p a && Str.all p b.
Proof.
  induction a as [|c a IH]; cbn [append Str.all]; [reflexivity|].
  now rewrite IH, andb_assoc.
Qed.

Lemma split_dot_digits (ds : string) :
  Str.all Str.is_digit ds = true ->
  Numeral.split_dot ds = (ds, None) /\
  forall fs, Numeral.split_dot (ds ++ String "." fs) = (ds, Some fs).
Proof.
  induction ds as [|c ds IH]; intros H.
  - split; reflexivity.
  - cbn [Str.all] in H. apply andb_true_iff in H. destruct H as [Hc H].
    destruct (IH H) as [IH1 IH2].
    cbn [Numeral.split_dot append]. rewrite (digit_not_dot _ Hc), IH1.
    split; [reflexivity|]. intros fs. now rewrite IH2.
Qed.

(** [float] reads every numeral the pattern can capture, once the
    leading zero is supplied: the [ValueError] branch is never taken. *)
Lemma float_of_str_shape (num : string) :
  Numeral.shape num ->
  exists f, Numeral.float_of_str (with_leading_zero num) = Some f.
Proof.
  unfold Str.digit_run, with_leading_zero, Numeral.float_of_str.
  intros [ds Hds|ds fs Hds Hfs|fs Hfs].
  - apply andb_true_iff in Hds. destruct Hds as [Hne Hall].
    assert (Hs : Str.starts_with_char "." ds = false).
    { destruct ds as [|c ds]; [reflexivity|]. cbn [Str.all] in Hall.
      apply andb_true_iff in Hall. destruct Hall as [Hc _].
      cbn [Str.starts_with_char append]. rewrite Ascii.eqb_sym.
      now apply digit_not_dot. }
    rewrite Hs. rewrite (proj1 (split_dot_digits ds Hall)).
    rewrite Hne, append_empty_r. cbn [orb].
    destruct (digits_value_all ds 0%Z Hall) as (n & ->). eauto.
  - apply andb_true_iff in Hds, Hfs.
    destruct Hds as [Hne Hall]. destruct Hfs as [Hne' Hall'].
    assert (Hs : Str.starts_with_char "." (ds ++ "." ++ fs) = false).
    { destruct ds as [|c ds]; [discriminate|]. cbn [Str.all] in Hall.
      apply andb_true_iff in Hall. destruct Hall as [Hc _].
      cbn [Str.starts_with_char append]. rewrite Ascii.eqb_sym.
      now apply digit_not_dot. }
    rewrite Hs. change ("." ++ fs) with (String "." fs).
    rewrite (proj2 (split_dot_digits ds Hall)).
    rewrite Hne. cbn [orb].
    assert (Hboth : Str.all Str.is_digit (ds ++ fs) = true)
      by (rewrite all_append, Hall, Hall'; reflexivity).
    destruct (digits_value_all _ 0%Z Hboth) as (n & ->). eauto.
  - apply andb_true_iff in Hfs. destruct Hfs as [Hne Hall].
    change (Str.starts_with_char "." ("." ++ fs)) with true. cbv iota.
    change ("0" ++ "." ++ fs) with ("0" ++ String "." fs).
    rewrite (proj2 (split_dot_digits "0" eq_refl)). cbn [Str.nonempty orb].
    assert (Hboth : Str.all Str.is_digit ("0" ++ fs) = true)
      by (rewrite all_append, Hall; reflexivity).
    destruct (digits_value_all _ 0%Z Hboth) as (n & ->). eauto.
Qed.

(** What [parse_price] makes of a string: after trimming and dropping
    commas, the leftmost numeral that no digit touches, read as a float. *)
Lemma parse_price_extracts (s : string) (f : spec_float) :
  parse_price (VStr s) = Ok (Some f) ->
  exists pre num post,
    Str.remove_char "," (Str.strip s) = pre ++ num ++ post /\
    Numeral.shape num /\
    Str.not_digit (Str.last_char pre) /\
    Str.not_digit (Str.first_char post) /\
    (Str.digit_run num = true ->
     forall c t, post = String "." (String c t) -> Str.is_digit c = false) /\
    (forall p1 p2, pre = p1 ++ p2 -> p2 <> "" ->
       Re.match_at price_re (Str.last_char p1) (p2 ++ num ++ post) = None) /\
    Numeral.float_of_str (with_leading_zero num) = Some f.
Proof.
  unfold parse_price. cbn [py_str].
  destruct (negb (truthy (VStr s))); [discriminate|].
  destruct (Str.mem _ garbage_prices); [discriminate|].
  destruct (Re.search price_re _) as [m|] eqn:E; [|discriminate].
  apply search_from_split in E.
  destruct E as (pre & s0 & Hs & Hm & Hleft).
  apply price_re_match in Hm.
  destruct Hm as (num & post & -> & Hshape & Hg & Hb & Hpost & Hmax).
  rewrite Hg. destruct (Numeral.float_of_str _) as [f'|] eqn:Ef; [|discriminate].
  intros H. injection H as ->.
  exists pre, num, post.
  split; [exact Hs|]. split; [exact Hshape|].
  split; [unfold Str.last_or in Hb; destruct (Str.last_char pre); exact Hb|].
  split; [exact Hpost|]. split; [exact Hmax|]. split; [|exact Ef].
  intros p1 p2 Hp Hne. specialize (Hleft p1 p2 Hp Hne).
  unfold Str.last_or in Hleft. destruct (Str.last_char p1); exact Hleft.
Qed.

(** *** The calendar *)

Lemma all_from_spec (f : Z -> bool) (k : nat) :
  forall lo, Date.all_from f k lo = true ->
  forall n, (lo <= n < lo + Z.of_nat k)%Z -> f n = true.
Proof.
  induction k as [|k IH]; intros lo H n Hn; [lia|].
  cbn [Date.all_from] in H. apply andb_true_iff in H. destruct H as [H0 H1].
  destruct (Z.eq_dec n lo) as [->|Hne]; [assumption|].
  apply (IH (lo + 1)%Z H1). lia.
Qed.

(** [month_day] finds the month and the day of every day of a year. *)
Lemma month_day_correct (leap : bool) (n : Z) :
  (0 <= n < 365)%Z -> Date.month_day_ok leap n = true.
Proof.
  intros H. apply (all_from_spec (Date.month_day_ok leap) 365 0%Z).
  - destruct leap; vm_compute; reflexivity.
  - simpl; lia.
Qed.

(** The days before a year, and whether it is a leap year, from its place
    in the 400-, 100- and 4-year cycles. *)
Lemma days_before_year_cycles (q a b c : Z) :
  (0 <= a <= 3)%Z -> (0 <= b <= 24)%Z -> (0 <= c <= 3)%Z ->
  Date.days_before_year (400 * q + 100 * a + 4 * b + c + 1) =
    (146097 * q + 36524 * a + 1461 * b + 365 * c)%Z.
Proof.
  clear html_unescape float_repr str_repr json_dumps year_text.
  intros Ha Hb Hc. unfold Date.days_before_year.
  replace (400 * q + 100 * a + 4 * b + c + 1 - 1)%Z
    with (400 * q + 100 * a + 4 * b + c)%Z by lia.
  Z.to_euclidean_division_equations; lia.
Qed.

Lemma is_leap_cycles (q a b c : Z) :
  (0 <= a <= 3)%Z -> (0 <= b <= 24)%Z -> (0 <= c <= 3)%Z ->
  Date.is_leap (400 * q + 100 * a + 4 * b + c + 1) =
    (c =? 3)%Z && (negb (b =? 24)%Z || (a =? 3)%Z).
Proof.
  clear html_unescape float_repr str_repr json_dumps year_text.
  intros Ha Hb Hc. unfold Date.is_leap.
  destruct (Z.eqb_spec c 3); destruct (Z.eqb_spec b 24); destruct (Z.eqb_spec a 3);
    cbn [andb orb negb];
    repeat match goal with
           | |- context [Z.eqb (Z.modulo ?x ?y) 0] =>
               destruct (Z.eqb_spec (Z.modulo x y) 0)
           end;
    cbn [andb orb negb]; try reflexivity; exfalso.
  all: Z.to_euclidean_division_equations; lia.
Qed.

(** [of_ordinal] inverts [to_ordinal] and yields dates of the calendar:
    the date of day [n] is the one whose ordinal is [n]. *)
Lemma of_ordinal_correct (n : Z) :
  (1 <= n)%Z ->
  let d := Date.of_ordinal n in
  Date.to_ordinal d = n /\
  (1 <= Date.year d)%Z /\
  (n <= Date.max_ordinal -> Date.year d <= 9999)%Z /\
  (1 <= Date.month d <= 12)%Z /\
  (1 <= Date.day d <= Date.days_in_month (Date.year d) (Date.month d))%Z.
Proof.
  intros Hn. unfold Date.of_ordinal.
  set (n' := (n - 1)%Z).
  set (q := (n' / 146097)%Z). set (r0 := (n' mod 146097)%Z).
  set (a := (r0 / 36524)%Z). set (r1 := (r0 mod 36524)%Z).
  set (b := (r1 / 1461)%Z). set (r2 := (r1 mod 1461)%Z).
  set (c := (r2 / 365)%Z). set (r3 := (r2 mod 365)%Z).
  assert (E0 : n' = (146097 * q + r0)%Z /\ (0 <= r0 < 146097)%Z)
    by (split; [apply Z.div_mod; lia | apply Z.mod_pos_bound; lia]).
  assert (E1 : r0 = (36524 * a + r1)%Z /\ (0 <= r1 < 36524)%Z)
    by (split; [apply Z.div_mod; lia | apply Z.mod_pos_bound; lia]).
  assert (E2 : r1 = (1461 * b + r2)%Z /\ (0 <= r2 < 1461)%Z)
    by (split; [apply Z.div_mod; lia | apply Z.mod_pos_bound; lia]).
  assert (E3 : r2 = (365 * c + r3)%Z /\ (0 <= r3 < 365)%Z)
    by (split; [apply Z.div_mod; lia | apply Z.mod_pos_bound; lia]).
  assert (Hn' : n = (n' + 1)%Z) by (unfold n'; lia).
  clearbody n' q r0 a r1 b r2 c r3. subst n. unfold Date.max_ordinal.
  assert (0 <= q)%Z by lia.
  assert (0 <= a <= 4)%Z by lia.
  assert (0 <= b <= 24)%Z by lia.
  assert (0 <= c <= 4)%Z by lia.
  destruct ((c =? 4)%Z || (a =? 4)%Z) eqn:Ec.
  - (* the last day of a leap year *)
    assert (Hy : exists a' b',
               (0 <= a' <= 3)%Z /\ (0 <= b' <= 24)%Z /\ (b' = 24 -> a' = 3)%Z /\
               (q * 400 + 1 + a * 100 + b * 4 + c - 1
                  = 400 * q + 100 * a' + 4 * b' + 3 + 1)%Z /\
               n' = (146097 * q + 36524 * a' + 1461 * b' + 365 * 3 + 365)%Z).
    { apply orb_true_iff in Ec. rewrite !Z.eqb_eq in Ec.
      destruct (Z.eq_dec a 4) as [Ha|Ha].
      - exists 3%Z, 24%Z. lia.
      - exists a, b. lia. }
    destruct Hy as (a' & b' & Ha' & Hb' & Hab & -> & ->).
    unfold Date.to_ordinal, Date.days_in_month, Date.days_before_month.
    cbn [Date.year Date.month Date.day].
    rewrite days_before_year_cycles, is_leap_cycles by lia.
    assert (L : (3 =? 3)%Z && (negb (b' =? 24)%Z || (a' =? 3)%Z) = true).
    { destruct (Z.eqb_spec b' 24); destruct (Z.eqb_spec a' 3);
        try reflexivity. lia. }
    rewrite L.
    change (Date.days_before_month_common 12) with 334%Z.
    change (Date.days_in_month_common 12) with 31%Z.
    change (2 <? 12)%Z with true. change (12 =? 2)%Z with false.
    cbn [andb Date.b2z]. lia.
  - apply orb_false_iff in Ec. rewrite !Z.eqb_neq in Ec.
    replace (q * 400 + 1 + a * 100 + b * 4 + c)%Z
      with (400 * q + 100 * a + 4 * b + c + 1)%Z by lia.
    pose proof (month_day_correct ((c =? 3)%Z && (negb (b =? 24)%Z || (a =? 3)%Z))
                  r3 (proj2 E3)) as M.
    unfold Date.month_day_ok in M.
    destruct (Date.month_day r3 ((c =? 3)%Z && (negb (b =? 24)%Z || (a =? 3)%Z)))
      as [m d].
    rewrite !andb_true_iff, !Z.leb_le, Z.eqb_eq in M.
    unfold Date.to_ordinal, Date.days_in_month, Date.days_before_month.
    cbn [Date.year Date.month Date.day].
    rewrite days_before_year_cycles, is_leap_cycles by lia.
    lia.
Qed.

Lemma of_ordinal_valid (n : Z) :
  (1 <= n <= Date.max_ordinal)%Z -> Date.valid (Date.of_ordinal n) = true.
Proof.
  intros [Hlo Hhi].
  destruct (of_ordinal_correct n Hlo) as (_ & Hy & Hy' & Hm & Hd).
  unfold Date.valid. rewrite !andb_true_iff, !Z.leb_le. lia.
Qed.

(** *** Timestamps *)

Lemma utcfromtimestamp_in_range (t : Z) :
  (Date.min_timestamp <= t <= Date.max_timestamp)%Z ->
  Date.utcfromtimestamp t =
    Ok (Date.of_ordinal (t / 86400 + Date.epoch_ordinal)).
Proof.
  unfold Date.min_timestamp, Date.max_timestamp, Date.utcfromtimestamp,
    Date.epoch_ordinal, Date.max_ordinal, Date.min_time_t, Date.max_time_t,
    Date.min_gmtime, Date.max_gmtime.
  intros [Hlo Hhi].
  replace ((t <? -9223372036854775808)%Z) with false
    by (symmetry; apply Z.ltb_ge; lia).
  replace ((9223372036854775807 <? t)%Z) with false
    by (symmetry; apply Z.ltb_ge; lia).
  replace ((t <? -67768040609740800)%Z) with false
    by (symmetry; apply Z.ltb_ge; lia).
  replace ((67768036191676799 <? t)%Z) with false
    by (symmetry; apply Z.ltb_ge; lia).
  cbn [orb].
  assert (-719162 <= t / 86400)%Z by (apply Z.div_le_lower_bound; lia).
  assert (t / 86400 < 2932897)%Z by (apply Z.div_lt_upper_bound; lia).
  replace ((1 <=? t / 86400 + 719163)%Z) with true by (symmetry; apply Z.leb_le; lia).
  replace ((t / 86400 + 719163 <=? 3652059)%Z) with true
    by (symmetry; apply Z.leb_le; lia).
  reflexivity.
Qed.

(** *** The category *)

Lemma cat_line_first (prod : dict) (x : pyval) (l : list pyval) :
  Dict.get prod "category" = VList (x :: l) ->
  cat_line prod = Ok (if truthy x then x else VStr "Toys & Games").
Proof.
  intros H. unfold cat_line. rewrite H. reflexivity.
Qed.

Lemma cat_line_no_category (prod : dict) :
  truthy (Dict.get prod "category") = false ->
  cat_line prod =
    Ok (if truthy (Dict.get prod "main_cat") then Dict.get prod "main_cat"
        else VStr "Toys & Games").
Proof.
  intros H. unfold cat_line, py_or. rewrite H. cbn [truthy bind].
  destruct (truthy (Dict.get prod "main_cat")) eqn:E.
  - rewrite E. reflexivity.
  - reflexivity.
Qed.

(** *** The shape of the embedding text *)

Lemma stripped_field_strip (review : dict) (k body : string) :
  stripped_field review k = Ok body -> exists x, body = Str.strip x.
Proof.
  unfold stripped_field, py_strip.
  destruct (py_or (Dict.get review k) (VStr "")); try discriminate.
  intros H; inversion H; eauto.
Qed.

Lemma join_parts (p c rating summary body : string) :
  Str.join newline
    (filter Str.nonempty
       [String "P" p; String "C" c; rating; summary_part summary; body_part body]) =
  String "P" (p ++ newline ++ String "C" c ++ newline ++ middle_lines rating summary)
    ++ body_part body.
Proof.
  unfold middle_lines, summary_part, body_part.
  cbn [filter Str.nonempty].
  destruct rating as [|r0 r]; destruct summary as [|s0 s];
    cbn [filter Str.nonempty Str.join];
    cbn [append]; f_equal;
    repeat (rewrite ?append_assoc; cbn [append]; try reflexivity).
Qed.

(** Every text [make_embed_text] returns is the product part, the
    category part, the optional rating and summary lines, and the body
    part stripped on the right, one per line. *)
Lemma make_embed_text_shape (prod review : dict) (text : string) :
  make_embed_text prod review = Ok text ->
  exists c summary body rating,
    cat_line prod = Ok c /\
    stripped_field review "summary" = Ok summary /\
    stripped_field review "reviewText" = Ok body /\
    rating_part review = Ok rating /\
    text = product_part prod review ++ newline ++ category_part c ++ newline
             ++ middle_lines rating summary ++ body_tail body.
Proof.
  unfold make_embed_text. intros H.
  destruct (cat_line prod) as [c|] eqn:Ec; [|discriminate].
  destruct (stripped_field review "summary") as [summary|] eqn:Es; [|discriminate].
  destruct (stripped_field review "reviewText") as [body|] eqn:Eb; [|discriminate].
  destruct (rating_part review) as [rating|] eqn:Er; [|discriminate].
  unfold bind in H.
  exists c, summary, body, rating. repeat (split; [reflexivity|]).
  transitivity
    (Str.strip (Str.join newline (filter Str.nonempty
       [product_part prod review; category_part c; rating;
        summary_part summary; body_part body]))); [congruence|].
  clear H. destruct (stripped_field_strip _ _ _ Eb) as (x & ->).
  unfold product_part at 1, category_part at 1.
  change ("Product: " ++ ?a) with (String "P" ("roduct: " ++ a)).
  change ("Category: " ++ ?a) with (String "C" ("ategory: " ++ a)).
  rewrite join_parts. rewrite strip_parts.
  unfold product_part, category_part, body_tail.
  repeat (rewrite ?append_assoc; cbn [append]). reflexivity.
Qed.

(** *** When the builder returns *)

Lemma stripped_field_returns (review : dict) (k : string) :
  text_or_absent (Dict.get review k) = true ->
  exists t, stripped_field review k = Ok t.
Proof.
  unfold stripped_field, py_or.
  destruct (Dict.get review k) as [| | | |s| |]; try discriminate; intros _.
  - cbn. eauto.
  - destruct (truthy (VStr s)); cbn; eauto.
Qed.

Lemma cat_line_returns (prod : dict) :
  sequence_or_absent (Dict.get prod "category") = true ->
  exists c, cat_line prod = Ok c.
Proof.
  unfold cat_line, py_or.
  destruct (Dict.get prod "category") as [| | | | |[|x l]|]; try discriminate;
    intros _; cbn [truthy bind py_first]; eauto.
Qed.

Lemma rating_part_returns (review : dict) :
  rating_or_absent (Dict.get review "overall") = true ->
  exists t, rating_part review = Ok t.
Proof.
  unfold rating_part.
  destruct (Dict.get review "overall") as [|b|z|f| | |]; try discriminate;
    cbn [is_none py_int bind]; eauto.
  destruct f; try discriminate; cbn [Float.to_int bind]; eauto.
Qed.

(** On fields of the declared types [make_embed_text] returns. *)
Lemma make_embed_text_returns (prod review : dict) :
  sequence_or_absent (Dict.get prod "category") = true ->
  text_or_absent (Dict.get review "summary") = true ->
  text_or_absent (Dict.get review "reviewText") = true ->
  rating_or_absent (Dict.get review "overall") = true ->
  exists text, make_embed_text prod review = Ok text.
Proof.
  intros Hc Hs Hb Hr. unfold make_embed_text.
  destruct (cat_line_returns _ Hc) as (c & ->).
  destruct (stripped_field_returns _ _ Hs) as (s & ->).
  destruct (stripped_field_returns _ _ Hb) as (b & ->).
  destruct (rating_part_returns _ Hr) as (r & ->).
  cbn [bind]. eauto.
Qed.

(** *** Keys *)

Lemma key_eqb_hashable (k k' : pyval) :
  Key.eqb k k' = true -> Key.hashable k = true.
Proof.
  destruct k; try reflexivity; destruct k'; discriminate.
Qed.

Lemma lookup_hashable (m : asin_index) (k : pyval) (v : dict) :
  Index.lookup m k = Some v -> Key.hashable k = true.
Proof.
  induction m as [|[k' v'] m IH]; simpl; [discriminate|].
  destruct (Key.eqb k k') eqn:E; [|exact IH].
  intros _. eapply key_eqb_hashable; eauto.
Qed.

(** Key equality is an equivalence on the values that can be hashed. *)
Lemma num_eqb_fin (m1 e1 m2 e2 e : Z) :
  (e <= e1)%Z -> (e <= e2)%Z ->
  (Key.num_eqb (Key.Fin m1 e1) (Key.Fin m2 e2) = true <->
   (m1 * 2 ^ (e1 - e) = m2 * 2 ^ (e2 - e))%Z).
Proof.
  clear html_unescape float_repr str_repr json_dumps year_text.
  intros H1 H2. cbn [Key.num_eqb]. cbv zeta.
  assert (Hm1 : (Z.min e1 e2 <= e1)%Z) by apply Z.le_min_l.
  assert (Hm2 : (Z.min e1 e2 <= e2)%Z) by apply Z.le_min_r.
  assert (Hm : (e <= Z.min e1 e2)%Z) by (apply Z.min_glb; assumption).
  set (mn := Z.min e1 e2) in *.
  rewrite Z.eqb_eq, !Z.shiftl_mul_pow2 by lia.
  replace (e1 - e)%Z with ((e1 - mn) + (mn - e))%Z by lia.
  replace (e2 - e)%Z with ((e2 - mn) + (mn - e))%Z by lia.
  rewrite !Z.pow_add_r by lia. rewrite !Z.mul_assoc.
  assert (Hp : (2 ^ (mn - e) <> 0)%Z) by (apply Z.pow_nonzero; lia).
  split.
  - intros H. rewrite H. reflexivity.
  - intros H. apply Z.mul_reg_r in H; assumption.
Qed.

Lemma num_eqb_refl (x : Key.num) : Key.num_eqb x x = true.
Proof.
  destruct x as [m e|s|]; cbn [Key.num_eqb]; [apply Z.eqb_refl| |reflexivity].
  destruct s; reflexivity.
Qed.

Lemma num_eqb_sym (x y : Key.num) : Key.num_eqb x y = Key.num_eqb y x.
Proof.
  destruct x as [m1 e1|s1|], y as [m2 e2|s2|]; cbn [Key.num_eqb]; try reflexivity.
  - rewrite (Z.min_comm e2 e1). apply Z.eqb_sym.
  - destruct s1, s2; reflexivity.
Qed.

Lemma num_eqb_trans (x y z : Key.num) :
  Key.num_eqb x y = true -> Key.num_eqb y z = true -> Key.num_eqb x z = true.
Proof.
  clear html_unescape float_repr str_repr json_dumps year_text.
  destruct x as [m1 e1|s1|], y as [m2 e2|s2|], z as [m3 e3|s3|];
    try discriminate; try (intros; reflexivity).
  - intros H12 H23.
    assert (L1 : (Z.min e1 (Z.min e2 e3) <= e1)%Z) by lia.
    assert (L2 : (Z.min e1 (Z.min e2 e3) <= e2)%Z) by lia.
    assert (L3 : (Z.min e1 (Z.min e2 e3) <= e3)%Z) by lia.
    apply (num_eqb_fin _ _ _ _ _ L1 L2) in H12.
    apply (num_eqb_fin _ _ _ _ _ L2 L3) in H23.
    apply (num_eqb_fin _ _ _ _ _ L1 L3). congruence.
  - cbn [Key.num_eqb]. destruct s1, s2, s3; intros H1 H2;
      first [reflexivity | discriminate H1 | discriminate H2].
Qed.

Lemma key_eqb_num (a b : pyval) (x y : Key.num) :
  Key.num_of a = Some x -> Key.num_of b = Some y ->
  Key.eqb a b = Key.num_eqb x y.
Proof.
  destruct a; try discriminate; destruct b; try discriminate;
    unfold Key.eqb; intros -> ->; reflexivity.
Qed.

Lemma key_eqb_cases (a b : pyval) :
  Key.eqb a b = true ->
  (a = VNone /\ b = VNone) \/
  (exists s, a = VStr s /\ b = VStr s) \/
  (exists x y, Key.num_of a = Some x /\ Key.num_of b = Some y /\
               Key.num_eqb x y = true).
Proof.
  intros H.
  destruct (Key.num_of a) as [x|] eqn:Ex, (Key.num_of b) as [y|] eqn:Ey.
  - right; right. exists x, y. rewrite (key_eqb_num a b x y Ex Ey) in H. auto.
  - exfalso.
    destruct a as [| | |[| | |]| | |]; try discriminate Ex;
      destruct b as [| | |[| | |]| | |]; try discriminate Ey; discriminate H.
  - exfalso.
    destruct a as [| | |[| | |]| | |]; try discriminate Ex;
      destruct b as [| | |[| | |]| | |]; try discriminate Ey; discriminate H.
  - destruct a as [| | |[| | |]| | |]; try discriminate Ex;
      destruct b as [| | |[| | |]| | |]; try discriminate Ey;
      try discriminate H.
    + left. split; reflexivity.
    + right; left. cbn [Key.eqb] in H. apply String.eqb_eq in H. subst.
      eexists. split; reflexivity.
Qed.

Lemma key_eqb_refl (k : pyval) : Key.hashable k = true -> Key.eqb k k = true.
Proof.
  destruct k as [|b|z|f|s|l|d]; cbn [Key.hashable]; try discriminate; intros _.
  - reflexivity.
  - apply num_eqb_refl.
  - apply num_eqb_refl.
  - destruct f; apply num_eqb_refl.
  - apply String.eqb_refl.
Qed.

Lemma key_eqb_sym (a b : pyval) : Key.eqb a b = Key.eqb b a.
Proof.
  destruct (Key.num_of a) as [x|] eqn:Ex, (Key.num_of b) as [y|] eqn:Ey.
  - rewrite (key_eqb_num a b x y Ex Ey), (key_eqb_num b a y x Ey Ex).
    apply num_eqb_sym.
  - destruct a as [| | |[| | |]| | |]; try discriminate Ex;
      destruct b as [| | |[| | |]| | |]; try discriminate Ey; reflexivity.
  - destruct a as [| | |[| | |]| | |]; try discriminate Ex;
      destruct b as [| | |[| | |]| | |]; try discriminate Ey; reflexivity.
  - destruct a as [| | |[| | |]| | |]; try discriminate Ex;
      destruct b as [| | |[| | |]| | |]; try discriminate Ey;
      try reflexivity.
    apply String.eqb_sym.
Qed.

Lemma key_eqb_trans (a b c : pyval) :
  Key.eqb a b = true -> Key.eqb b c = true -> Key.eqb a c = true.
Proof.
  intros H1 H2.
  destruct (key_eqb_cases a b H1)
    as [[-> ->]|[(s & -> & ->)|(x & y & Ex & Ey & Exy)]].
  - exact H2.
  - exact H2.
  - destruct (key_eqb_cases b c H2)
      as [[-> ->]|[(s & -> & ->)|(y' & z & Ey' & Ez & Eyz)]];
      try discriminate Ey.
    rewrite Ey in Ey'. injection Ey' as <-.
    rewrite (key_eqb_num a c x z Ex Ez). exact (num_eqb_trans x y z Exy Eyz).
Qed.

(** *** The index builder *)

Lemma lookup_set (d : dict) (k k' : string) (v : pyval) :
  Dict.lookup (Dict.set d k' v) k =
    if String.eqb k k' then Some v else Dict.lookup d k.
Proof.
  induction d as [|[k0 v0] d IH]; simpl.
  - reflexivity.
  - destruct (String.eqb k' k0) eqn:E0; simpl.
    + apply String.eqb_eq in E0. subst k0.
      destruct (String.eqb k k'); reflexivity.
    + rewrite IH. destruct (String.eqb k k0) eqn:E1.
      * apply String.eqb_eq in E1. subst k0.
        rewrite String.eqb_sym, E0. reflexivity.
      * reflexivity.
Qed.

Lemma lookup_get (d : dict) (k : string) :
  Dict.contains d k = true -> Dict.lookup d k = Some (Dict.get d k).
Proof.
  unfold Dict.contains, Dict.get. destruct (Dict.lookup d k); congruence.
Qed.

Lemma lookup_not_contains (d : dict) (k : string) :
  Dict.contains d k = false -> Dict.lookup d k = None.
Proof.
  unfold Dict.contains. destruct (Dict.lookup d k); congruence.
Qed.

Lemma project_fold_lookup (obj : dict) (k : string) (keep_fields : list string) :
  forall acc,
    Dict.lookup
      (fold_left
         (fun rec k' =>
            if Dict.contains obj k' then Dict.set rec k' (Dict.get obj k') else rec)
         keep_fields acc) k =
    if Str.mem k keep_fields && Dict.contains obj k then Dict.lookup obj k
    else Dict.lookup acc k.
Proof.
  induction keep_fields as [|k' ks IH]; intros acc; [reflexivity|].
  cbn [fold_left]. rewrite IH. unfold Str.mem. cbn [existsb].
  fold (Str.mem k ks).
  destruct (Str.mem k ks && Dict.contains obj k) eqn:E.
  - apply andb_true_iff in E. destruct E as [-> ->].
    rewrite orb_true_r. reflexivity.
  - destruct (String.eqb k k') eqn:Ek.
    + apply String.eqb_eq in Ek. subst k'. cbn [orb andb].
      destruct (Dict.contains obj k) eqn:Ec.
      * rewrite lookup_set, String.eqb_refl. symmetry. now apply lookup_get.
      * reflexivity.
    + cbn [orb]. rewrite E.
      destruct (Dict.contains obj k'); [|reflexivity].
      rewrite lookup_set, Ek. reflexivity.
Qed.

(** The projection holds exactly the kept fields the row has, each with
    the row's own value. *)
Lemma project_lookup (keep_fields : list string) (obj : dict) (k : string) :
  Dict.lookup (project keep_fields obj) k =
    if Str.mem k keep_fields then Dict.lookup obj k else None.
Proof.
  unfold project. rewrite project_fold_lookup.
  destruct (Str.mem k keep_fields); [|reflexivity].
  destruct (Dict.contains obj k) eqn:E; [reflexivity|].
  cbn [andb Dict.lookup]. symmetry. now apply lookup_not_contains.
Qed.

Lemma project_empty (keep_fields : list string) (obj : dict) :
  (forall k, In k keep_fields -> Dict.contains obj k = false) ->
  project keep_fields obj = [].
Proof.
  unfold project. generalize (@nil (string * pyval)) as acc.
  induction keep_fields as [|k ks IH]; intros acc H; [reflexivity|].
  cbn [fold_left]. rewrite (H k (or_introl eq_refl)).
  apply IH. intros k' Hk'. apply H. now right.
Qed.

(** What the two sanitize steps leave in a record. *)
Lemma sanitize_lookup (rec rec' : dict) (k : string) :
  sanitize rec = Ok rec' ->
  Dict.lookup rec' k =
    if String.eqb k "price" then
      match Dict.lookup rec "price" with
      | Some p =>
          match parse_price p with
          | Ok q => Some (opt_float q)
          | Raise _ => None
          end
      | None => None
      end
    else if String.eqb k "category" then
      match Dict.lookup rec "category" with
      | Some (VStr c) => Some (VList [VStr c])
      | other => other
      end
    else Dict.lookup rec k.
Proof.
  unfold sanitize. intros H.
  destruct (Dict.contains rec "price") eqn:Ep.
  - pose proof (lookup_get _ _ Ep) as Lp. rewrite Lp.
    destruct (parse_price (Dict.get rec "price")) as [q|] eqn:Eq; [|discriminate].
    cbn [bind] in H. injection H as <-.
    set (rec1 := Dict.set rec "price" (opt_float q)).
    assert (L1 : forall k', Dict.lookup rec1 k' =
              if String.eqb k' "price" then Some (opt_float q) else Dict.lookup rec k')
      by (intros; apply lookup_set).
    assert (Lc : Dict.lookup rec1 "category" = Dict.lookup rec "category")
      by (rewrite L1; reflexivity).
    unfold Dict.contains, Dict.get. rewrite Lc.
    destruct (Dict.lookup rec "category") as [c|] eqn:Ec.
    + destruct (is_str c) eqn:Es; cbn [andb].
      * destruct c; try discriminate. rewrite lookup_set, L1.
        destruct (String.eqb k "category") eqn:Ek; [|reflexivity].
        apply String.eqb_eq in Ek; subst k. reflexivity.
      * rewrite L1. destruct (String.eqb k "price"); [reflexivity|].
        destruct (String.eqb k "category") eqn:Ek; [|reflexivity].
        apply String.eqb_eq in Ek; subst k. rewrite Ec.
        destruct c; try reflexivity; discriminate.
    + cbn [andb]. rewrite L1. destruct (String.eqb k "price"); [reflexivity|].
      destruct (String.eqb k "category") eqn:Ek; [|reflexivity].
      apply String.eqb_eq in Ek; subst k. now rewrite Ec.
  - pose proof (lookup_not_contains _ _ Ep) as Lp. rewrite Lp.
    cbn [bind] in H. injection H as <-.
    unfold Dict.contains, Dict.get.
    destruct (Dict.lookup rec "category") as [c|] eqn:Ec.
    + destruct (is_str c) eqn:Es; cbn [andb].
      * destruct c; try discriminate. rewrite lookup_set.
        destruct (String.eqb k "price") eqn:Ek.
        { apply String.eqb_eq in Ek; subst k. cbn. exact Lp. }
        destruct (String.eqb k "category") eqn:Ek'; reflexivity.
      * destruct (String.eqb k "price") eqn:Ek.
        { apply String.eqb_eq in Ek; subst k. exact Lp. }
        destruct (String.eqb k "category") eqn:Ek'; [|reflexivity].
        apply String.eqb_eq in Ek'; subst k. rewrite Ec.
        destruct c; try reflexivity; discriminate.
    + cbn [andb]. destruct (String.eqb k "price") eqn:Ek.
      { apply String.eqb_eq in Ek; subst k. exact Lp. }
      destruct (String.eqb k "category") eqn:Ek'; [|reflexivity].
      apply String.eqb_eq in Ek'; subst k. exact Ec.
Qed.

Lemma insert_In (m : asin_index) (k k' : pyval) (v v' : dict) :
  In (k', v') (Index.insert m k v) ->
  In (k', v') m \/ (v' = v /\ (k' = k \/ Key.eqb k k' = true)).
Proof.
  induction m as [|[k0 v0] m IH]; simpl.
  - intros [H|[]]. injection H as <- <-. auto.
  - destruct (Key.eqb k k0) eqn:E; simpl.
    + intros [H|H]; [|auto]. injection H as <- <-. auto.
    + intros [H|H]; [auto|]. apply IH in H. destruct H as [H|H]; auto.
Qed.

(** Every entry of the index was there before the loop or was made from
    a row of the source. *)
Lemma load_loop_entries (keep_fields : list string) (max_rows : option Z)
    (lines : list jsonl_line) :
  forall i m m' asin rec,
    load_loop keep_fields max_rows lines i m = Ok m' ->
    In (asin, rec) m' ->
    In (asin, rec) m \/
    exists obj, In (Parsed (VDict obj)) lines /\ from_row keep_fields obj asin rec.
Proof.
  induction lines as [|line lines IH]; intros i m m' asin rec H Hin;
    cbn [load_loop] in H.
  - injection H as <-. auto.
  - destruct line as [|v| |e0]; [| |discriminate|discriminate].
    + destruct (IH _ _ _ _ _ H Hin) as [?|(obj & ? & ?)]; [auto|].
      right. exists obj. split; [now right|assumption].
    + destruct v as [| | | | |l|obj]; try discriminate.
      cbn [as_dict bind] in H.
      destruct (truthy (Dict.get obj "asin")) eqn:Ea; cbn [negb] in H.
      * destruct (sanitize (project keep_fields obj)) as [rec0|] eqn:Es;
          [|discriminate].
        cbn [bind] in H. unfold Index.set in H.
        destruct (Key.hashable (Dict.get obj "asin")); [|discriminate].
        cbn [bind] in H.
        assert (Hnew : forall a r,
                  In (a, r) (Index.insert m (Dict.get obj "asin") rec0) ->
                  In (a, r) m \/
                  exists o, In (Parsed (VDict o)) (Parsed (VDict obj) :: lines) /\
                            from_row keep_fields o a r).
        { intros a r Hi. apply insert_In in Hi.
          destruct Hi as [?|(-> & Hk)]; [auto|].
          right. exists obj. split; [now left|]. unfold from_row. auto. }
        destruct (cap_reached max_rows i).
        -- injection H as <-. auto.
        -- destruct (IH _ _ _ _ _ H Hin) as [Hi|(o & ? & ?)].
           ++ auto.
           ++ right. exists o. split; [now right|assumption].
      * destruct (IH _ _ _ _ _ H Hin) as [?|(o & ? & ?)]; [auto|].
        right. exists o. split; [now right|assumption].
Qed.

Lemma sanitize_total (rec : dict) : exists rec', sanitize rec = Ok rec'.
Proof.
  unfold sanitize. destruct (Dict.contains rec "price").
  - destruct (parse_price_total (Dict.get rec "price")) as [p Hp].
    rewrite Hp. cbn [bind]. eexists. reflexivity.
  - cbn [bind]. eexists. reflexivity.
Qed.

(** Without a cap the line number plays no part. *)
Lemma load_loop_index (keep_fields : list string) (lines : list jsonl_line) :
  forall i j m,
    load_loop keep_fields None lines i m = load_loop keep_fields None lines j m.
Proof.
  induction lines as [|line lines IH]; intros i j m; cbn [load_loop]; [reflexivity|].
  destruct line as [|v| |e0]; [apply IH| |reflexivity|reflexivity].
  destruct (as_dict v) as [obj|]; cbn [bind]; [|reflexivity].
  destruct (negb (truthy (Dict.get obj "asin"))); [apply IH|].
  destruct (sanitize (project keep_fields obj)) as [rec|]; cbn [bind]; [|reflexivity].
  destruct (Index.set m (Dict.get obj "asin") rec) as [m1|]; cbn [bind cap_reached];
    [|reflexivity].
  apply IH.
Qed.

Lemma load_loop_app (keep_fields : list string) (l1 l2 : list jsonl_line) :
  forall i m,
    load_loop keep_fields None (l1 ++ l2)%list i m =
      (m1 <- load_loop keep_fields None l1 i m ;;
       load_loop keep_fields None l2 i m1).
Proof.
  induction l1 as [|line l1 IH]; intros i m; cbn [app load_loop bind]; [reflexivity|].
  destruct line as [|v| |e0]; [| |reflexivity|reflexivity].
  - rewrite IH. destruct (load_loop keep_fields None l1 (i + 1) m); cbn [bind];
      [apply load_loop_index|reflexivity].
  - destruct (as_dict v) as [obj|]; cbn [bind]; [|reflexivity].
    destruct (negb (truthy (Dict.get obj "asin"))).
    + rewrite IH. destruct (load_loop keep_fields None l1 (i + 1) m); cbn [bind];
        [apply load_loop_index|reflexivity].
    + destruct (sanitize (project keep_fields obj)) as [rec|]; cbn [bind];
        [|reflexivity].
      destruct (Index.set m (Dict.get obj "asin") rec) as [m1|];
        cbn [bind cap_reached]; [|reflexivity].
      rewrite IH. destruct (load_loop keep_fields None l1 (i + 1) m1); cbn [bind];
        [apply load_loop_index|reflexivity].
Qed.

(** Reading a key after a write. *)
Lemma lookup_insert (m : asin_index) (k p : pyval) (v : dict) :
  Index.lookup (Index.insert m k v) p =
    if Key.eqb p k then Some v else Index.lookup m p.
Proof.
  induction m as [|[k0 v0] m IH]; cbn [Index.insert Index.lookup].
  - reflexivity.
  - destruct (Key.eqb k k0) eqn:E; cbn [Index.lookup].
    + assert (Hpk : Key.eqb p k0 = Key.eqb p k).
      { destruct (Key.eqb p k) eqn:E1.
        - exact (key_eqb_trans p k k0 E1 E).
        - destruct (Key.eqb p k0) eqn:E0; [|reflexivity].
          rewrite key_eqb_sym in E.
          rewrite (key_eqb_trans p k0 k E0 E) in E1. discriminate E1. }
      rewrite Hpk. destruct (Key.eqb p k); reflexivity.
    + rewrite IH. destruct (Key.eqb p k0) eqn:E0; [|reflexivity].
      destruct (Key.eqb p k) eqn:E1; [|reflexivity].
      rewrite key_eqb_sym in E1.
      rewrite (key_eqb_trans k p k0 E1 E0) in E. discriminate E.
Qed.

(** Rows that carry other identifiers leave the entry of a key alone. *)
Lemma load_loop_lookup_key (keep_fields : list string) (max_rows : option Z)
    (p : pyval) (lines : list jsonl_line) :
  forall i m m',
    load_loop keep_fields max_rows lines i m = Ok m' ->
    (forall obj, In (Parsed (VDict obj)) lines ->
                 truthy (Dict.get obj "asin") = true ->
                 Key.eqb p (Dict.get obj "asin") = false) ->
    Index.lookup m' p = Index.lookup m p.
Proof.
  induction lines as [|line lines IH]; intros i m m' H Hl; cbn [load_loop] in H.
  - injection H as <-. reflexivity.
  - assert (Hl' : forall obj, In (Parsed (VDict obj)) lines ->
                              truthy (Dict.get obj "asin") = true ->
                              Key.eqb p (Dict.get obj "asin") = false)
      by (intros obj Hi; apply Hl; right; exact Hi).
    destruct line as [|v| |e0];
      [exact (IH _ _ _ H Hl')| |discriminate|discriminate].
    destruct v as [| | | | |l|obj]; try discriminate.
    cbn [as_dict bind] in H.
    destruct (truthy (Dict.get obj "asin")) eqn:Ea; cbn [negb] in H;
      [|exact (IH _ _ _ H Hl')].
    destruct (sanitize (project keep_fields obj)) as [rec|]; [|discriminate].
    cbn [bind] in H. unfold Index.set in H.
    destruct (Key.hashable (Dict.get obj "asin")); [|discriminate].
    cbn [bind] in H.
    assert (Hi : Index.lookup (Index.insert m (Dict.get obj "asin") rec) p
                 = Index.lookup m p).
    { rewrite lookup_insert, (Hl obj (or_introl eq_refl) Ea). reflexivity. }
    destruct (cap_reached max_rows i).
    + injection H as <-. exact Hi.
    + rewrite (IH _ _ _ H Hl'). exact Hi.
Qed.

(** The entry of the last row that carries an identifier. *)
Lemma load_lookup_last_row (keep_fields : list string)
    (l1 l2 : list jsonl_line) (obj : dict) (m : asin_index) :
  truthy (Dict.get obj "asin") = true ->
  (forall obj', In (Parsed (VDict obj')) l2 ->
                truthy (Dict.get obj' "asin") = true ->
                Key.eqb (Dict.get obj "asin") (Dict.get obj' "asin") = false) ->
  load_loop keep_fields None (l1 ++ Parsed (VDict obj) :: l2)%list 1%Z [] = Ok m ->
  exists rec,
    sanitize (project keep_fields obj) = Ok rec /\
    Key.hashable (Dict.get obj "asin") = true /\
    Index.lookup m (Dict.get obj "asin") = Some rec.
Proof.
  intros Ha Hl2 H. rewrite load_loop_app in H.
  destruct (load_loop keep_fields None l1 1%Z []) as [m1|]; [|discriminate].
  cbn [bind load_loop as_dict] in H. rewrite Ha in H. cbn [negb] in H.
  destruct (sanitize_total (project keep_fields obj)) as [rec Hr].
  rewrite Hr in H. cbn [bind] in H. unfold Index.set in H.
  destruct (Key.hashable (Dict.get obj "asin")) eqn:Eh; [|discriminate].
  cbn [bind cap_reached] in H.
  exists rec. split; [exact Hr|]. split; [reflexivity|].
  rewrite (load_loop_lookup_key _ _ _ _ _ _ _ H Hl2), lookup_insert,
    (key_eqb_refl _ Eh).
  reflexivity.
Qed.

(** *** The join loop *)

Lemma count_cons {A : Type} (f : A -> bool) (x : A) (l : list A) :
  count f (x :: l) = (b2n (f x) + count f l)%nat.
Proof.
  unfold count. simpl. destruct (f x); reflexivity.
Qed.

(** What one turn of the loop does to the state when it does not raise. *)
Lemma loop_body_ok (asin_map : asin_index) (drop : bool)
    (st st' : pr_state) (line : jsonl_line) :
  loop_body asin_map drop st line = Ok st' ->
  well_formed line /\
  n_in st' = (n_in st + b2n (counted line))%nat /\
  n_out st' = (n_out st + b2n (accepted asin_map drop line))%nat /\
  bad_asin st' = (bad_asin st + b2n (dropped asin_map drop line))%nat /\
  (if accepted asin_map drop line
   then exists rec, fout st' = (fout st ++ [rec])%list /\ emits asin_map line rec
   else fout st' = fout st).
Proof.
  unfold loop_body, well_formed.
  destruct line as [|v| |e0]; [| |discriminate|discriminate].
  - intros H; injection H as <-. simpl. rewrite !Nat.add_0_r. auto 6.
  - destruct v as [| | | | |l|r]; try discriminate.
    cbn [as_dict bind counted accepted dropped b2n].
    destruct (truthy (Dict.get r "asin")) eqn:Ea; cbn [negb andb].
    + unfold Index.get.
      destruct (Key.hashable (Dict.get r "asin")); [|discriminate].
      cbn [bind].
      destruct (prod_truthy (Index.lookup asin_map (Dict.get r "asin"))) eqn:Ep;
        destruct drop; cbn [negb andb orb b2n].
      all: try (intros H; injection H as <-; cbn [n_in n_out bad_asin fout];
                rewrite ?Nat.add_0_r, ?Nat.add_1_r; eauto 8).
      all: destruct (make_embed_text _ r) as [text|] eqn:Et; [|discriminate];
           cbn [bind];
           destruct (parse_date _ _) as [rt|] eqn:Ed; [|discriminate];
           cbn [bind];
           intros H; injection H as <-; cbn [n_in n_out bad_asin fout];
           rewrite ?Nat.add_0_r, ?Nat.add_1_r;
           repeat (split; [eauto|]);
           eexists; split; [reflexivity|];
           exists r, text, rt; cbn zeta; auto.
    + intros H; injection H as <-. cbn [n_in n_out bad_asin fout].
      rewrite ?Nat.add_0_r, ?Nat.add_1_r. eauto 8.
Qed.

(** The invariant of the loop, for a run that reaches the end of the
    review source. *)
Lemma process_loop_ok (asin_map : asin_index) (drop : bool)
    (lines : list jsonl_line) :
  forall st st',
    process_loop asin_map drop lines st = (st', None) ->
    Forall well_formed lines /\
    n_in st' = (n_in st + count counted lines)%nat /\
    n_out st' = (n_out st + count (accepted asin_map drop) lines)%nat /\
    bad_asin st' = (bad_asin st + count (dropped asin_map drop) lines)%nat /\
    exists recs,
      fout st' = (fout st ++ recs)%list /\
      Forall2 (emits asin_map) (filter (accepted asin_map drop) lines) recs.
Proof.
  induction lines as [|line lines IH]; intros st st' H; simpl in H.
  - injection H as <-. unfold count; simpl. rewrite !Nat.add_0_r.
    repeat (split; [auto|]). exists []. rewrite app_nil_r. auto.
  - destruct (loop_body asin_map drop st line) as [st1|] eqn:E; [|discriminate].
    apply loop_body_ok in E. destruct E as (Hw & Hi & Ho & Hb & Hf).
    apply IH in H. destruct H as (Hws & Hi' & Ho' & Hb' & recs & Hf' & Hrecs).
    rewrite !count_cons.
    split; [constructor; assumption|].
    split; [lia|]. split; [lia|]. split; [lia|].
    simpl. destruct (accepted asin_map drop line).
    + destruct Hf as (rec & Hf & Hrec). exists (rec :: recs). split.
      * rewrite Hf', Hf, <- app_assoc. reflexivity.
      * constructor; assumption.
    + exists recs. split; [congruence|assumption].
Qed.

(** Every well-formed counted row is kept, dropped, or lacks its product
    identifier, and only one of the three. *)
Lemma row_partition (asin_map : asin_index) (drop : bool) (line : jsonl_line) :
  well_formed line ->
  b2n (counted line) =
    (b2n (accepted asin_map drop line) + b2n (dropped asin_map drop line)
       + b2n (lacks_asin line))%nat.
Proof.
  intros [->|(r & ->)]; [reflexivity|].
  unfold lacks_asin. cbn [counted has_asin accepted dropped].
  destruct (truthy (Dict.get r "asin")); [|reflexivity].
  destruct (prod_truthy _); destruct drop; reflexivity.
Qed.

Lemma rows_partition (asin_map : asin_index) (drop : bool) (lines : list jsonl_line) :
  Forall well_formed lines ->
  count counted lines =
    (count (accepted asin_map drop) lines + count (dropped asin_map drop) lines
       + count lacks_asin lines)%nat.
Proof.
  induction 1 as [|line lines Hw _ IH]; [reflexivity|].
  rewrite !count_cons, IH, (row_partition asin_map drop line Hw). lia.
Qed.

Lemma count_zero {A : Type} (f : A -> bool) (l : list A) :
  count f l = 0%nat <-> forall x, In x l -> f x = false.
Proof.
  induction l as [|a l IH];
    [split; [intros _ x []|reflexivity]|].
  rewrite count_cons. split.
  - intros H x [->|Hx].
    + destruct (f x); [discriminate|reflexivity].
    + apply IH; [|assumption]. destruct (f a); simpl in H; [discriminate|lia].
  - intros H. rewrite (H a (or_introl eq_refl)). simpl.
    apply IH. intros x Hx. apply H. now right.
Qed.

(* ===================================================================== *)
(** ** The claims *)

(** C1 (as amended).  In a run of [process_reviews] that reaches the end
    of the review source, the records written are, in input order, exactly
    one record for each accepted row: a row with a present, non-empty
    product identifier whose index entry is a non-empty record (or any such
    row when the drop policy is off).  The counters satisfy
    [written + missing_meta <= read], with equality exactly when every
    counted row has a present, non-empty product identifier. *)
Theorem join_completeness_and_counters
    (reviews : list jsonl_line) (asin_map : asin_index) (drop : bool)
    (records : list pyval) (st : stats) :
  process_reviews reviews asin_map drop = (records, Ok st) ->
  Forall2 (emits asin_map) (filter (accepted asin_map drop) reviews) records /\
  read st = count counted reviews /\
  written st = length records /\
  written st = count (accepted asin_map drop) reviews /\
  missing_meta st = count (dropped asin_map drop) reviews /\
  (written st + missing_meta st <= read st)%nat /\
  ((written st + missing_meta st)%nat = read st <->
   forall line, In line reviews -> counted line = true -> has_asin line = true).
Proof.
  unfold process_reviews. intros H.
  destruct (process_loop asin_map drop reviews (mkst 0 0 0 [])) as [s e] eqn:E.
  destruct e as [e|]; [discriminate|].
  injection H as <- <-. cbn [read written missing_meta].
  apply process_loop_ok in E.
  destruct E as (Hw & Hi & Ho & Hb & recs & Hf & Hrecs).
  cbn [n_in n_out bad_asin fout app] in Hi, Ho, Hb, Hf.
  rewrite Hf, Hi, Ho, Hb. cbn [Nat.add].
  pose proof (rows_partition asin_map drop reviews Hw) as P.
  split; [assumption|]. split; [reflexivity|].
  split; [unfold count; now apply Forall2_length in Hrecs|].
  split; [reflexivity|]. split; [reflexivity|]. split; [lia|].
  split.
  - intros Heq line Hin Hc.
    assert (Z0 : count lacks_asin reviews = 0%nat) by lia.
    pose proof (proj1 (count_zero _ _) Z0 line Hin) as Hl.
    unfold lacks_asin in Hl. rewrite Hc in Hl.
    destruct (has_asin line); [reflexivity|discriminate].
  - intros Hall.
    assert (Z0 : count lacks_asin reviews = 0%nat).
    { apply count_zero. intros line Hin. unfold lacks_asin.
      destruct (counted line) eqn:Hc; [|reflexivity].
      rewrite (Hall line Hin Hc). reflexivity. }
    lia.
Qed.

(** C2 (as amended).  Every entry of the index was made from a metadata
    row, and the builder copies the row's kept fields as they are: a
    field other than [price] and [category] is in the entry exactly when
    it is kept and present in the row, with the row's own value (no
    unescaping, no tag removal, no trimming); [price] holds what
    [parse_price] makes of the row's price; a string [category] is wrapped
    in a one-element list, and a [category] that is not a string (a list,
    [None], a number) is copied as it is; [price] and [category] are in
    the entry only when they are kept and present in the row. *)
Theorem index_copies_text_fields
    (meta : list jsonl_line) (keep_fields : option (list string))
    (max_rows : option Z) (asin_map : asin_index) (asin : pyval) (rec : dict) :
  load_asin_meta meta keep_fields max_rows = Ok asin_map ->
  In (asin, rec) asin_map ->
  exists obj,
    In (Parsed (VDict obj)) meta /\
    truthy (Dict.get obj "asin") = true /\
    (asin = Dict.get obj "asin" \/ Key.eqb (Dict.get obj "asin") asin = true) /\
    let kept := project (keep_fields_or_default keep_fields) obj in
    (forall k,
        Dict.lookup kept k =
          if Str.mem k (keep_fields_or_default keep_fields)
          then Dict.lookup obj k else None) /\
    (forall k, k <> "price" -> k <> "category" ->
        Dict.lookup rec k = Dict.lookup kept k) /\
    (forall p, Dict.lookup kept "price" = Some p ->
        exists q, parse_price p = Ok q /\
                  Dict.lookup rec "price" = Some (opt_float q)) /\
    (forall c, Dict.lookup kept "category" = Some (VStr c) ->
        Dict.lookup rec "category" = Some (VList [VStr c])) /\
    (forall c, Dict.lookup kept "category" = Some c -> is_str c = false ->
        Dict.lookup rec "category" = Some c) /\
    (Dict.lookup kept "category" = None -> Dict.lookup rec "category" = None) /\
    (Dict.lookup kept "price" = None -> Dict.lookup rec "price" = None).
Proof.
  unfold load_asin_meta. intros H Hin.
  destruct (load_loop_entries _ _ _ _ _ _ _ _ H Hin) as [[]|(obj & Hobj & Hfrom)].
  destruct Hfrom as (Ht & Hk & Hs).
  exists obj. repeat (split; [assumption|]). cbn zeta.
  split; [intros k; apply project_lookup|].
  split; [|split; [|split; [|split; [|split]]]].
  - intros k Hp Hc. rewrite (sanitize_lookup _ _ k Hs).
    apply String.eqb_neq in Hp, Hc. rewrite Hp, Hc. reflexivity.
  - intros p Hp. pose proof (sanitize_lookup _ _ "price" Hs) as L.
    cbn [String.eqb Ascii.eqb Bool.eqb] in L. rewrite Hp in L.
    unfold sanitize in Hs.
    assert (Hc : Dict.contains
                   (project (keep_fields_or_default keep_fields) obj) "price" = true)
      by (unfold Dict.contains; now rewrite Hp).
    rewrite Hc in Hs. unfold Dict.get in Hs. rewrite Hp in Hs.
    destruct (parse_price p) as [q|]; [|discriminate]. eauto.
  - intros c Hc. rewrite (sanitize_lookup _ _ "category" Hs).
    cbn [String.eqb Ascii.eqb Bool.eqb]. now rewrite Hc.
  - intros c Hc Hstr. rewrite (sanitize_lookup _ _ "category" Hs).
    cbn [String.eqb Ascii.eqb Bool.eqb]. rewrite Hc.
    destruct c; try reflexivity. discriminate Hstr.
  - intros Hc. rewrite (sanitize_lookup _ _ "category" Hs).
    cbn [String.eqb Ascii.eqb Bool.eqb]. now rewrite Hc.
  - intros Hp. rewrite (sanitize_lookup _ _ "price" Hs).
    cbn [String.eqb Ascii.eqb Bool.eqb]. now rewrite Hp.
Qed.

(** C3.  [parse_price] gives [None] for [""], ["N/A"], ["-"], ["."] and
    ["abc"], and for ["$19.99"], ["1,234.50"] and [".99"] the floats that
    the literals [19.99], [1234.5] and [0.99] denote: the binary64 values
    nearest to 1999/100, 12345/10 and 99/100 (0x1.3fd70a3d70a3dp+4,
    0x1.34ap+10, 0x1.fae147ae147aep-1).  Whenever it returns a float for a
    string, that float is read from the leftmost numeral of the trimmed,
    comma-free text (digits, digits with a fraction, or a bare fraction,
    which gets a leading zero) that has no digit just before or just
    after it. *)
Theorem parse_price_examples :
  parse_price (VStr "") = Ok None /\
  parse_price (VStr "N/A") = Ok None /\
  parse_price (VStr "-") = Ok None /\
  parse_price (VStr ".") = Ok None /\
  parse_price (VStr "abc") = Ok None /\
  parse_price (VStr "$19.99") = Ok (Some (Float.of_ratio 1999 100)) /\
  Float.of_ratio 1999 100 = S754_finite false 5626684784446013 (-48) /\
  parse_price (VStr "1,234.50") = Ok (Some (Float.of_ratio 12345 10)) /\
  Float.of_ratio 12345 10 = S754_finite false 5429388417957888 (-42) /\
  parse_price (VStr ".99") = Ok (Some (Float.of_ratio 99 100)) /\
  Float.of_ratio 99 100 = S754_finite false 8917127262193582 (-53) /\
  (forall s f,
      parse_price (VStr s) = Ok (Some f) ->
      exists pre num post,
        Str.remove_char "," (Str.strip s) = pre ++ num ++ post /\
        Numeral.shape num /\
        Str.not_digit (Str.last_char pre) /\
        Str.not_digit (Str.first_char post) /\
        (Str.digit_run num = true ->
         forall c t, post = String "." (String c t) -> Str.is_digit c = false) /\
        (forall p1 p2, pre = p1 ++ p2 -> p2 <> "" ->
           Re.match_at price_re (Str.last_char p1) (p2 ++ num ++ post) = None) /\
        Numeral.float_of_str (with_leading_zero num) = Some f).
Proof.
  repeat (split; [vm_compute; reflexivity|]).
  exact parse_price_extracts.
Qed.

(** C4 (as amended).  On a platform whose [%Y] prints the years 1000 to
    9999 as they are: a non-zero integer timestamp between 0001-01-01 and
    9999-12-31 gives the UTC date of its day (the calendar date whose
    ordinal is the day of the timestamp, counted from 1970-01-01),
    [%Y-%m-%d], whatever the text field (1243296000 gives "2009-05-26");
    a timestamp that is zero or absent gives the text field read by
    [strptime] with ["%m %d, %Y"] (0 with "05 26, 2009" gives
    "2009-05-26"), and [None] when the text is empty or does not parse
    ("13 99, 2009" gives [None]). *)
Theorem parse_date_resolution :
  (forall y, (1000 <= y <= 9999)%Z -> year_text y = Str.of_Z y) ->
  (forall text ts,
      ts <> 0%Z -> (Date.min_timestamp <= ts <= Date.max_timestamp)%Z ->
      let d := Date.of_ordinal (ts / 86400 + Date.epoch_ordinal) in
      Date.valid d = true /\
      Date.to_ordinal d = (ts / 86400 + Date.epoch_ordinal)%Z /\
      parse_date text (VInt ts) = Ok (Some (strftime d))) /\
  (forall text, parse_date text (VInt 1243296000) = Ok (Some "2009-05-26")) /\
  (forall text ts,
      truthy ts = false ->
      parse_date text ts =
        Ok (if truthy text then
              match strptime text with
              | Ok d => Some (strftime d)
              | Raise _ => None
              end
            else None)) /\
  parse_date (VStr "05 26, 2009") (VInt 0) = Ok (Some "2009-05-26") /\
  parse_date (VStr "13 99, 2009") VNone = Ok None.
Proof.
  intros Hy.
  assert (H2009 : year_text 2009 = "2009") by (rewrite Hy; [reflexivity|lia]).
  split; [|split; [|split; [|split]]].
  - intros text ts Hts Hr.
    assert (Hord : (1 <= ts / 86400 + Date.epoch_ordinal <= Date.max_ordinal)%Z).
    { unfold Date.min_timestamp, Date.max_timestamp in Hr.
      unfold Date.epoch_ordinal, Date.max_ordinal.
      assert (-719162 <= ts / 86400)%Z by (apply Z.div_le_lower_bound; lia).
      assert (ts / 86400 < 2932897)%Z by (apply Z.div_lt_upper_bound; lia).
      lia. }
    cbn zeta. split; [now apply of_ordinal_valid|].
    split; [now apply of_ordinal_correct|].
    unfold parse_date. cbn [truthy py_int bind].
    apply Z.eqb_neq in Hts. rewrite Hts. cbn [negb].
    rewrite (utcfromtimestamp_in_range ts Hr). reflexivity.
  - intros text. unfold parse_date. cbn [truthy py_int bind].
    change (negb (1243296000 =? 0)%Z) with true. cbv iota.
    change (Date.utcfromtimestamp 1243296000) with (Ok (Date.mkdate 2009 5 26)).
    cbn [bind]. unfold strftime. cbn [Date.year Date.month Date.day].
    rewrite H2009. reflexivity.
  - intros text ts Hts. unfold parse_date. rewrite Hts.
    destruct (truthy text); cbn [negb]; [|reflexivity].
    destruct (strptime text); reflexivity.
  - unfold parse_date. cbn [truthy negb Z.eqb Str.nonempty].
    change (strptime (VStr "05 26, 2009")) with (Ok (Date.mkdate 2009 5 26)).
    unfold strftime. cbn [Date.year Date.month Date.day].
    rewrite H2009. reflexivity.
  - reflexivity.
Qed.

(** C5 (what the code does at the failing input).  [parse_price] returns
    for every value, and [parse_date] returns for every text when the
    timestamp is absent or zero.  But the timestamp 253402300800, the
    first second of the year 10000, makes [parse_date] raise whatever the
    text field is, and so does 1243296000000, a date of 2009 counted in
    milliseconds; a review row that carries such a timestamp aborts the
    run: nothing is written and no stats are returned. *)
Theorem parse_date_out_of_range_aborts :
  (forall v, exists r, parse_price v = Ok r) /\
  (forall text, exists r, parse_date text VNone = Ok r) /\
  (forall text, exists r, parse_date text (VInt 0) = Ok r) /\
  (forall text, parse_date text (VInt 253402300800) = Raise ValueError) /\
  (forall text, parse_date text (VInt 1243296000000) = Raise ValueError) /\
  process_reviews
    [Parsed (VDict [("asin", VStr "B1"); ("unixReviewTime", VInt 253402300800)])]
    [(VStr "B1", [("title", VStr "Toy Car")])] true
  = ([], Raise ValueError).
Proof.
  split; [exact parse_price_total|].
  split; [intros text; now apply parse_date_text_total|].
  split; [intros text; now apply parse_date_text_total|].
  split; [intros text; reflexivity|].
  split; [intros text; reflexivity|].
  reflexivity.
Qed.

(** C7 (as amended).  On fields of the declared types [make_embed_text]
    returns, and every text it returns ends with the body part on a line
    of its own: ["Full Review: " ++ body] when the stripped review text
    [body] is not empty, and ["Full Review:"], without the space, when it
    is empty.  No returned text ends with whitespace. *)
Theorem full_review_tail :
  (forall prod review,
      sequence_or_absent (Dict.get prod "category") = true ->
      text_or_absent (Dict.get review "summary") = true ->
      text_or_absent (Dict.get review "reviewText") = true ->
      rating_or_absent (Dict.get review "overall") = true ->
      exists text, make_embed_text prod review = Ok text) /\
  (forall prod review text,
      make_embed_text prod review = Ok text ->
      exists body,
        stripped_field review "reviewText" = Ok body /\
        (body <> "" -> Str.ends_with (newline ++ "Full Review: " ++ body) text) /\
        (body = "" -> Str.ends_with (newline ++ "Full Review:") text) /\
        (forall c, Str.last_char text = Some c -> Str.is_space c = false)).
Proof.
  split; [exact make_embed_text_returns|].
  intros prod review text H.
  destruct (make_embed_text_stripped _ _ _ H) as (s0 & Hs0).
  destruct (make_embed_text_shape _ _ _ H)
    as (c & summary & body & rating & _ & _ & Hb & _ & Ht).
  exists body. split; [assumption|].
  assert (Hend : Str.ends_with (newline ++ body_tail body) text).
  { rewrite Ht. unfold middle_lines, Str.ends_with.
    set (P := product_part prod review). set (C := category_part c).
    destruct (Str.nonempty rating); destruct (Str.nonempty summary);
      [ exists (P ++ newline ++ C ++ newline ++ rating ++ newline
                  ++ "Review Summary: " ++ summary)
      | exists (P ++ newline ++ C ++ newline ++ rating)
      | exists (P ++ newline ++ C ++ newline ++ "Review Summary: " ++ summary)
      | exists (P ++ newline ++ C) ];
      repeat (rewrite ?append_assoc; cbn [append]); reflexivity. }
  split; [|split].
  - intros Hne. unfold body_tail in Hend.
    apply nonempty_true in Hne. now rewrite Hne in Hend.
  - intros ->. exact Hend.
  - intros ch Hc. rewrite Hs0 in Hc. eapply strip_last_char; eauto.
Qed.

(** C8 (as amended).  The category of the embedding text is the first
    element of the categories sequence when the sequence is non-empty and
    that element is itself non-empty; the main category when the
    sequence is empty or absent and the main category is non-empty; and
    the literal "Toys & Games" in every other case, among them a
    non-empty sequence whose first element is empty.  The text carries
    it on the line after the product line; with no category and no main
    category that line is "Category: Toys & Games". *)
Theorem category_line_fallback :
  (forall prod x l,
      Dict.get prod "category" = VList (x :: l) ->
      cat_line prod = Ok (if truthy x then x else VStr "Toys & Games")) /\
  (forall prod,
      truthy (Dict.get prod "category") = false ->
      cat_line prod =
        Ok (if truthy (Dict.get prod "main_cat") then Dict.get prod "main_cat"
            else VStr "Toys & Games")) /\
  (forall prod review text,
      make_embed_text prod review = Ok text ->
      exists c rest,
        cat_line prod = Ok c /\
        text = product_part prod review ++ newline
                 ++ "Category: " ++ py_str c ++ newline ++ rest) /\
  (forall prod review text,
      truthy (Dict.get prod "category") = false ->
      truthy (Dict.get prod "main_cat") = false ->
      make_embed_text prod review = Ok text ->
      exists rest,
        text = product_part prod review ++ newline
                 ++ "Category: Toys & Games" ++ newline ++ rest).
Proof.
  assert (Hshape : forall prod review text,
             make_embed_text prod review = Ok text ->
             exists c rest,
               cat_line prod = Ok c /\
               text = product_part prod review ++ newline
                        ++ "Category: " ++ py_str c ++ newline ++ rest).
  { intros prod review text H.
    destruct (make_embed_text_shape _ _ _ H)
      as (c & summary & body & rating & Hc & _ & _ & _ & Ht).
    exists c, (middle_lines rating summary ++ body_tail body).
    split; [assumption|]. rewrite Ht. unfold category_part.
    repeat (rewrite ?append_assoc; cbn [append]). reflexivity. }
  split; [exact cat_line_first|]. split; [exact cat_line_no_category|].
  split; [exact Hshape|].
  intros prod review text Hc Hm H.
  destruct (Hshape _ _ _ H) as (c & rest & Hcl & Ht).
  rewrite (cat_line_no_category _ Hc), Hm in Hcl. injection Hcl as <-.
  exists rest. exact Ht.
Qed.

(** C9.  [parse_price] answers [None] for the numbers [0], [0.0] and
    [-0.0], as it does for [None], and the float [0.0] for the string
    ["0"]; a row whose price is the number [0] gets the same index record
    as the same row with a [null] price. *)
Theorem parse_price_zero :
  parse_price (VInt 0) = Ok None /\
  parse_price (VFloat (S754_zero false)) = Ok None /\
  parse_price (VFloat (S754_zero true)) = Ok None /\
  parse_price VNone = Ok None /\
  parse_price (VStr "0") = Ok (Some (S754_zero false)) /\
  (forall rest : dict,
      sanitize (("price", VInt 0) :: rest) = sanitize (("price", VNone) :: rest)) /\
  (forall rest : dict,
      sanitize (("price", VFloat (S754_zero false)) :: rest)
        = sanitize (("price", VNone) :: rest)).
Proof.
  repeat split; reflexivity.
Qed.

(** C10.  A metadata row with a non-empty product identifier and none of
    the kept fields puts the empty record in the index: alone it gives
    the index with that one entry, and in any source that loads (without
    a cap) the identifier finds the empty record, provided no later row
    carries the identifier again.  With the drop policy on, every review
    that carries the identifier is then dropped: it is counted in [read]
    and in [missing_meta] and nothing is written, exactly as for a review
    whose identifier finds nothing; the test is on the record found, not
    on the presence of the key. *)
Theorem empty_record_counts_as_missing :
  (forall obj,
      truthy (Dict.get obj "asin") = true ->
      Key.hashable (Dict.get obj "asin") = true ->
      (forall k, In k default_keep_fields -> Dict.contains obj k = false) ->
      load_asin_meta [Parsed (VDict obj)] None None
        = Ok [(Dict.get obj "asin", [])]) /\
  (forall asin_map st r,
      truthy (Dict.get r "asin") = true ->
      Index.lookup asin_map (Dict.get r "asin") = Some [] ->
      loop_body asin_map true st (Parsed (VDict r))
        = Ok (mkst (S (n_in st)) (n_out st) (S (bad_asin st)) (fout st))) /\
  (forall asin_map st r,
      truthy (Dict.get r "asin") = true ->
      Key.hashable (Dict.get r "asin") = true ->
      Index.lookup asin_map (Dict.get r "asin") = None ->
      loop_body asin_map true st (Parsed (VDict r))
        = Ok (mkst (S (n_in st)) (n_out st) (S (bad_asin st)) (fout st))) /\
  (forall l1 l2 obj keep_fields asin_map,
      truthy (Dict.get obj "asin") = true ->
      (forall k, In k (keep_fields_or_default keep_fields) ->
                 Dict.contains obj k = false) ->
      (forall obj', In (Parsed (VDict obj')) l2 ->
                    truthy (Dict.get obj' "asin") = true ->
                    Key.eqb (Dict.get obj "asin") (Dict.get obj' "asin") = false) ->
      load_asin_meta (l1 ++ Parsed (VDict obj) :: l2)%list keep_fields None
        = Ok asin_map ->
      Index.lookup asin_map (Dict.get obj "asin") = Some [] /\
      forall r,
        Dict.get r "asin" = Dict.get obj "asin" ->
        dropped asin_map true (Parsed (VDict r)) = true /\
        accepted asin_map true (Parsed (VDict r)) = false /\
        forall st,
          loop_body asin_map true st (Parsed (VDict r))
            = Ok (mkst (S (n_in st)) (n_out st) (S (bad_asin st)) (fout st))).
Proof.
  assert (Hfound : forall asin_map st r,
            truthy (Dict.get r "asin") = true ->
            Index.lookup asin_map (Dict.get r "asin") = Some [] ->
            loop_body asin_map true st (Parsed (VDict r))
              = Ok (mkst (S (n_in st)) (n_out st) (S (bad_asin st)) (fout st))).
  { intros asin_map st r Ha Hl. unfold loop_body. cbn [as_dict bind].
    rewrite Ha. cbn [negb]. unfold Index.get.
    rewrite (lookup_hashable _ _ _ Hl), Hl. reflexivity. }
  split; [|split; [exact Hfound|split]].
  - intros obj Ha Hh Hk. unfold load_asin_meta. cbn [keep_fields_or_default].
    cbn [load_loop as_dict bind]. rewrite Ha. cbn [negb].
    rewrite (project_empty _ _ Hk).
    change (sanitize []) with (@Ok dict []). cbn [bind].
    unfold Index.set. rewrite Hh. reflexivity.
  - intros asin_map st r Ha Hh Hl. unfold loop_body. cbn [as_dict bind].
    rewrite Ha. cbn [negb]. unfold Index.get. rewrite Hh, Hl. reflexivity.
  - intros l1 l2 obj keep_fields asin_map Ha Hk Hl2 H. unfold load_asin_meta in H.
    destruct (load_lookup_last_row _ _ _ _ _ Ha Hl2 H) as (rec & Hr & _ & Hl).
    rewrite (project_empty _ _ Hk) in Hr.
    change (sanitize []) with (@Ok dict []) in Hr. injection Hr as <-.
    split; [exact Hl|]. intros r Hr. cbn [dropped accepted].
    rewrite Hr, Ha, Hl. cbn [prod_truthy truthy negb andb orb].
    split; [reflexivity|]. split; [reflexivity|].
    intros st. apply Hfound; rewrite Hr; assumption.
Qed.

(* ===================================================================== *)
(** ** Further properties *)

(** *** Markup removal *)

Lemma any_char_append (p : ascii -> bool) (a b : string) :
  any_char p (a ++ b) = any_char p a || any_char p b.
Proof.
  induction a as [|c a IH]; cbn [append any_char]; [reflexivity|].
  rewrite IH. apply orb_assoc.
Qed.

Lemma any_char_all (p : ascii -> bool) (s : string) :
  any_char p s = false -> Str.all (fun c => negb (p c)) s = true.
Proof.
  induction s as [|c s IH]; cbn [any_char Str.all]; [reflexivity|].
  intros H. apply orb_false_iff in H. destruct H as [Hc Hs].
  rewrite Hc, (IH Hs). reflexivity.
Qed.

Lemma all_any_char (p : ascii -> bool) (s : string) :
  Str.all (fun c => negb (p c)) s = true -> any_char p s = false.
Proof.
  induction s as [|c s IH]; cbn [any_char Str.all]; [reflexivity|].
  intros H. apply andb_true_iff in H. destruct H as [Hc Hs].
  apply negb_true_iff in Hc. rewrite Hc, (IH Hs). reflexivity.
Qed.

Lemma tag_re_before (b b' : option ascii) (s : string) :
  Re.match_at tag_re b s = Re.match_at tag_re b' s.
Proof.
  unfold Re.match_at, tag_re. rewrite !run_seq. destruct s; reflexivity.
Qed.

Lemma sub_tags_before (repl : string) (n : nat) (s : string) (b b' : option ascii) :
  Re.sub_from n tag_re repl b s = Re.sub_from n tag_re repl b' s.
Proof.
  destruct n; cbn [Re.sub_from]; [reflexivity|].
  rewrite (tag_re_before b b'). reflexivity.
Qed.

Lemma tag_re_open (b : option ascii) (c : ascii) (s : string) :
  Str.is_char "<" c = false -> Re.match_at tag_re b (String c s) = None.
Proof.
  intros Hc. destruct (Re.match_at tag_re b (String c s)) as [m|] eqn:E; [|reflexivity].
  destruct (tag_re_match _ _ _ E) as (inner & Hs & _).
  change ("<" ++ inner ++ ">" ++ Re.rest m)
    with (String "<" (inner ++ ">" ++ Re.rest m)) in Hs.
  injection Hs as Hc' _. subst c. discriminate Hc.
Qed.

Lemma tag_re_close (b : option ascii) (s : string) :
  has_char ">" s = false -> Re.match_at tag_re b s = None.
Proof.
  intros Hs. destruct (Re.match_at tag_re b s) as [m|] eqn:E; [|reflexivity].
  destruct (tag_re_match _ _ _ E) as (inner & Hs' & _).
  rewrite Hs' in Hs. unfold has_char in Hs.
  rewrite !any_char_append in Hs.
  change (any_char (Str.is_char ">") ">") with true in Hs.
  cbn [orb] in Hs. rewrite !orb_true_r in Hs. discriminate Hs.
Qed.

Lemma sub_from_no_match (r : Re.regex) (repl : string) (n : nat) :
  forall s b,
    (forall p1 p2 b', s = p1 ++ p2 -> Re.match_at r b' p2 = None) ->
    Re.sub_from n r repl b s = s.
Proof.
  induction n as [|n IH]; intros s b H; cbn [Re.sub_from]; [reflexivity|].
  rewrite (H "" s b eq_refl).
  destruct s as [|c s]; [reflexivity|]. f_equal. apply IH.
  intros p1 p2 b' E. apply (H (String c p1) p2 b'). rewrite E. reflexivity.
Qed.

Lemma star_exact {A : Type} (p : ascii -> bool) (ds : string) :
  forall (b : option ascii) (g : list (string * string))
         (k : Re.pos -> option A) (s' : string) (a : A),
    Str.all p ds = true ->
    (forall c t, s' = String c t -> p c = false) ->
    k (Re.mkpos (Str.last_or b ds) s' g) = Some a ->
    Re.star p b (ds ++ s') g k = Some a.
Proof.
  induction ds as [|c ds IH]; intros b g k s' a Hd Hs Hk.
  - cbn [append]. destruct s' as [|c t]; cbn [Re.star]; [exact Hk|].
    rewrite (Hs c t eq_refl). exact Hk.
  - cbn [Str.all] in Hd. apply andb_true_iff in Hd. destruct Hd as [Hc Hd].
    cbn [append Re.star]. rewrite Hc.
    rewrite last_or_cons in Hk.
    rewrite (IH (Some c) g k s' a Hd Hs Hk). reflexivity.
Qed.

Lemma tag_re_exact (b : option ascii) (inner rest : string) :
  inner <> "" -> has_char ">" inner = false ->
  Re.match_at tag_re b ("<" ++ inner ++ ">" ++ rest)
    = Some (Re.mkpos (Some ">"%char) rest []).
Proof.
  intros Hne Hin. apply any_char_all in Hin.
  unfold Re.match_at, tag_re. rewrite !run_seq.
  change ("<" ++ inner ++ ">" ++ rest) with (String "<" (inner ++ String ">" rest)).
  destruct inner as [|c inner]; [contradiction|].
  cbn [Str.all] in Hin. apply andb_true_iff in Hin. destruct Hin as [Hc Hin].
  cbn [Re.run Re.rest Re.groups append].
  change (Str.is_char "<" "<") with true. cbn iota.
  rewrite Hc.
  apply star_exact.
  - exact Hin.
  - intros c' t E. injection E as E _. subst c'. reflexivity.
  - reflexivity.
Qed.

Lemma sub_tags_prefix (repl a x : string) :
  has_char "<" a = false ->
  Re.sub tag_re repl (a ++ x) = a ++ Re.sub tag_re repl x.
Proof.
  unfold Re.sub. generalize (@None ascii) at 1.
  induction a as [|c a IH]; intros b Ha.
  - cbn [append]. apply sub_tags_before.
  - unfold has_char in Ha. cbn [any_char] in Ha. apply orb_false_iff in Ha.
    destruct Ha as [Hc Ha].
    cbn [append String.length Re.sub_from].
    rewrite (tag_re_open b c (a ++ x) Hc). f_equal. apply IH. exact Ha.
Qed.

Lemma sub_tags_tag (repl inner rest : string) :
  inner <> "" -> has_char ">" inner = false ->
  Re.sub tag_re repl ("<" ++ inner ++ ">" ++ rest)
    = repl ++ Re.sub tag_re repl rest.
Proof.
  intros Hne Hin. unfold Re.sub.
  set (r := Re.sub_from (S (String.length rest)) tag_re repl None rest).
  cbn [Re.sub_from].
  rewrite (tag_re_exact None inner rest Hne Hin). cbn [Re.before Re.rest].
  f_equal. subst r.
  rewrite (sub_tags_before repl _ rest (Some ">"%char) None).
  apply sub_tags_rounds.
  - change ("<" ++ inner ++ ">" ++ rest) with (String "<" (inner ++ String ">" rest)).
    cbn [String.length]. rewrite length_append. cbn [String.length]. lia.
  - lia.
Qed.

Lemma lstrip_first_char (s : string) (c : ascii) :
  Str.first_char (Str.lstrip s) = Some c -> Str.is_space c = false.
Proof.
  induction s as [|c' s IH]; cbn [Str.lstrip]; [discriminate|].
  destruct (Str.is_space c') eqn:E; [exact IH|].
  cbn [Str.first_char]. intros H. injection H as H. subst c'. exact E.
Qed.

Lemma rstrip_first_char (s : string) (c : ascii) :
  Str.first_char (Str.rstrip s) = Some c -> Str.first_char s = Some c.
Proof.
  destruct s as [|c' s]; cbn [Str.rstrip]; [discriminate|].
  destruct (Str.rstrip s); [destruct (Str.is_space c'); [discriminate|]|];
    cbn [Str.first_char]; exact (fun H => H).
Qed.

Lemma strip_first_char (s : string) (c : ascii) :
  Str.first_char (Str.strip s) = Some c -> Str.is_space c = false.
Proof.
  intros H. apply rstrip_first_char in H. exact (lstrip_first_char _ _ H).
Qed.


(** X1.  When the unescaped text has no ["<"], or has no [">"],
    [strip_html] removes nothing from it: the result is the unescaped
    text with its surrounding whitespace trimmed. *)
Theorem strip_html_without_tags (t : string) :
  t <> "" ->
  has_char "<" (html_unescape t) = false \/ has_char ">" (html_unescape t) = false ->
  strip_html (VStr t) = Ok (Str.strip (html_unescape t)).
Proof.
  intros Ht H. unfold strip_html. cbn [truthy].
  apply nonempty_true in Ht. rewrite Ht. cbn [negb]. do 2 f_equal.
  unfold Re.sub. apply sub_from_no_match. intros p1 p2 b' E.
  rewrite E in H. unfold has_char in H. rewrite !any_char_append in H.
  destruct H as [H|H]; apply orb_false_iff in H; destruct H as [_ H].
  - destruct p2 as [|c p2].
    + unfold Re.match_at, tag_re. rewrite run_seq. reflexivity.
    + cbn [any_char] in H. apply orb_false_iff in H. destruct H as [H _].
      apply tag_re_open. exact H.
  - apply tag_re_close. exact H.
Qed.

(** X2.  A tag becomes one space.  When the unescaped text is [a], then
    ["<"], a non-empty [inner] without [">"], then [">"] and [b], and [a]
    has no ["<"], [strip_html] keeps [a], puts a single space for the tag
    and goes on with [b] in the same way; the whole is trimmed. *)
Theorem strip_html_tag_to_space (t a inner b : string) :
  t <> "" ->
  html_unescape t = a ++ "<" ++ inner ++ ">" ++ b ->
  has_char "<" a = false -> inner <> "" -> has_char ">" inner = false ->
  strip_html (VStr t) = Ok (Str.strip (a ++ " " ++ Re.sub tag_re " " b)).
Proof.
  intros Ht Hu Ha Hne Hin. unfold strip_html. cbn [truthy].
  apply nonempty_true in Ht. rewrite Ht. cbn [negb]. do 2 f_equal.
  rewrite Hu, (sub_tags_prefix _ _ _ Ha), (sub_tags_tag _ _ _ Hne Hin).
  reflexivity.
Qed.

(** X3.  [strip_html] answers the empty string for [None], [""] and every
    other falsy value; what it returns never starts or ends with
    whitespace; and it raises only [TypeError], on a truthy value that is
    not a string. *)
Theorem strip_html_trimmed (v : pyval) :
  match strip_html v with
  | Ok out =>
      (truthy v = false -> out = "") /\
      (forall c, Str.first_char out = Some c -> Str.is_space c = false) /\
      (forall c, Str.last_char out = Some c -> Str.is_space c = false)
  | Raise e => e = TypeError /\ truthy v = true /\ is_str v = false
  end.
Proof.
  unfold strip_html. destruct (truthy v) eqn:Hv; cbn [negb].
  - destruct v; try (split; [reflexivity|split; [reflexivity|reflexivity]]).
    split; [discriminate|]. split; intros c.
    + apply strip_first_char.
    + apply strip_last_char.
  - split; [reflexivity|]. split; intros c H; discriminate H.
Qed.


(** *** Prices and digits *)

Lemma digit_not_space (c : ascii) : Str.is_digit c = true -> Str.is_space c = false.
Proof.
  destruct c as [[] [] [] [] [] [] [] []]; vm_compute; intros H;
    first [reflexivity | discriminate H].
Qed.

Lemma digit_not_comma (c : ascii) : Str.is_digit c = true -> Ascii.eqb "," c = false.
Proof.
  destruct c as [[] [] [] [] [] [] [] []]; vm_compute; intros H;
    first [reflexivity | discriminate H].
Qed.

Lemma space_not_digit (c : ascii) : Str.is_space c = true -> Str.is_digit c = false.
Proof.
  intros H. destruct (Str.is_digit c) eqn:E; [|reflexivity].
  rewrite (digit_not_space c E) in H. discriminate H.
Qed.

Lemma any_digit_lstrip (s : string) :
  any_char Str.is_digit (Str.lstrip s) = any_char Str.is_digit s.
Proof.
  induction s as [|c s IH]; cbn [Str.lstrip]; [reflexivity|].
  destruct (Str.is_space c) eqn:E; [|reflexivity].
  cbn [any_char]. rewrite (space_not_digit c E), IH. reflexivity.
Qed.

Lemma any_digit_rstrip (s : string) :
  any_char Str.is_digit (Str.rstrip s) = any_char Str.is_digit s.
Proof.
  induction s as [|c s IH]; cbn [Str.rstrip]; [reflexivity|].
  destruct (Str.rstrip s) as [|c' r] eqn:E.
  - cbn [any_char] in IH. cbn [any_char]. rewrite <- IH.
    destruct (Str.is_space c) eqn:Es; cbn [any_char]; [|reflexivity].
    rewrite (space_not_digit c Es). reflexivity.
  - cbn [any_char] in IH. cbn [any_char]. rewrite IH. reflexivity.
Qed.

Lemma any_digit_strip (s : string) :
  any_char Str.is_digit (Str.strip s) = any_char Str.is_digit s.
Proof.
  unfold Str.strip. rewrite any_digit_rstrip. apply any_digit_lstrip.
Qed.

Lemma any_digit_remove_comma (s : string) :
  any_char Str.is_digit (Str.remove_char "," s) = any_char Str.is_digit s.
Proof.
  induction s as [|c s IH]; cbn [Str.remove_char]; [reflexivity|].
  destruct (Ascii.eqb "," c) eqn:E; cbn [any_char]; rewrite IH; [|reflexivity].
  destruct (Str.is_digit c) eqn:Ed; [|reflexivity].
  rewrite (digit_not_comma c Ed) in E. discriminate E.
Qed.

Lemma garbage_no_digit (s : string) :
  Str.mem s garbage_prices = true -> any_char Str.is_digit s = false.
Proof.
  unfold Str.mem, garbage_prices. cbn [existsb]. intros H.
  repeat (apply orb_true_iff in H; destruct H as [H|H];
          [apply String.eqb_eq in H; subst s; reflexivity|]).
  discriminate H.
Qed.

Lemma digit_run_any (s : string) :
  Str.digit_run s = true -> any_char Str.is_digit s = true.
Proof.
  unfold Str.digit_run. destruct s as [|c s]; [discriminate|].
  cbn [Str.nonempty Str.all any_char andb]. intros H.
  apply andb_true_iff in H. destruct H as [H _]. rewrite H. reflexivity.
Qed.

Lemma shape_any_digit (num : string) :
  Numeral.shape num -> any_char Str.is_digit num = true.
Proof.
  intros [ds H|ds fs H _|fs H]; rewrite ?any_char_append.
  - apply digit_run_any. exact H.
  - rewrite (digit_run_any ds H). reflexivity.
  - rewrite (digit_run_any fs H). apply orb_true_r.
Qed.

(** At a digit that no digit precedes, the numeral pattern matches. *)
Lemma price_re_at_digit (b : option ascii) (c : ascii) (s : string) :
  Str.not_digit b -> Str.is_digit c = true ->
  Re.match_at price_re b (String c s) <> None.
Proof.
  intros Hb Hc.
  assert (Hrun :
    Re.run numeral_re (Re.mkpos b (String c s) [])
      (fun st => Re.run (Re.NotAhead Str.is_digit)
         (Re.mkpos (Re.before st) (Re.rest st)
            (("1", Re.consumed (String c s) (Re.rest st)) :: Re.groups st)) Some)
    <> None).
  { unfold numeral_re. rewrite run_alt, run_seq.
    match goal with
    | |- match ?x with _ => _ end <> None =>
        assert (Hx : x <> None); [|destruct x; [discriminate|contradiction]]
    end.
    cbn [Re.run Re.rest Re.groups]. rewrite Hc.
    destruct (digit_span s) as (ds & s' & Hs & Hd & Hn).
    apply (star_complete Str.is_digit s _ _ _ ds s' Hs Hd).
    match goal with
    | |- match ?x with _ => _ end <> None => destruct x; [discriminate|]
    end.
    cbn [Re.before Re.rest Re.groups].
    destruct s' as [|c' s'']; [discriminate|].
    cbn [Str.first_char Str.not_digit] in Hn. rewrite Hn. discriminate. }
  rewrite price_re_run. destruct b as [c0|]; [|exact Hrun].
  cbn [Str.not_digit] in Hb. rewrite Hb. exact Hrun.
Qed.

Lemma search_price_digit (s : string) :
  forall b, Str.not_digit b -> any_char Str.is_digit s = true ->
            Re.search_from price_re b s <> None.
Proof.
  induction s as [|c s IH]; intros b Hb Hs; [discriminate Hs|].
  cbn [Re.search_from].
  destruct (Re.match_at price_re b (String c s)) eqn:E; [discriminate|].
  destruct (Str.is_digit c) eqn:Hc.
  - exfalso. exact (price_re_at_digit b c s Hb Hc E).
  - cbn [any_char] in Hs. rewrite Hc in Hs. apply IH; [exact Hc|exact Hs].
Qed.

(** X4.  For a string, [parse_price] answers [None] exactly when the
    string has no digit: every string with a digit in it yields a
    price. *)
Theorem parse_price_none_iff_no_digit (s : string) :
  parse_price (VStr s) = Ok None <-> any_char Str.is_digit s = false.
Proof.
  split.
  - intros H. destruct (any_char Str.is_digit s) eqn:Hd; [exfalso|reflexivity].
    unfold parse_price in H. cbn [truthy py_str] in H.
    destruct s as [|c0 s0] eqn:Es; [discriminate Hd|]. rewrite <- Es in *.
    assert (Hne : Str.nonempty s = true) by (rewrite Es; reflexivity).
    rewrite Hne in H. cbn [negb] in H.
    destruct (Str.mem (Str.strip s) garbage_prices) eqn:Hg.
    { apply garbage_no_digit in Hg. rewrite any_digit_strip in Hg. congruence. }
    destruct (Re.search price_re (Str.remove_char "," (Str.strip s))) as [m|] eqn:Em.
    + destruct (search_from_split _ _ _ _ Em) as (pre & s1 & _ & Hm & _).
      destruct (price_re_match _ _ _ Hm) as (num & post & _ & Hsh & Hgr & _).
      rewrite Hgr in H.
      destruct (float_of_str_shape num Hsh) as [f Hf].
      rewrite Hf in H. discriminate H.
    + unfold Re.search in Em. revert Em. apply search_price_digit; [exact I|].
      rewrite any_digit_remove_comma, any_digit_strip. exact Hd.
  - intros Hd. destruct (parse_price_total (VStr s)) as [[f|] Hr]; [exfalso|exact Hr].
    destruct (parse_price_extracts s f Hr) as (pre & num & post & Hs & Hsh & _).
    apply (f_equal (any_char Str.is_digit)) in Hs.
    rewrite any_digit_remove_comma, any_digit_strip, Hd in Hs.
    rewrite !any_char_append, (shape_any_digit num Hsh) in Hs.
    rewrite orb_true_r in Hs. discriminate Hs.
Qed.

(** *** The sign of a price *)

Lemma shr_1_nonneg (mrs : shr_record) :
  (0 <= shr_m mrs)%Z -> (0 <= shr_m (shr_1 mrs))%Z.
Proof.
  destruct mrs as [m r s]. cbn [shr_m]. intros H.
  destruct m as [|p|p]; [| |exfalso; apply H; reflexivity].
  - cbn. apply Z.le_refl.
  - destruct p; cbn; [apply Pos2Z.is_nonneg|apply Pos2Z.is_nonneg|apply Z.le_refl].
Qed.

Lemma iter_shr_1_nonneg (p : positive) :
  forall mrs, (0 <= shr_m mrs)%Z -> (0 <= shr_m (iter_pos shr_1 p mrs))%Z.
Proof.
  induction p as [p IH|p IH|]; intros mrs H; cbn [iter_pos].
  - apply IH, IH, shr_1_nonneg, H.
  - apply IH, IH, H.
  - apply shr_1_nonneg, H.
Qed.

Lemma shr_fexp_nonneg (m e : Z) (l : location) :
  (0 <= m)%Z ->
  (0 <= shr_m (fst (shr_fexp Float.prec Float.emax m e l)))%Z.
Proof.
  intros H. unfold shr_fexp, shr.
  assert (H0 : (0 <= shr_m (shr_record_of_loc m l))%Z)
    by (destruct l as [|[]]; exact H).
  destruct (fexp Float.prec Float.emax (Zdigits2 m + e) - e)%Z;
    cbn [fst]; [exact H0| |exact H0].
  apply iter_shr_1_nonneg. exact H0.
Qed.

Lemma round_nearest_even_nonneg (m : Z) (l : location) :
  (0 <= m)%Z -> (0 <= round_nearest_even m l)%Z.
Proof.
  clear html_unescape float_repr str_repr json_dumps year_text.
  intros H. unfold round_nearest_even.
  destruct l as [|[]]; [exact H| |exact H|]; [destruct (Z.even m)|]; lia.
Qed.

Lemma binary_round_aux_nonneg (m e : Z) (l : location) :
  (0 <= m)%Z ->
  nonneg_float (binary_round_aux Float.prec Float.emax false m e l) = true.
Proof.
  intros H. unfold binary_round_aux.
  pose proof (shr_fexp_nonneg m e l H) as H1.
  destruct (shr_fexp Float.prec Float.emax m e l) as [mrs' e'].
  cbn [fst] in H1.
  pose proof (shr_fexp_nonneg _ e' loc_Exact
                (round_nearest_even_nonneg _ (loc_of_shr_record mrs') H1)) as H2.
  destruct (shr_fexp Float.prec Float.emax
              (round_nearest_even (shr_m mrs') (loc_of_shr_record mrs')) e' loc_Exact)
    as [mrs'' e''].
  cbn [fst] in H2.
  destruct (shr_m mrs'') as [|p|p]; [reflexivity| |exfalso; apply H2; reflexivity].
  destruct (e'' <=? Float.emax - Float.prec)%Z; reflexivity.
Qed.

Lemma of_ratio_nonneg (n d : Z) :
  (0 < d)%Z -> nonneg_float (Float.of_ratio n d) = true.
Proof.
  clear html_unescape float_repr str_repr json_dumps year_text.
  intros Hd. unfold Float.of_ratio. destruct n as [|p|p]; [reflexivity| |reflexivity].
  unfold SFdiv_core_binary.
  set (s := (0 - 0 - _)%Z).
  set (m' := match s with Z0 => Z.pos p | Zpos _ => Z.shiftl (Z.pos p) s | Zneg _ => 0%Z end).
  assert (Hm : (0 <= m')%Z).
  { subst m'. destruct s; [lia| |lia]. apply Z.shiftl_nonneg. lia. }
  pose proof (Z.div_pos m' d Hm Hd) as Hq.
  unfold Z.div in Hq. destruct (Z.div_eucl m' d) as [q r]. cbn [fst] in Hq.
  apply binary_round_aux_nonneg. exact Hq.
Qed.

(** X5.  A price is never negative and never [nan]: whatever
    [parse_price] returns is [0.0], a positive number or [inf].  A minus
    sign in front of the digits is not read. *)
Theorem parse_price_never_negative (v : pyval) (f : spec_float) :
  parse_price v = Ok (Some f) -> nonneg_float f = true.
Proof.
  unfold parse_price. destruct (negb (truthy v)); [discriminate|].
  destruct (Str.mem _ _); [discriminate|].
  destruct (Re.search _ _) as [m|]; [|discriminate].
  destruct (Re.group _ _) as [num|]; [|discriminate].
  destruct (Numeral.float_of_str (with_leading_zero num)) as [f'|] eqn:E;
    [|discriminate].
  intros H. injection H as H. subst f'.
  unfold Numeral.float_of_str in E.
  destruct (Numeral.split_dot _) as [i fr].
  destruct (_ || _); [|discriminate E].
  destruct (Numeral.digits_value _ _) as [n|]; [|discriminate E].
  injection E as E. subst f. apply of_ratio_nonneg.
  apply Z.pow_pos_nonneg; [reflexivity|apply Nat2Z.is_nonneg].
Qed.


(** *** Dates *)

(** X6.  Whatever date [parse_date] returns is the rendering of a real
    calendar date between the years 1 and 9999: the month is between 1
    and 12 and the day exists in that month of that year. *)
Theorem parse_date_is_calendar_date (text ts : pyval) (s : string) :
  parse_date text ts = Ok (Some s) ->
  exists d,
    s = strftime d /\ Date.valid d = true /\
    (1 <= Date.year d <= 9999)%Z /\ (1 <= Date.month d <= 12)%Z /\
    (1 <= Date.day d <= Date.days_in_month (Date.year d) (Date.month d))%Z.
Proof.
  intros H.
  assert (Hv : exists d, s = strftime d /\ Date.valid d = true).
  { unfold parse_date in H. destruct (truthy ts).
    - destruct (py_int ts) as [t|]; [|discriminate]. cbn [bind] in H.
      unfold Date.utcfromtimestamp in H.
      destruct ((t <? Date.min_time_t)%Z || (Date.max_time_t <? t)%Z);
        [discriminate|].
      destruct ((t <? Date.min_gmtime)%Z || (Date.max_gmtime <? t)%Z);
        [discriminate|].
      cbv zeta in H.
      destruct ((1 <=? t / 86400 + Date.epoch_ordinal)%Z
                && (t / 86400 + Date.epoch_ordinal <=? Date.max_ordinal)%Z) eqn:E;
        [|discriminate].
      cbn [bind] in H. injection H as <-.
      apply andb_true_iff in E. destruct E as [E1 E2].
      apply Z.leb_le in E1, E2.
      eexists. split; [reflexivity|]. apply of_ordinal_valid. split; assumption.
    - destruct (negb (truthy text)); [discriminate|].
      destruct (strptime text) as [d|] eqn:E; [|discriminate].
      injection H as <-. exists d. split; [reflexivity|].
      destruct text as [| | | |t| |]; try discriminate E. cbn [strptime] in E.
      unfold Date.strptime_m_d_Y in E.
      destruct (Re.match_at Date.re_m_d_Y None t) as [m|]; [|discriminate].
      destruct (Re.rest m); [|discriminate].
      destruct (Date.group_int "Y" m) as [y|]; [|discriminate].
      destruct (Date.group_int "m" m) as [mo|]; [|discriminate].
      destruct (Date.group_int "d" m) as [dd|]; [|discriminate].
      destruct (Date.valid (Date.mkdate y mo dd)) eqn:Ev; [|discriminate].
      injection E as <-. exact Ev. }
  destruct Hv as (d & Hs & Hv). exists d. split; [exact Hs|]. split; [exact Hv|].
  clear - Hv. unfold Date.valid in Hv.
  repeat (apply andb_true_iff in Hv; destruct Hv as [Hv ?]).
  repeat match goal with
         | H : (_ <=? _)%Z = true |- _ => apply Z.leb_le in H
         end.
  repeat split; assumption.
Qed.

(** *** Building the index *)

Lemma key_eqb_str (a : string) (k : pyval) :
  Key.eqb (VStr a) k = true -> k = VStr a.
Proof.
  destruct k; cbn; try discriminate. intros H. apply String.eqb_eq in H.
  subst. reflexivity.
Qed.

Lemma key_eqb_str_r (a : string) (k : pyval) :
  Key.eqb k (VStr a) = true -> k = VStr a.
Proof.
  destruct k as [| | |f| | |]; cbn; try discriminate.
  - destruct f; discriminate.
  - intros H. apply String.eqb_eq in H. subst. reflexivity.
Qed.

Lemma key_eqb_str_refl (a : string) : Key.eqb (VStr a) (VStr a) = true.
Proof. cbn. apply String.eqb_refl. Qed.

(** Reading a string key after a write. *)
Lemma lookup_insert_str (m : asin_index) (k : pyval) (v : dict) (a : string) :
  Index.lookup (Index.insert m k v) (VStr a) =
    if Key.eqb (VStr a) k then Some v else Index.lookup m (VStr a).
Proof.
  induction m as [|[k0 v0] m IH]; cbn [Index.insert Index.lookup].
  - reflexivity.
  - destruct (Key.eqb k k0) eqn:E; cbn [Index.lookup].
    + destruct (Key.eqb (VStr a) k0) eqn:E0.
      * apply key_eqb_str in E0. subst k0. apply key_eqb_str_r in E. subst k.
        rewrite key_eqb_str_refl. reflexivity.
      * destruct (Key.eqb (VStr a) k) eqn:E1; [|reflexivity].
        apply key_eqb_str in E1. subst k. congruence.
    + rewrite IH. destruct (Key.eqb (VStr a) k0) eqn:E0; [|reflexivity].
      destruct (Key.eqb (VStr a) k) eqn:E1; [|reflexivity].
      apply key_eqb_str in E0, E1. subst k0 k.
      rewrite key_eqb_str_refl in E. discriminate E.
Qed.

(** Rows that do not carry the identifier leave its entry alone. *)
Lemma load_loop_lookup_other (keep_fields : list string) (max_rows : option Z)
    (a : string) (lines : list jsonl_line) :
  forall i m m',
    load_loop keep_fields max_rows lines i m = Ok m' ->
    (forall obj, In (Parsed (VDict obj)) lines -> Dict.get obj "asin" <> VStr a) ->
    Index.lookup m' (VStr a) = Index.lookup m (VStr a).
Proof.
  induction lines as [|line lines IH]; intros i m m' H Hl; cbn [load_loop] in H.
  - injection H as <-. reflexivity.
  - assert (Hl' : forall obj, In (Parsed (VDict obj)) lines ->
                              Dict.get obj "asin" <> VStr a)
      by (intros obj Hi; apply Hl; right; exact Hi).
    destruct line as [|v| |e0]; [exact (IH _ _ _ H Hl')| |discriminate|discriminate].
    destruct v as [| | | | |l|obj]; try discriminate.
    cbn [as_dict bind] in H.
    destruct (negb (truthy (Dict.get obj "asin"))); [exact (IH _ _ _ H Hl')|].
    destruct (sanitize (project keep_fields obj)) as [rec|]; [|discriminate].
    cbn [bind] in H. unfold Index.set in H.
    destruct (Key.hashable (Dict.get obj "asin")); [|discriminate].
    cbn [bind] in H.
    assert (Hi : Index.lookup (Index.insert m (Dict.get obj "asin") rec) (VStr a)
                 = Index.lookup m (VStr a)).
    { rewrite lookup_insert_str.
      destruct (Key.eqb (VStr a) (Dict.get obj "asin")) eqn:E; [|reflexivity].
      apply key_eqb_str in E. exfalso. apply (Hl obj); [left; reflexivity|exact E]. }
    destruct (cap_reached max_rows i).
    + injection H as <-. exact Hi.
    + rewrite (IH _ _ _ H Hl'). exact Hi.
Qed.

(** X7.  The last row wins.  When the metadata loads without a cap, the
    entry found under a string identifier is made from the last row that
    carries that identifier: rows before it, whatever they hold, are
    overwritten. *)
Theorem load_last_row_wins
    (l1 l2 : list jsonl_line) (obj : dict) (a : string)
    (keep_fields : option (list string)) (asin_map : asin_index) :
  Dict.get obj "asin" = VStr a -> a <> "" ->
  (forall obj', In (Parsed (VDict obj')) l2 -> Dict.get obj' "asin" <> VStr a) ->
  load_asin_meta (l1 ++ Parsed (VDict obj) :: l2)%list keep_fields None = Ok asin_map ->
  exists rec,
    sanitize (project (keep_fields_or_default keep_fields) obj) = Ok rec /\
    Index.lookup asin_map (VStr a) = Some rec.
Proof.
  intros Ha Hne Hl2 H. unfold load_asin_meta in H. rewrite load_loop_app in H.
  destruct (load_loop _ None l1 1%Z []) as [m1|]; [|discriminate].
  cbn [bind load_loop as_dict] in H. rewrite Ha in H. cbn [truthy] in H.
  apply nonempty_true in Hne. rewrite Hne in H. cbn [negb] in H.
  destruct (sanitize_total (project (keep_fields_or_default keep_fields) obj))
    as [rec Hr].
  rewrite Hr in H. cbn [bind Index.set Key.hashable cap_reached] in H.
  exists rec. split; [exact Hr|].
  rewrite (load_loop_lookup_other _ _ a _ _ _ _ H Hl2), lookup_insert_str,
    key_eqb_str_refl.
  reflexivity.
Qed.


(** *** The fields of an index record *)

(** X9.  A record of the index holds kept fields only; its price, when
    it has one, is a float or [None], never the text of the row; and its
    category is never a bare string. *)
Theorem index_record_fields
    (meta : list jsonl_line) (keep_fields : option (list string))
    (max_rows : option Z) (asin_map : asin_index) (asin : pyval) (rec : dict) :
  load_asin_meta meta keep_fields max_rows = Ok asin_map ->
  In (asin, rec) asin_map ->
  (forall k, Dict.contains rec k = true ->
             Str.mem k (keep_fields_or_default keep_fields) = true) /\
  (Dict.get rec "price" = VNone \/ exists f, Dict.get rec "price" = VFloat f) /\
  is_str (Dict.get rec "category") = false.
Proof.
  intros H Hin. unfold load_asin_meta in H.
  destruct (load_loop_entries _ _ _ _ _ _ _ _ H Hin) as [[]|(obj & _ & _ & _ & Hs)].
  pose proof (sanitize_lookup _ _ "price" Hs) as Hp.
  pose proof (sanitize_lookup _ _ "category" Hs) as Hc.
  change (String.eqb "price" "price") with true in Hp.
  change (String.eqb "category" "price") with false in Hc.
  change (String.eqb "category" "category") with true in Hc.
  cbv iota in Hp, Hc.
  split; [|split].
  - intros k Hk. unfold Dict.contains in Hk.
    rewrite (sanitize_lookup _ _ k Hs) in Hk.
    destruct (Str.mem k (keep_fields_or_default keep_fields)) eqn:Em; [reflexivity|].
    exfalso.
    destruct (String.eqb k "price") eqn:E1;
      [apply String.eqb_eq in E1; subst k|
       destruct (String.eqb k "category") eqn:E2;
       [apply String.eqb_eq in E2; subst k|]];
      rewrite project_lookup, Em in Hk; discriminate Hk.
  - unfold Dict.get. rewrite Hp.
    destruct (Dict.lookup (project (keep_fields_or_default keep_fields) obj) "price")
      as [p|]; [|left; reflexivity].
    destruct (parse_price p) as [[f|]|]; cbn [opt_float];
      [right; exists f; reflexivity|left; reflexivity|left; reflexivity].
  - unfold Dict.get. rewrite Hc.
    destruct (Dict.lookup (project (keep_fields_or_default keep_fields) obj) "category")
      as [[]|]; reflexivity.
Qed.

(** *** The row cap *)

Lemma skipn_step {A : Type} (P : A -> Prop) (n i : Z) (x : A) (l : list A) :
  Forall P (skipn (Z.to_nat (n - i)) (x :: l)) ->
  Forall P (skipn (Z.to_nat (n - (i + 1))) l).
Proof.
  clear html_unescape float_repr str_repr json_dumps year_text.
  destruct (Z.to_nat (n - i)) as [|k] eqn:E.
  - cbn [skipn]. intros H. inversion H; subst.
    replace (Z.to_nat (n - (i + 1))) with 0%nat by lia. assumption.
  - cbn [skipn]. replace (Z.to_nat (n - (i + 1))) with k by lia. exact (fun H => H).
Qed.

Lemma load_loop_cap (keep_fields : list string) (n : Z) (row : jsonl_line)
    (l2 : list jsonl_line) :
  n <> 0%Z -> has_asin row = true ->
  forall l1 i m,
    Forall (fun l => has_asin l = false) (skipn (Z.to_nat (n - i)) l1) ->
    (n <= i + Z.of_nat (length l1))%Z ->
    load_loop keep_fields (Some n) (l1 ++ row :: l2)%list i m =
      load_loop keep_fields None (l1 ++ [row])%list i m.
Proof.
  clear html_unescape json_dumps year_text.
  intros Hn Hrow. induction l1 as [|line l1 IH]; intros i m Hf Hlen.
  - cbn [app length] in *.
    destruct row as [|v| |e0]; try discriminate Hrow.
    destruct v as [| | | | |l|obj]; try discriminate Hrow.
    cbn [has_asin] in Hrow. cbn [load_loop as_dict bind]. rewrite Hrow. cbn [negb].
    destruct (sanitize (project keep_fields obj)) as [rec|]; cbn [bind]; [|reflexivity].
    destruct (Index.set m (Dict.get obj "asin") rec) as [m1|]; cbn [bind];
      [|reflexivity].
    unfold cap_reached.
    replace (n =? 0)%Z with false by (symmetry; apply Z.eqb_neq; exact Hn).
    replace (n <=? i)%Z with true by (symmetry; apply Z.leb_le; lia).
    reflexivity.
  - pose proof (skipn_step _ _ _ _ _ Hf) as Hf'.
    assert (Hlen' : (n <= i + 1 + Z.of_nat (length l1))%Z)
      by (cbn [length] in Hlen; lia).
    cbn [app load_loop].
    destruct line as [|v| |e0]; [apply IH; assumption| |reflexivity|reflexivity].
    destruct (as_dict v) as [obj|] eqn:Ev; cbn [bind]; [|reflexivity].
    destruct (truthy (Dict.get obj "asin")) eqn:Ea; cbn [negb];
      [|apply IH; assumption].
    destruct (sanitize (project keep_fields obj)) as [rec|]; cbn [bind]; [|reflexivity].
    destruct (Index.set m (Dict.get obj "asin") rec) as [m1|]; cbn [bind];
      [|reflexivity].
    assert (Hi : (i < n)%Z).
    { destruct (Z.to_nat (n - i)) as [|k] eqn:E; [|lia].
      cbn [skipn] in Hf. inversion Hf as [|? ? Hx _]; subst.
      destruct v; try discriminate Ev. injection Ev as ->.
      cbn [has_asin] in Hx. congruence. }
    unfold cap_reached.
    replace (n <=? i)%Z with false by (symmetry; apply Z.leb_gt; exact Hi).
    rewrite andb_false_r. apply IH; assumption.
Qed.

(** X10.  The row cap.  A cap of 0 is no cap.  With a cap [n] other than
    0 the loader stops right after the first row with an identifier that
    stands on line [n] or later: blank lines and rows without identifier
    from line [n] on do not stop it, and nothing after the stopping row is
    read, not even a malformed line. *)
Theorem load_cap_stops_at_row :
  (forall meta keep_fields,
      load_asin_meta meta keep_fields (Some 0%Z) = load_asin_meta meta keep_fields None) /\
  (forall l1 row l2 keep_fields n,
      n <> 0%Z -> has_asin row = true ->
      Forall (fun l => has_asin l = false) (skipn (Z.to_nat (n - 1)) l1) ->
      (n <= 1 + Z.of_nat (length l1))%Z ->
      load_asin_meta (l1 ++ row :: l2)%list keep_fields (Some n) =
        load_asin_meta (l1 ++ [row])%list keep_fields None).
Proof.
  split.
  - intros meta keep_fields. unfold load_asin_meta.
    generalize 1%Z, (@nil (pyval * dict)).
    induction meta as [|line meta IH]; intros i m; cbn [load_loop]; [reflexivity|].
    destruct line as [|v| |e0]; [apply IH| |reflexivity|reflexivity].
    destruct (as_dict v) as [obj|]; cbn [bind]; [|reflexivity].
    destruct (negb (truthy (Dict.get obj "asin"))); [apply IH|].
    destruct (sanitize _) as [rec|]; cbn [bind]; [|reflexivity].
    destruct (Index.set m (Dict.get obj "asin") rec) as [m1|];
      cbn [bind cap_reached Z.eqb negb andb]; [apply IH|reflexivity].
  - intros l1 row l2 keep_fields n Hn Hrow Hf Hlen. unfold load_asin_meta.
    apply load_loop_cap; assumption.
Qed.

(** *** When the index loads *)

Lemma load_loop_returns (keep_fields : list string) (lines : list jsonl_line) :
  forall i m,
    (exists m', load_loop keep_fields None lines i m = Ok m') <->
    Forall (fun l => loadable l = true) lines.
Proof.
  induction lines as [|line lines IH]; intros i m; cbn [load_loop].
  - split; [constructor|]. intros _. eexists. reflexivity.
  - destruct line as [|v| |e0].
    + rewrite IH. split; [intros H; constructor; [reflexivity|exact H]|].
      intros H. inversion H; assumption.
    + destruct v as [| | | | |l|obj]; cbn [as_dict bind];
        try (split; [intros [m' H]; discriminate H|
                     intros H; inversion H as [|? ? Hx _]; discriminate Hx]).
      destruct (truthy (Dict.get obj "asin")) eqn:Ea; cbn [negb].
      * destruct (sanitize_total (project keep_fields obj)) as [rec Hr].
        rewrite Hr. cbn [bind]. unfold Index.set.
        destruct (Key.hashable (Dict.get obj "asin")) eqn:Eh; cbn [bind cap_reached].
        -- rewrite IH. split.
           ++ intros H. constructor; [|exact H]. cbn [loadable].
              rewrite Ea, Eh. reflexivity.
           ++ intros H. inversion H; assumption.
        -- split; [intros [m' H]; discriminate H|].
           intros H. inversion H as [|? ? Hx _]. cbn [loadable] in Hx.
           rewrite Ea, Eh in Hx. discriminate Hx.
      * rewrite IH. split.
        -- intros H. constructor; [|exact H]. cbn [loadable]. rewrite Ea. reflexivity.
        -- intros H. inversion H; assumption.
    + split; [intros [m' H]; discriminate H|].
      intros H. inversion H as [|? ? Hx _]. discriminate Hx.
    + split; [intros [m' H]; discriminate H|].
      intros H. inversion H as [|? ? Hx _]. discriminate Hx.
Qed.

Lemma load_loop_raises (keep_fields : list string) (max_rows : option Z)
    (lines : list jsonl_line) :
  forall i m e,
    load_loop keep_fields max_rows lines i m = Raise e ->
    raised_by_line e lines.
Proof.
  induction lines as [|line lines IH]; intros i m e H; cbn [load_loop] in H;
    [discriminate H|].
  assert (Hrest : forall i m,
            load_loop keep_fields max_rows lines i m = Raise e ->
            raised_by_line e (line :: lines)).
  { intros i' m' H'. unfold raised_by_line.
    destruct (IH _ _ _ H') as [[? ?]|[?|[(? & v & ? & ?)|(? & obj & ? & ?)]]].
    - left. split; [assumption|right; assumption].
    - right; left. right. assumption.
    - right; right; left. split; [assumption|].
      exists v. split; [right|]; assumption.
    - right; right; right. split; [assumption|].
      exists obj. split; [right|]; assumption. }
  destruct line as [|v| |e0].
  - exact (Hrest _ _ H).
  - destruct (as_dict v) as [obj|e1] eqn:Ev; cbn [bind] in H.
    + destruct (truthy (Dict.get obj "asin")) eqn:Ea; cbn [negb] in H;
        [|exact (Hrest _ _ H)].
      destruct (sanitize_total (project keep_fields obj)) as [rec Hr].
      rewrite Hr in H. cbn [bind] in H. unfold Index.set in H.
      destruct (Key.hashable (Dict.get obj "asin")) eqn:Eh; cbn [bind] in H.
      * destruct (cap_reached max_rows i); [discriminate H|exact (Hrest _ _ H)].
      * injection H as <-. right; right; right. split; [reflexivity|].
        exists obj. destruct v; try discriminate Ev. injection Ev as ->.
        split; [left; reflexivity|]. split; assumption.
    + injection H as <-. right; right; left.
      assert (e1 = AttributeError) as -> by (destruct v; cbn in Ev; congruence).
      split; [reflexivity|]. exists v. split; [left; reflexivity|exact Ev].
  - injection H as <-. left. split; [reflexivity|left; reflexivity].
  - injection H as <-. right; left. left. reflexivity.
Qed.

(** X11.  Without a cap the metadata loads exactly when every line is
    blank or is read by [json.loads] as a JSON object whose identifier is
    falsy or can be hashed.  When loading fails, with or without a cap,
    the exception is the one [json.loads] raised on a line
    ([JSONDecodeError] for text that is not JSON), [AttributeError] for a
    line whose value is not a JSON object, or [TypeError] for a row whose
    identifier is a list or an object; no price or category makes it
    fail. *)
Theorem load_returns_iff_loadable
    (meta : list jsonl_line) (keep_fields : option (list string)) :
  ((exists asin_map, load_asin_meta meta keep_fields None = Ok asin_map) <->
   Forall (fun l => loadable l = true) meta) /\
  (forall max_rows e,
      load_asin_meta meta keep_fields max_rows = Raise e ->
      (e = JSONDecodeError /\ In Malformed meta) \/
      In (Rejected e) meta \/
      (e = AttributeError /\
       exists v, In (Parsed v) meta /\ as_dict v = Raise AttributeError) \/
      (e = TypeError /\
       exists obj, In (Parsed (VDict obj)) meta /\
                   truthy (Dict.get obj "asin") = true /\
                   Key.hashable (Dict.get obj "asin") = false)).
Proof.
  split.
  - apply load_loop_returns.
  - intros max_rows e. apply load_loop_raises.
Qed.

(** *** What the embedding text reads *)

(** X12.  The embedding text reads four fields of the product ([title],
    [brand], [category], [main_cat]) and five of the review ([asin],
    [overall], [verified], [summary], [reviewText]) and nothing else: two
    calls that agree on these give the same text or the same exception.
    The price, the rank, the reviewer and the review time play no part. *)
Theorem make_embed_text_reads_only (prod prod' review review' : dict) :
  (forall k, In k ["title"; "brand"; "category"; "main_cat"] ->
             Dict.get prod k = Dict.get prod' k) ->
  (forall k, In k ["overall"; "verified"; "summary"; "reviewText"] ->
             Dict.get review k = Dict.get review' k) ->
  Dict.get_default review "asin" (VStr "") = Dict.get_default review' "asin" (VStr "") ->
  make_embed_text prod review = make_embed_text prod' review'.
Proof.
  intros Hp Hr Ha.
  pose proof (Hp "title" (or_introl eq_refl)) as H1.
  pose proof (Hp "brand" (or_intror (or_introl eq_refl))) as H2.
  pose proof (Hp "category" (or_intror (or_intror (or_introl eq_refl)))) as H3.
  pose proof (Hp "main_cat"
                (or_intror (or_intror (or_intror (or_introl eq_refl))))) as H4.
  pose proof (Hr "overall" (or_introl eq_refl)) as H5.
  pose proof (Hr "verified" (or_intror (or_introl eq_refl))) as H6.
  pose proof (Hr "summary" (or_intror (or_intror (or_introl eq_refl)))) as H7.
  pose proof (Hr "reviewText"
                (or_intror (or_intror (or_intror (or_introl eq_refl))))) as H8.
  unfold make_embed_text, cat_line, stripped_field, rating_part, product_part,
    title_of.
  rewrite H1, H2, H3, H4, H5, H6, H7, H8, Ha. reflexivity.
Qed.

(** *** Stretches of a run *)

Lemma st_add_0_r (st : pr_state) : st_add st (mkst 0 0 0 []) = st.
Proof.
  destruct st as [a b c f]. unfold st_add. cbn [n_in n_out bad_asin fout].
  rewrite !Nat.add_0_r, app_nil_r. reflexivity.
Qed.

Lemma st_add_assoc (a b c : pr_state) :
  st_add (st_add a b) c = st_add a (st_add b c).
Proof.
  unfold st_add. cbn [n_in n_out bad_asin fout].
  rewrite !Nat.add_assoc, app_assoc. reflexivity.
Qed.

(** A turn of the loop adds to the state what it adds to the empty one. *)
Lemma loop_body_shift (asin_map : asin_index) (drop : bool)
    (st : pr_state) (line : jsonl_line) :
  loop_body asin_map drop st line =
    match loop_body asin_map drop (mkst 0 0 0 []) line with
    | Ok d => Ok (st_add st d)
    | Raise e => Raise e
    end.
Proof.
  destruct st as [a b c f]. unfold loop_body.
  assert (E0 : forall x y z (w : list pyval),
             (x = a + 0 -> y = b + 0 -> z = c + 0 -> w = f ++ [] ->
              mkst a b c f = mkst x y z w)%nat%list).
  { intros x y z w -> -> -> ->. rewrite !Nat.add_0_r, app_nil_r. reflexivity. }
  destruct line as [|v| |e0]; [| |reflexivity|reflexivity].
  - unfold st_add. cbn [n_in n_out bad_asin fout]. f_equal. apply E0; reflexivity.
  - destruct (as_dict v) as [r|]; cbn [bind n_in n_out bad_asin fout]; [|reflexivity].
    destruct (negb (truthy (Dict.get r "asin"))).
    { unfold st_add. cbn [n_in n_out bad_asin fout].
      rewrite Nat.add_1_r, !Nat.add_0_r, app_nil_r. reflexivity. }
    destruct (Index.get asin_map (Dict.get r "asin")) as [prod|]; cbn [bind];
      [|reflexivity].
    destruct (negb (prod_truthy prod) && drop).
    { unfold st_add. cbn [n_in n_out bad_asin fout].
      rewrite !Nat.add_1_r, !Nat.add_0_r, app_nil_r. reflexivity. }
    destruct (make_embed_text (prod_or_empty prod) r) as [text|]; cbn [bind];
      [|reflexivity].
    destruct (parse_date _ _) as [rt|]; cbn [bind]; [|reflexivity].
    unfold st_add. cbn [n_in n_out bad_asin fout app].
    rewrite !Nat.add_1_r, !Nat.add_0_r. reflexivity.
Qed.

Lemma process_loop_shift (asin_map : asin_index) (drop : bool)
    (lines : list jsonl_line) :
  forall st,
    process_loop asin_map drop lines st =
      (st_add st (fst (process_loop asin_map drop lines (mkst 0 0 0 []))),
       snd (process_loop asin_map drop lines (mkst 0 0 0 []))).
Proof.
  induction lines as [|line lines IH]; intros st.
  - cbn [process_loop fst snd]. rewrite st_add_0_r. reflexivity.
  - cbn [process_loop]. rewrite (loop_body_shift asin_map drop st line).
    destruct (loop_body asin_map drop (mkst 0 0 0 []) line) as [d|e].
    + rewrite (IH (st_add st d)), (IH d). cbn [fst snd].
      rewrite st_add_assoc. reflexivity.
    + cbn [fst snd]. rewrite st_add_0_r. reflexivity.
Qed.

Lemma process_loop_app (asin_map : asin_index) (drop : bool)
    (l1 l2 : list jsonl_line) :
  forall st,
    process_loop asin_map drop (l1 ++ l2)%list st =
      match process_loop asin_map drop l1 st with
      | (st1, None) => process_loop asin_map drop l2 st1
      | (st1, Some e) => (st1, Some e)
      end.
Proof.
  induction l1 as [|line l1 IH]; intros st; cbn [app process_loop]; [reflexivity|].
  destruct (loop_body asin_map drop st line) as [st1|e]; [apply IH|reflexivity].
Qed.

(** X13.  Review files compose.  When the lines [l1] are processed to
    the end, processing [l1] followed by [l2] writes the records of [l1]
    and then those of [l2], and returns the sums of the counters; when
    [l2] fails, the run fails with the same exception, and the records
    of [l1] and those written from [l2] before the failure stay in the
    output.  In particular a malformed line aborts the run and leaves
    the records of the lines before it. *)
Theorem process_reviews_concat
    (l1 l2 : list jsonl_line) (asin_map : asin_index) (drop : bool)
    (r1 : list pyval) (s1 : stats) :
  process_reviews l1 asin_map drop = (r1, Ok s1) ->
  process_reviews (l1 ++ l2)%list asin_map drop =
    ((r1 ++ fst (process_reviews l2 asin_map drop))%list,
     match snd (process_reviews l2 asin_map drop) with
     | Ok s2 =>
         Ok (mkstats (read s1 + read s2) (written s1 + written s2)
                     (missing_meta s1 + missing_meta s2))
     | Raise e => Raise e
     end) /\
  process_reviews (l1 ++ Malformed :: l2)%list asin_map drop
    = (r1, Raise JSONDecodeError).
Proof.
  unfold process_reviews. intros H.
  destruct (process_loop asin_map drop l1 (mkst 0 0 0 [])) as [st1 [e|]] eqn:E1;
    [discriminate H|].
  injection H as <- <-. cbn [read written missing_meta].
  split.
  - rewrite process_loop_app, E1, process_loop_shift.
    destruct (process_loop asin_map drop l2 (mkst 0 0 0 [])) as [d [e|]];
      cbn [fst snd st_add n_in n_out bad_asin fout]; reflexivity.
  - rewrite process_loop_app, E1. cbn [process_loop loop_body].
    reflexivity.
Qed.

(** *** Lines that leave no trace *)

Lemma process_loop_blank (asin_map : asin_index) (drop : bool)
    (lines : list jsonl_line) :
  forall st,
    process_loop asin_map drop (filter counted lines) st =
      process_loop asin_map drop lines st.
Proof.
  induction lines as [|line lines IH]; intros st; [reflexivity|].
  destruct line as [|v| |e0]; cbn [filter counted process_loop].
  - cbn [loop_body]. apply IH.
  - destruct (loop_body asin_map drop st (Parsed v)); [apply IH|reflexivity].
  - reflexivity.
  - reflexivity.
Qed.

Lemma process_loop_no_asin (asin_map : asin_index) (drop : bool)
    (lines : list jsonl_line) :
  let kept := filter (fun l => negb (no_asin_row l)) lines in
  let full := process_loop asin_map drop lines (mkst 0 0 0 []) in
  let part := process_loop asin_map drop kept (mkst 0 0 0 []) in
  snd part = snd full /\
  fout (fst part) = fout (fst full) /\
  n_out (fst part) = n_out (fst full) /\
  bad_asin (fst part) = bad_asin (fst full) /\
  (n_in (fst part) <= n_in (fst full))%nat /\
  (snd full = None ->
   n_in (fst full) = (n_in (fst part) + count no_asin_row lines)%nat).
Proof.
  clear html_unescape json_dumps.
  induction lines as [|line lines IH]; cbn zeta.
  - cbn. split; [reflexivity|]. split; [reflexivity|]. split; [reflexivity|].
    split; [reflexivity|]. split; [lia|]. reflexivity.
  - cbn zeta in IH. destruct IH as (He & Hf & Ho & Hb & Hle & Hi).
    rewrite count_cons. cbn [filter].
    destruct (no_asin_row line) eqn:En; cbn [negb b2n].
    + destruct line as [|v| |e0]; try discriminate En.
      destruct v as [| | | | |l|r]; try discriminate En. cbn [no_asin_row] in En.
      cbn [process_loop loop_body as_dict bind]. rewrite En.
      rewrite (process_loop_shift asin_map drop lines (mkst _ _ _ _)).
      cbn [fst snd st_add n_in n_out bad_asin fout app Nat.add].
      split; [exact He|]. split; [exact Hf|]. split; [exact Ho|].
      split; [exact Hb|]. split; [lia|]. intros H. rewrite (Hi H). lia.
    + cbn [process_loop].
      destruct (loop_body asin_map drop (mkst 0 0 0 []) line) as [d|e].
      * rewrite (process_loop_shift asin_map drop lines d).
        rewrite (process_loop_shift asin_map drop (filter _ lines) d).
        cbn [fst snd st_add n_in n_out bad_asin fout].
        split; [exact He|]. split; [congruence|]. split; [congruence|].
        split; [congruence|]. split; [lia|]. intros H. rewrite (Hi H). lia.
      * cbn [fst snd]. split; [reflexivity|]. split; [reflexivity|].
        split; [reflexivity|]. split; [reflexivity|]. split; [lia|]. discriminate.
Qed.

(** X14.  Blank lines and rows without identifier leave no trace in the
    output.  Removing the blank lines of the review source changes
    nothing at all; removing the rows that are JSON objects with a
    missing, null or empty identifier changes neither the records written
    nor the exception raised, and in a run that reaches the end only
    lowers [read], by the number of rows removed. *)
Theorem process_reviews_ignores_rows
    (reviews : list jsonl_line) (asin_map : asin_index) (drop : bool) :
  process_reviews (filter counted reviews) asin_map drop
    = process_reviews reviews asin_map drop /\
  let kept := filter (fun l => negb (no_asin_row l)) reviews in
  fst (process_reviews kept asin_map drop)
    = fst (process_reviews reviews asin_map drop) /\
  match snd (process_reviews reviews asin_map drop) with
  | Ok st =>
      exists st',
        snd (process_reviews kept asin_map drop) = Ok st' /\
        read st = (read st' + count no_asin_row reviews)%nat /\
        written st' = written st /\ missing_meta st' = missing_meta st
  | Raise e => snd (process_reviews kept asin_map drop) = Raise e
  end.
Proof.
  split.
  - unfold process_reviews. rewrite process_loop_blank. reflexivity.
  - cbn zeta. unfold process_reviews.
    destruct (process_loop_no_asin asin_map drop reviews)
      as (He & Hf & Ho & Hb & _ & Hi).
    destruct (process_loop asin_map drop reviews (mkst 0 0 0 [])) as [st e].
    destruct (process_loop asin_map drop
                (filter (fun l => negb (no_asin_row l)) reviews) (mkst 0 0 0 []))
      as [st' e'].
    cbn [fst snd] in *. subst e'. split; [exact Hf|].
    destruct e as [e|].
    + reflexivity.
    + eexists. split; [reflexivity|]. cbn [read written missing_meta].
      split; [apply Hi; reflexivity|]. split; assumption.
Qed.

(** *** The records of any run *)

(** Every record in the output, of a run that ends or of one that
    aborts, is the record of an accepted row of the source. *)
Lemma process_loop_records (asin_map : asin_index) (drop : bool)
    (lines : list jsonl_line) :
  forall st st' e,
    process_loop asin_map drop lines st = (st', e) ->
    exists recs,
      fout st' = (fout st ++ recs)%list /\
      Forall (fun rec => exists line,
                In line lines /\ accepted asin_map drop line = true /\
                emits asin_map line rec) recs.
Proof.
  induction lines as [|line lines IH]; intros st st' e H; cbn [process_loop] in H.
  - injection H as <- <-. exists []. rewrite app_nil_r. split; constructor.
  - destruct (loop_body asin_map drop st line) as [st1|e1] eqn:E.
    + apply loop_body_ok in E. destruct E as (_ & _ & _ & _ & Hf).
      destruct (IH _ _ _ H) as (recs & Hrecs & Hall).
      assert (Hall' : Forall (fun rec => exists l,
                        In l (line :: lines) /\ accepted asin_map drop l = true /\
                        emits asin_map l rec) recs).
      { eapply Forall_impl; [|exact Hall].
        intros rec (l & Hl & Ha & He). exists l. split; [right; exact Hl|].
        split; assumption. }
      destruct (accepted asin_map drop line) eqn:Ea.
      * destruct Hf as (rec & Hf & Hrec). exists (rec :: recs). split.
        -- rewrite Hrecs, Hf, <- app_assoc. reflexivity.
        -- constructor; [|exact Hall'].
           exists line. split; [left; reflexivity|]. split; assumption.
      * exists recs. split; [congruence|exact Hall'].
    + injection H as <- <-. exists []. rewrite app_nil_r. split; constructor.
Qed.

Lemma process_reviews_records (reviews : list jsonl_line) (asin_map : asin_index)
    (drop : bool) (rec : pyval) :
  In rec (fst (process_reviews reviews asin_map drop)) ->
  exists line,
    In line reviews /\ accepted asin_map drop line = true /\
    emits asin_map line rec.
Proof.
  unfold process_reviews.
  destruct (process_loop asin_map drop reviews (mkst 0 0 0 [])) as [st e] eqn:E.
  cbn [fst]. intros Hin.
  destruct (process_loop_records _ _ _ _ _ _ E) as (recs & Hf & Hall).
  cbn [fout app] in Hf. rewrite Hf in Hin.
  rewrite Forall_forall in Hall. exact (Hall rec Hin).
Qed.

(** X15.  Nothing is written that no row accounts for.  Every record in
    the output, also of a run that aborts later, is the record of a row
    of the review source that is a JSON object with a non-empty
    identifier; the embedding text and the date in it are what
    [make_embed_text] and [parse_date] return for that row; and under
    the drop policy the product of the row has a non-empty record in the
    index. *)
Theorem written_records_sound
    (reviews : list jsonl_line) (asin_map : asin_index) (drop : bool) (rec : pyval) :
  In rec (fst (process_reviews reviews asin_map drop)) ->
  exists r text review_time,
    In (Parsed (VDict r)) reviews /\
    truthy (Dict.get r "asin") = true /\
    (drop = true ->
     prod_truthy (Index.lookup asin_map (Dict.get r "asin")) = true) /\
    make_embed_text (prod_or_empty (Index.lookup asin_map (Dict.get r "asin"))) r
      = Ok text /\
    parse_date (Dict.get r "reviewTime") (Dict.get r "unixReviewTime")
      = Ok review_time /\
    rec = make_record (Dict.get r "asin")
            (prod_or_empty (Index.lookup asin_map (Dict.get r "asin")))
            r text review_time.
Proof.
  intros Hin.
  destruct (process_reviews_records _ _ _ _ Hin)
    as (line & Hl & Ha & r & text & rt & -> & Ht & Hd & Hr).
  exists r, text, rt. cbn [accepted] in Ha.
  apply andb_true_iff in Ha. destruct Ha as [Ha Hp].
  split; [exact Hl|]. split; [exact Ha|]. split.
  - intros ->. cbn [negb] in Hp. rewrite orb_false_r in Hp. exact Hp.
  - split; [exact Ht|]. split; [exact Hd|exact Hr].
Qed.


(** *** Fields the pipeline never fills *)

Lemma lookup_In (m : asin_index) (k : pyval) (v : dict) :
  Index.lookup m k = Some v -> exists k', In (k', v) m.
Proof.
  induction m as [|[k0 v0] m IH]; cbn [Index.lookup]; [discriminate|].
  destruct (Key.eqb k k0).
  - intros H. injection H as ->. exists k0. left. reflexivity.
  - intros H. destruct (IH H) as [k' Hk]. exists k'. right. exact Hk.
Qed.

(** A field that is not kept is in no record of the index. *)
Lemma index_record_not_kept
    (meta : list jsonl_line) (keep_fields : option (list string))
    (max_rows : option Z) (asin_map : asin_index) (asin : pyval) (rec : dict)
    (k : string) :
  load_asin_meta meta keep_fields max_rows = Ok asin_map ->
  In (asin, rec) asin_map ->
  Str.mem k (keep_fields_or_default keep_fields) = false ->
  Dict.lookup rec k = None.
Proof.
  intros H Hin Hk. unfold load_asin_meta in H.
  destruct (load_loop_entries _ _ _ _ _ _ _ _ H Hin) as [[]|(obj & _ & _ & _ & Hs)].
  rewrite (sanitize_lookup _ _ k Hs).
  destruct (String.eqb k "price") eqn:E1;
    [apply String.eqb_eq in E1; subst k|
     destruct (String.eqb k "category") eqn:E2;
     [apply String.eqb_eq in E2; subst k|]];
    rewrite project_lookup, Hk; reflexivity.
Qed.

Lemma record_meta_product (asin : pyval) (prod r : dict) (text : string)
    (review_time : option string) :
  record_meta (make_record asin prod r text review_time) "also_buy"
    = Some (Dict.get prod "also_buy") /\
  record_meta (make_record asin prod r text review_time) "also_view"
    = Some (Dict.get prod "also_view").
Proof. split; reflexivity. Qed.

(** X16.  In the pipeline as [main] runs it, with the default kept
    fields, the [also_buy] and [also_view] of every record written are
    [None]: the index never holds these two fields, whatever the
    metadata rows carry. *)
Theorem also_fields_never_filled
    (meta reviews : list jsonl_line) (max_rows : option Z)
    (asin_map : asin_index) (drop : bool) (rec : pyval) :
  load_asin_meta meta None max_rows = Ok asin_map ->
  In rec (fst (process_reviews reviews asin_map drop)) ->
  record_meta rec "also_buy" = Some VNone /\
  record_meta rec "also_view" = Some VNone.
Proof.
  intros Hload Hin.
  destruct (process_reviews_records _ _ _ _ Hin)
    as (line & _ & _ & r & text & rt & _ & _ & _ & ->).
  destruct (record_meta_product (Dict.get r "asin")
              (prod_or_empty (Index.lookup asin_map (Dict.get r "asin")))
              r text rt) as [E1 E2].
  rewrite E1, E2.
  assert (Hnone : forall k,
            Str.mem k (keep_fields_or_default None) = false ->
            Dict.get (prod_or_empty (Index.lookup asin_map (Dict.get r "asin"))) k
              = VNone).
  { intros k Hk. unfold prod_or_empty.
    destruct (prod_truthy _); [|reflexivity].
    destruct (Index.lookup asin_map (Dict.get r "asin")) as [d|] eqn:El;
      [|reflexivity].
    destruct (lookup_In _ _ _ El) as [k' Hk'].
    unfold Dict.get.
    rewrite (index_record_not_kept _ _ _ _ _ _ k Hload Hk' Hk). reflexivity. }
  rewrite (Hnone "also_buy" eq_refl), (Hnone "also_view" eq_refl).
  split; reflexivity.
Qed.

(** *** Without the drop policy *)

Lemma count_ext {A : Type} (f g : A -> bool) (l : list A) :
  (forall x, f x = g x) -> count f l = count g l.
Proof.
  intros H. unfold count. f_equal. apply filter_ext. exact H.
Qed.

Lemma accepted_no_drop (asin_map : asin_index) (line : jsonl_line) :
  accepted asin_map false line = has_asin line.
Proof.
  destruct line as [|v| |e0]; [reflexivity| |reflexivity|reflexivity].
  destruct v; try reflexivity. cbn [accepted has_asin negb].
  rewrite orb_true_r. apply andb_true_r.
Qed.

Lemma dropped_no_drop (asin_map : asin_index) (line : jsonl_line) :
  dropped asin_map false line = false.
Proof.
  destruct line as [|v| |e0]; [reflexivity| |reflexivity|reflexivity].
  destruct v; try reflexivity. cbn [dropped]. apply andb_false_r.
Qed.

(** X17.  With the drop policy off, a run that reaches the end drops
    nothing: [missing_meta] is 0, one record is written for each row
    with an identifier, whether or not its product is in the index, and
    [read] exceeds [written] by the number of rows without identifier. *)
Theorem no_drop_keeps_every_row
    (reviews : list jsonl_line) (asin_map : asin_index)
    (records : list pyval) (st : stats) :
  process_reviews reviews asin_map false = (records, Ok st) ->
  missing_meta st = 0%nat /\
  written st = count has_asin reviews /\
  length records = count has_asin reviews /\
  read st = (written st + count lacks_asin reviews)%nat.
Proof.
  clear html_unescape json_dumps.
  unfold process_reviews. intros H.
  destruct (process_loop asin_map false reviews (mkst 0 0 0 [])) as [st' [e|]] eqn:E;
    [discriminate H|].
  injection H as <- <-. cbn [read written missing_meta].
  destruct (process_loop_ok _ _ _ _ _ E) as (Hw & Hi & Ho & Hb & recs & Hf & Hr).
  cbn [n_in n_out bad_asin fout app Nat.add] in *.
  pose proof (rows_partition asin_map false reviews Hw) as Hp.
  rewrite (count_ext _ _ reviews (accepted_no_drop asin_map)) in *.
  rewrite (count_ext _ (fun _ => false) reviews (dropped_no_drop asin_map)) in *.
  assert (H0 : count (fun _ : jsonl_line => false) reviews = 0%nat).
  { apply count_zero. reflexivity. }
  rewrite H0 in *.
  split; [exact Hb|]. split; [exact Ho|]. split.
  - rewrite Hf. apply Forall2_length in Hr. rewrite <- Hr.
    unfold count. f_equal. apply filter_ext. intros x.
    apply accepted_no_drop.
  - lia.
Qed.

(** *** The run as a whole *)

Lemma accepted_empty_index (line : jsonl_line) : accepted [] true line = false.
Proof.
  destruct line as [|v| |e0]; [reflexivity| |reflexivity|reflexivity].
  destruct v; try reflexivity. cbn [accepted Index.lookup prod_truthy negb orb].
  apply andb_false_r.
Qed.

Lemma dropped_empty_index (line : jsonl_line) : dropped [] true line = has_asin line.
Proof.
  destruct line as [|v| |e0]; [reflexivity| |reflexivity|reflexivity].
  destruct v; try reflexivity. cbn [dropped has_asin Index.lookup prod_truthy negb].
  rewrite !andb_true_r. reflexivity.
Qed.

(** X18.  When the metadata gives an empty index (an empty file, or only
    blank lines and rows without identifier), [main] creates the output
    file and leaves it empty, also when the review source makes the run
    abort; and a run that reaches the end reports nothing written, no
    product, and every row with an identifier as missing its metadata. *)
Theorem main_empty_index_writes_nothing (fs : files) :
  load_asin_meta (meta_file fs) None None = Ok [] ->
  out_file (fst (main fs)) = Some "" /\
  (forall s, snd (main fs) = Ok s ->
     written (run_stats s) = 0%nat /\
     unique_asins_meta s = 0%nat /\
     missing_meta (run_stats s) = count has_asin (reviews_file fs)).
Proof.
  clear html_unescape.
  intros Hload. unfold main, main_with. rewrite Hload.
  pose proof (process_reviews_records (reviews_file fs) [] true) as Hrec.
  unfold process_reviews in *.
  destruct (process_loop [] true (reviews_file fs) (mkst 0 0 0 [])) as [st e] eqn:E.
  cbn [fst snd out_file] in *.
  assert (Hnil : fout st = []).
  { destruct (fout st) as [|rec recs]; [reflexivity|exfalso].
    destruct (Hrec rec (or_introl eq_refl)) as (line & _ & Ha & _).
    rewrite accepted_empty_index in Ha. discriminate Ha. }
  rewrite Hnil. split; [reflexivity|].
  intros s Hs. destruct e as [e|]; [discriminate Hs|].
  cbn [bind] in Hs. injection Hs as <-.
  cbn [run_stats unique_asins_meta written missing_meta length].
  destruct (process_loop_ok _ _ _ _ _ E) as (_ & _ & Ho & Hb & _).
  cbn [n_out bad_asin Nat.add] in Ho, Hb.
  rewrite (count_ext _ (fun _ => false) _ accepted_empty_index) in Ho.
  rewrite (count_ext _ _ _ dropped_empty_index) in Hb.
  split; [|split; [reflexivity|exact Hb]].
  rewrite Ho. apply count_zero. reflexivity.
Qed.

(** *** How many products *)

Lemma insert_keys (m : asin_index) (k : pyval) (v : dict) :
  map fst (Index.insert m k v) =
    if existsb (Key.eqb k) (map fst m) then map fst m
    else (map fst m ++ [k])%list.
Proof.
  induction m as [|[k0 v0] m IH]; cbn [Index.insert map fst existsb app].
  - reflexivity.
  - destruct (Key.eqb k k0); cbn [map fst orb]; [reflexivity|].
    rewrite IH. destruct (existsb (Key.eqb k) (map fst m)); reflexivity.
Qed.

Lemma load_loop_key_list (keep_fields : list string) (lines : list jsonl_line) :
  forall i m m',
    load_loop keep_fields None lines i m = Ok m' ->
    map fst m' =
      fold_left
        (fun acc k => if existsb (Key.eqb k) acc then acc else (acc ++ [k])%list)
        (row_ids lines) (map fst m).
Proof.
  induction lines as [|line lines IH]; intros i m m' H; cbn [load_loop] in H.
  - injection H as <-. reflexivity.
  - destruct line as [|v| |e0]; [| |discriminate|discriminate].
    + exact (IH _ _ _ H).
    + destruct v as [| | | | |l|obj]; try discriminate.
      cbn [as_dict bind] in H. cbn [row_ids flat_map].
      destruct (truthy (Dict.get obj "asin")) eqn:Ea; cbn [negb] in H;
        [|exact (IH _ _ _ H)].
      destruct (sanitize (project keep_fields obj)) as [rec|]; [|discriminate].
      cbn [bind] in H. unfold Index.set in H.
      destruct (Key.hashable (Dict.get obj "asin")); [|discriminate].
      cbn [bind cap_reached] in H. cbn [app fold_left].
      rewrite <- (insert_keys m (Dict.get obj "asin") rec). exact (IH _ _ _ H).
Qed.

Lemma filter_absorb {A : Type} (f g : A -> bool) (l : list A) :
  (forall x, f x = true -> g x = true) -> filter f (filter g l) = filter f l.
Proof.
  intros H. induction l as [|x l IH]; cbn [filter]; [reflexivity|].
  destruct (g x) eqn:Eg; cbn [filter]; rewrite IH; [reflexivity|].
  destruct (f x) eqn:Ef; [|reflexivity].
  rewrite (H x Ef) in Eg. discriminate Eg.
Qed.

Lemma filter_both {A : Type} (f g : A -> bool) (l : list A) :
  filter f (filter g l) = filter (fun x => f x && g x) l.
Proof.
  induction l as [|x l IH]; cbn [filter]; [reflexivity|].
  destruct (g x); cbn [filter]; rewrite IH.
  - rewrite andb_true_r. reflexivity.
  - rewrite andb_false_r. reflexivity.
Qed.

(** Adding the identifiers one by one, each unless an equal key is there,
    leaves their first occurrences. *)
Lemma fold_first_occurrences (ids : list pyval) :
  forall acc,
    fold_left
      (fun acc k => if existsb (Key.eqb k) acc then acc else (acc ++ [k])%list)
      ids acc =
    (acc ++ filter (fun k => negb (existsb (Key.eqb k) acc))
                   (first_occurrences ids))%list.
Proof.
  induction ids as [|k ids IH]; intros acc;
    cbn [fold_left first_occurrences filter].
  - rewrite app_nil_r. reflexivity.
  - destruct (existsb (Key.eqb k) acc) eqn:E; cbn [negb]; rewrite IH.
    + f_equal. symmetry. apply filter_absorb. intros x Hx.
      apply negb_true_iff in Hx. apply negb_true_iff.
      destruct (Key.eqb x k) eqn:Exk; [|reflexivity].
      apply existsb_exists in E. destruct E as (a & Ha & Eka).
      assert (Hxa : existsb (Key.eqb x) acc = true).
      { apply existsb_exists. exists a. split; [exact Ha|].
        exact (key_eqb_trans x k a Exk Eka). }
      rewrite Hxa in Hx. discriminate Hx.
    + rewrite <- app_assoc. cbn [app]. do 2 f_equal.
      rewrite filter_both. apply filter_ext. intros x.
      rewrite existsb_app. cbn [existsb]. rewrite orb_false_r.
      apply negb_orb.
Qed.

Lemma first_occurrences_length (ids : list pyval) :
  (length (first_occurrences ids) <= length ids)%nat.
Proof.
  clear html_unescape float_repr str_repr json_dumps year_text.
  induction ids as [|k ids IH]; cbn [first_occurrences length]; [lia|].
  pose proof (filter_length_le (fun k' => negb (Key.eqb k' k))
                (first_occurrences ids)).
  lia.
Qed.

Lemma row_ids_length (lines : list jsonl_line) :
  length (row_ids lines) = count has_asin lines.
Proof.
  induction lines as [|line lines IH]; [reflexivity|].
  rewrite count_cons. cbn [row_ids flat_map]. rewrite length_app.
  fold (row_ids lines). rewrite IH. f_equal.
  destruct line as [|v| |e0]; try reflexivity.
  destruct v; try reflexivity. cbn [has_asin].
  destruct (truthy (Dict.get d "asin")); reflexivity.
Qed.

(** X19.  The number of products [main] reports is the number of
    distinct identifiers of the metadata rows: the keys of the index are
    the identifiers of the rows that have one, each once, in the order
    of first occurrence.  A row that repeats an identifier, and a row
    without one, do not count. *)
Theorem main_unique_asins_count (fs : files) (s : summary) :
  snd (main fs) = Ok s ->
  exists asin_map,
    load_asin_meta (meta_file fs) None None = Ok asin_map /\
    map fst asin_map = first_occurrences (row_ids (meta_file fs)) /\
    unique_asins_meta s = length (first_occurrences (row_ids (meta_file fs))) /\
    (unique_asins_meta s <= count has_asin (meta_file fs))%nat.
Proof.
  clear html_unescape.
  unfold main, main_with.
  destruct (load_asin_meta (meta_file fs) None None) as [asin_map|e] eqn:El;
    [|discriminate].
  destruct (process_reviews (reviews_file fs) asin_map true) as [records r].
  cbn [snd]. destruct r as [s0|e]; [|discriminate].
  cbn [bind]. intros H. injection H as <-. cbn [unique_asins_meta].
  exists asin_map. split; [reflexivity|].
  unfold load_asin_meta in El.
  pose proof (load_loop_key_list _ _ _ _ _ El) as Hk.
  rewrite fold_first_occurrences in Hk. cbn [map app existsb negb] in Hk.
  assert (Hall : forall l : list pyval, filter (fun _ => true) l = l).
  { induction l as [|x l IH]; cbn [filter]; [reflexivity|]. rewrite IH. reflexivity. }
  rewrite Hall in Hk.
  split; [exact Hk|].
  assert (Hlen : length asin_map
                 = length (first_occurrences (row_ids (meta_file fs)))).
  { rewrite <- Hk. symmetry. apply length_map. }
  split; [exact Hlen|].
  rewrite Hlen, <- row_ids_length. apply first_occurrences_length.
Qed.


End Script.

(* ===================================================================== *)
(** ** The claims on sample data *)

Lemma join_completeness_and_counters_witness :
  process_reviews Sample.float_repr Sample.str_repr Sample.year_text
      Sample.mixed_reviews Sample.index true
    = (fst (process_reviews Sample.float_repr Sample.str_repr Sample.year_text
              Sample.mixed_reviews Sample.index true),
       Ok (mkstats 4 1 2)) /\
  (1 + 2 <= 4)%nat.
Proof.
  split; [reflexivity|].
  exact (proj1 (proj2 (proj2 (proj2 (proj2 (proj2
    (join_completeness_and_counters Sample.float_repr Sample.str_repr
       Sample.year_text Sample.mixed_reviews Sample.index true
       _ (mkstats 4 1 2) eq_refl))))))).
Defined.

Lemma parse_price_examples_witness :
  parse_price Sample.float_repr Sample.str_repr (VStr "from $1,234.50 each")
    = Ok (Some (Float.of_ratio 12345 10)) /\
  exists pre num post,
    Str.remove_char "," (Str.strip "from $1,234.50 each") = pre ++ num ++ post /\
    Numeral.shape num /\
    Numeral.float_of_str (with_leading_zero num) = Some (Float.of_ratio 12345 10).
Proof.
  assert (H : parse_price Sample.float_repr Sample.str_repr
                (VStr "from $1,234.50 each")
              = Ok (Some (Float.of_ratio 12345 10)))
    by (vm_compute; reflexivity).
  split; [exact H|].
  destruct (proj2 (proj2 (proj2 (proj2 (proj2 (proj2 (proj2 (proj2 (proj2
              (proj2 (proj2
                 (parse_price_examples Sample.float_repr Sample.str_repr)))))))))))
              _ _ H)
    as (pre & num & post & Hs & Hshape & _ & _ & _ & _ & Hf).
  exists pre, num, post. auto.
Defined.

Lemma join_drops_empty_index_entry :
  has_asin (Sample.row Sample.bare_review) = true /\
  Index.lookup Sample.empty_index (Dict.get Sample.bare_review "asin") = Some [] /\
  ~ (exists float_repr str_repr year_text records result,
        process_reviews float_repr str_repr year_text
          [Sample.row Sample.bare_review] Sample.empty_index true
          = (records, result) /\
        records <> []).
Proof.
  split; [reflexivity|]. split; [reflexivity|].
  intros (fr & sr & yt & records & result & H & Hne).
  change (process_reviews fr sr yt [Sample.row Sample.bare_review]
            Sample.empty_index true)
    with (@nil pyval, @Ok stats (mkstats 1 0 1)) in H.
  injection H as <- _. now apply Hne.
Qed.

Lemma index_copies_text_fields_witness :
  load_asin_meta Sample.float_repr Sample.str_repr Sample.markup_meta None None
    = Ok [(VStr "B1", [("title", VStr "<b>Toy Car</b>")])] /\
  In (VStr "B1", [("title", VStr "<b>Toy Car</b>")])
     [(VStr "B1", [("title", VStr "<b>Toy Car</b>")])] /\
  exists obj,
    In (Parsed (VDict obj)) Sample.markup_meta /\
    Dict.lookup [("title", VStr "<b>Toy Car</b>")] "title" = Dict.lookup obj "title".
Proof.
  split; [reflexivity|]. split; [simpl; auto|].
  destruct (index_copies_text_fields Sample.float_repr Sample.str_repr
              Sample.markup_meta None None
              [(VStr "B1", [("title", VStr "<b>Toy Car</b>")])]
              (VStr "B1") [("title", VStr "<b>Toy Car</b>")]
              eq_refl (or_introl eq_refl))
    as (obj & Hin & _ & _ & Hkept & Hcopy & _).
  exists obj. split; [exact Hin|].
  rewrite (Hcopy "title"); [|discriminate|discriminate].
  rewrite (Hkept "title"). reflexivity.
Defined.

Lemma index_keeps_markup :
  ~ (exists html_unescape float_repr str_repr asin_map rec title,
        html_unescape "<b>Toy Car</b>" = "<b>Toy Car</b>" /\
        load_asin_meta float_repr str_repr Sample.markup_meta None None
          = Ok asin_map /\
        Index.lookup asin_map (VStr "B1") = Some rec /\
        strip_html html_unescape (VStr "<b>Toy Car</b>") = Ok title /\
        Dict.get rec "title" = VStr title).
Proof.
  intros (un & fr & sr & m & rec & title & Hun & Hload & Hrec & Hstrip & Hget).
  change (load_asin_meta fr sr Sample.markup_meta None None)
    with (@Ok asin_index [(VStr "B1", [("title", VStr "<b>Toy Car</b>")])])
    in Hload.
  injection Hload as <-. injection Hrec as <-.
  unfold strip_html in Hstrip. cbn [truthy Str.nonempty negb] in Hstrip.
  rewrite Hun in Hstrip. vm_compute in Hstrip. injection Hstrip as <-.
  discriminate Hget.
Qed.

Lemma parse_date_resolution_witness :
  (forall y, (1000 <= y <= 9999)%Z -> Sample.year_text y = Str.of_Z y) /\
  (1243296000 <> 0)%Z /\
  (Date.min_timestamp <= 1243296000 <= Date.max_timestamp)%Z /\
  truthy (VInt 0) = false /\
  parse_date Sample.year_text (VStr "05 26, 1999") (VInt 1243296000)
    = Ok (Some "2009-05-26") /\
  parse_date Sample.year_text (VStr "05 26, 2009") (VInt 0)
    = Ok (Some "2009-05-26").
Proof.
  assert (Hy : forall y, (1000 <= y <= 9999)%Z -> Sample.year_text y = Str.of_Z y)
    by (intros y _; reflexivity).
  assert (H0 : (1243296000 <> 0)%Z) by discriminate.
  assert (Hr : (Date.min_timestamp <= 1243296000 <= Date.max_timestamp)%Z)
    by (unfold Date.min_timestamp, Date.max_timestamp; lia).
  assert (Hf : truthy (VInt 0) = false) by reflexivity.
  repeat (split; [assumption|]).
  destruct (parse_date_resolution Sample.year_text Hy) as (Hts & _ & Htext & _).
  split.
  - destruct (Hts (VStr "05 26, 1999") 1243296000%Z H0 Hr) as (_ & _ & ->).
    reflexivity.
  - rewrite (Htext (VStr "05 26, 2009") (VInt 0) Hf). reflexivity.
Defined.

Lemma parse_date_year_10000 :
  ~ (exists year_text text result,
        parse_date year_text text (VInt 253402300800) = Ok result).
Proof.
  intros (yt & text & result & H).
  change (parse_date yt text (VInt 253402300800))
    with (@Raise (option string) ValueError) in H.
  discriminate H.
Qed.

Lemma full_review_tail_witness :
  make_embed_text Sample.float_repr Sample.str_repr
      [] [("reviewText", VStr " Loved it ")]
    = Ok ("Product: ASIN " ++ newline ++ "Category: Toys & Games" ++ newline
            ++ "Full Review: Loved it") /\
  exists body,
    stripped_field [("reviewText", VStr " Loved it ")] "reviewText" = Ok body /\
    (body <> "" ->
     Str.ends_with (newline ++ "Full Review: " ++ body)
       ("Product: ASIN " ++ newline ++ "Category: Toys & Games" ++ newline
          ++ "Full Review: Loved it")).
Proof.
  split; [reflexivity|].
  destruct (proj2 (full_review_tail Sample.float_repr Sample.str_repr)
              [] [("reviewText", VStr " Loved it ")] _ eq_refl)
    as (body & Hb & Hne & _).
  exists body. split; [exact Hb|exact Hne].
Defined.

Lemma empty_body_no_trailing_space :
  ~ (exists float_repr str_repr text,
        make_embed_text float_repr str_repr [] [("reviewText", VStr "")] = Ok text /\
        Str.ends_with "Full Review: " text).
Proof.
  intros (fr & sr & text & H & He).
  change (make_embed_text fr sr [] [("reviewText", VStr "")])
    with (Ok ("Product: ASIN " ++ newline ++ "Category: Toys & Games" ++ newline
                ++ "Full Review:")) in H.
  injection H as <-.
  apply ends_with_last_char in He; [|discriminate].
  discriminate He.
Qed.

Lemma category_line_fallback_witness :
  Dict.get Sample.puzzles "category" = VList [VStr "Puzzles"; VStr "Toys"] /\
  cat_line Sample.puzzles = Ok (VStr "Puzzles") /\
  truthy (Dict.get [("main_cat", VStr "Games")] "category") = false /\
  cat_line [("main_cat", VStr "Games")] = Ok (VStr "Games") /\
  truthy (Dict.get [] "main_cat") = false /\
  exists rest,
    "Product: ASIN " ++ newline ++ "Category: Toys & Games" ++ newline
      ++ "Full Review:"
    = product_part Sample.float_repr Sample.str_repr [] [] ++ newline
        ++ "Category: Toys & Games" ++ newline ++ rest.
Proof.
  destruct (category_line_fallback Sample.float_repr Sample.str_repr)
    as (Hfirst & Hmain & _ & Hdefault).
  split; [reflexivity|].
  split; [exact (Hfirst Sample.puzzles _ _ eq_refl)|].
  split; [reflexivity|].
  split; [exact (Hmain [("main_cat", VStr "Games")] eq_refl)|].
  split; [reflexivity|].
  exact (Hdefault [] [] _ eq_refl eq_refl eq_refl).
Defined.

Lemma empty_first_category_skips_main_cat :
  ~ (exists float_repr str_repr text,
        make_embed_text float_repr str_repr Sample.empty_first_category [] = Ok text /\
        (In "Category: " (Str.lines text) \/
         In "Category: Games" (Str.lines text))).
Proof.
  intros (fr & sr & text & H & Hl).
  change (make_embed_text fr sr Sample.empty_first_category [])
    with (Ok ("Product: ASIN " ++ newline ++ "Category: Toys & Games" ++ newline
                ++ "Full Review:")) in H.
  injection H as <-. vm_compute in Hl.
  destruct Hl as [Hl|Hl];
    repeat (destruct Hl as [Hl|Hl]; [discriminate Hl|]); exact Hl.
Qed.

Lemma empty_record_counts_as_missing_witness :
  truthy (Dict.get Sample.bare_review "asin") = true /\
  (forall k, In k default_keep_fields -> Dict.contains Sample.bare_review k = false) /\
  load_asin_meta Sample.float_repr Sample.str_repr
      (Sample.meta ++ Parsed (VDict Sample.bare_review) :: Sample.later_meta)%list
      None None
    = Ok [ (VStr "B1", []); (VStr "B2", [("title", VStr "Kite")]) ] /\
  Index.lookup [ (VStr "B1", []); (VStr "B2", [("title", VStr "Kite")]) ]
    (Dict.get Sample.bare_review "asin") = Some [] /\
  loop_body Sample.float_repr Sample.str_repr Sample.year_text
      [ (VStr "B1", []); (VStr "B2", [("title", VStr "Kite")]) ] true
      (mkst 0 0 0 []) (Parsed (VDict Sample.praise))
    = Ok (mkst 1 0 1 []).
Proof.
  assert (Hk : forall k, In k default_keep_fields ->
                  Dict.contains Sample.bare_review k = false).
  { intros k Hin. simpl in Hin.
    repeat (destruct Hin as [<-|Hin]; [reflexivity|]). contradiction. }
  assert (Hl2 : forall obj', In (Parsed (VDict obj')) Sample.later_meta ->
                  truthy (Dict.get obj' "asin") = true ->
                  Key.eqb (Dict.get Sample.bare_review "asin") (Dict.get obj' "asin")
                    = false).
  { intros obj' [H|[]] _. injection H as <-. reflexivity. }
  assert (Hload : load_asin_meta Sample.float_repr Sample.str_repr
                    (Sample.meta ++ Parsed (VDict Sample.bare_review)
                       :: Sample.later_meta)%list None None
                  = Ok [ (VStr "B1", []); (VStr "B2", [("title", VStr "Kite")]) ])
    by (vm_compute; reflexivity).
  destruct (proj2 (proj2 (proj2
              (empty_record_counts_as_missing Sample.float_repr Sample.str_repr
                 Sample.year_text)))
              Sample.meta Sample.later_meta Sample.bare_review None _
              eq_refl Hk Hl2 Hload) as (Hfound & Hrows).
  split; [reflexivity|]. split; [exact Hk|]. split; [exact Hload|].
  split; [exact Hfound|].
  exact (proj2 (proj2 (Hrows Sample.praise eq_refl)) (mkst 0 0 0 [])).
Defined.

(* ===================================================================== *)
(** ** Further properties on sample data *)

Lemma strip_html_without_tags_witness :
  " 3 > 2 " <> "" /\
  has_char "<" (Sample.html_unescape " 3 > 2 ") = false /\
  strip_html Sample.html_unescape (VStr " 3 > 2 ") = Ok "3 > 2".
Proof.
  assert (Hne : " 3 > 2 " <> "") by discriminate.
  assert (Hlt : has_char "<" (Sample.html_unescape " 3 > 2 ") = false)
    by reflexivity.
  split; [exact Hne|]. split; [exact Hlt|].
  exact (strip_html_without_tags Sample.html_unescape " 3 > 2 " Hne (or_introl Hlt)).
Defined.

Lemma strip_html_tag_to_space_witness :
  Sample.html_unescape "Toy<br/>Car " = "Toy" ++ "<" ++ "br/" ++ ">" ++ "Car " /\
  has_char "<" "Toy" = false /\ has_char ">" "br/" = false /\
  strip_html Sample.html_unescape (VStr "Toy<br/>Car ") = Ok "Toy Car".
Proof.
  split; [reflexivity|]. split; [reflexivity|]. split; [reflexivity|].
  exact (strip_html_tag_to_space Sample.html_unescape
           "Toy<br/>Car " "Toy" "br/" "Car "
           ltac:(discriminate) eq_refl eq_refl ltac:(discriminate) eq_refl).
Defined.

Lemma parse_price_none_iff_no_digit_witness :
  any_char Str.is_digit "call for price" = false /\
  parse_price Sample.float_repr Sample.str_repr (VStr "call for price") = Ok None.
Proof.
  split; [reflexivity|].
  exact (proj2 (parse_price_none_iff_no_digit Sample.float_repr Sample.str_repr
                  "call for price") eq_refl).
Defined.

Lemma parse_price_never_negative_witness :
  parse_price Sample.float_repr Sample.str_repr (VStr "-5")
    = Ok (Some (Float.of_ratio 5 1)) /\
  Float.of_ratio 5 1 = S754_finite false 5629499534213120 (-50) /\
  nonneg_float (Float.of_ratio 5 1) = true.
Proof.
  assert (H : parse_price Sample.float_repr Sample.str_repr (VStr "-5")
              = Ok (Some (Float.of_ratio 5 1)))
    by (vm_compute; reflexivity).
  split; [exact H|]. split; [vm_compute; reflexivity|].
  exact (parse_price_never_negative Sample.float_repr Sample.str_repr _ _ H).
Defined.

Lemma parse_date_is_calendar_date_witness :
  parse_date Sample.year_text (VStr "02 29, 2008") VNone = Ok (Some "2008-02-29") /\
  exists d,
    "2008-02-29" = strftime Sample.year_text d /\ Date.valid d = true /\
    (1 <= Date.month d <= 12)%Z.
Proof.
  assert (H : parse_date Sample.year_text (VStr "02 29, 2008") VNone
              = Ok (Some "2008-02-29"))
    by (vm_compute; reflexivity).
  split; [exact H|].
  destruct (parse_date_is_calendar_date Sample.year_text _ _ _ H)
    as (d & Hs & Hv & _ & Hm & _).
  exists d. split; [exact Hs|]. split; [exact Hv|exact Hm].
Defined.

Lemma load_last_row_wins_witness :
  load_asin_meta Sample.float_repr Sample.str_repr Sample.repeated_meta None None
    = Ok [ (VStr "B1", [("title", VStr "New Car")]);
           (VStr "B2", [("title", VStr "Kite")]) ] /\
  exists rec,
    sanitize Sample.float_repr Sample.str_repr
      (project default_keep_fields
         [("asin", VStr "B1"); ("title", VStr "New Car")]) = Ok rec /\
    Index.lookup
      [ (VStr "B1", [("title", VStr "New Car")]);
        (VStr "B2", [("title", VStr "Kite")]) ] (VStr "B1") = Some rec.
Proof.
  split; [reflexivity|].
  refine (load_last_row_wins Sample.float_repr Sample.str_repr
            [Sample.row [("asin", VStr "B1"); ("title", VStr "Old Car")]]
            [Sample.row [("asin", VStr "B2"); ("title", VStr "Kite")]]
            [("asin", VStr "B1"); ("title", VStr "New Car")] "B1" None _
            eq_refl _ _ eq_refl).
  - discriminate.
  - intros obj' [H|[]]. injection H as <-. discriminate.
Defined.

Lemma index_record_fields_witness :
  load_asin_meta Sample.float_repr Sample.str_repr Sample.meta None None
    = Ok [ (VStr "B1",
            [("title", VStr "Toy Car"); ("brand", VStr "Acme");
             ("price", VFloat (Float.of_ratio 999 100))]) ] /\
  is_str (Dict.get [("title", VStr "Toy Car"); ("brand", VStr "Acme");
                    ("price", VFloat (Float.of_ratio 999 100))] "category") = false.
Proof.
  assert (H : load_asin_meta Sample.float_repr Sample.str_repr Sample.meta None None
              = Ok [ (VStr "B1",
                      [("title", VStr "Toy Car"); ("brand", VStr "Acme");
                       ("price", VFloat (Float.of_ratio 999 100))]) ])
    by (vm_compute; reflexivity).
  split; [exact H|].
  exact (proj2 (proj2 (index_record_fields Sample.float_repr Sample.str_repr
                         Sample.meta None None _ (VStr "B1") _ H
                         (or_introl eq_refl)))).
Defined.

Lemma load_cap_stops_at_row_witness :
  (2 <> 0)%Z /\
  has_asin (Sample.row [("asin", VStr "B2")]) = true /\
  load_asin_meta Sample.float_repr Sample.str_repr
      ([Sample.row [("asin", VStr "B1")]; Blank]
         ++ Sample.row [("asin", VStr "B2")] :: [Malformed])%list None (Some 2%Z)
    = Ok [(VStr "B1", []); (VStr "B2", [])].
Proof.
  assert (Hn : (2 <> 0)%Z) by discriminate.
  split; [exact Hn|]. split; [reflexivity|].
  refine (eq_trans
            (proj2 (load_cap_stops_at_row Sample.float_repr Sample.str_repr)
               [Sample.row [("asin", VStr "B1")]; Blank]
               (Sample.row [("asin", VStr "B2")]) [Malformed] None 2%Z
               Hn eq_refl _ _) _).
  - cbn [Z.sub Z.to_nat skipn]. constructor; [reflexivity|constructor].
  - cbn [length]. lia.
  - reflexivity.
Defined.

Lemma load_returns_iff_loadable_witness :
  Forall (fun l => loadable l = true) Sample.repeated_meta /\
  exists asin_map,
    load_asin_meta Sample.float_repr Sample.str_repr Sample.repeated_meta None None
      = Ok asin_map.
Proof.
  assert (H : Forall (fun l => loadable l = true) Sample.repeated_meta)
    by (repeat constructor).
  split; [exact H|].
  exact (proj2 (proj1 (load_returns_iff_loadable Sample.float_repr Sample.str_repr
                         Sample.repeated_meta None)) H).
Defined.

Lemma make_embed_text_reads_only_witness :
  Dict.get Sample.car "price" <> Dict.get Sample.car_repriced "price" /\
  Dict.get Sample.praise "reviewerID" <> Dict.get Sample.praise_again "reviewerID" /\
  make_embed_text Sample.float_repr Sample.str_repr Sample.car Sample.praise
    = make_embed_text Sample.float_repr Sample.str_repr
        Sample.car_repriced Sample.praise_again.
Proof.
  split; [discriminate|]. split; [discriminate|].
  apply (make_embed_text_reads_only Sample.float_repr Sample.str_repr).
  - intros k [<-|[<-|[<-|[<-|[]]]]]; reflexivity.
  - intros k [<-|[<-|[<-|[<-|[]]]]]; reflexivity.
  - reflexivity.
Defined.

Lemma process_reviews_concat_witness :
  snd (process_reviews Sample.float_repr Sample.str_repr Sample.year_text
         Sample.reviews Sample.index true) = Ok (mkstats 1 1 0) /\
  process_reviews Sample.float_repr Sample.str_repr Sample.year_text
      (Sample.reviews ++ Malformed :: Sample.mixed_reviews)%list Sample.index true
    = (fst (process_reviews Sample.float_repr Sample.str_repr Sample.year_text
              Sample.reviews Sample.index true),
       Raise JSONDecodeError).
Proof.
  split; [reflexivity|].
  exact (proj2 (process_reviews_concat Sample.float_repr Sample.str_repr
                  Sample.year_text Sample.reviews Sample.mixed_reviews
                  Sample.index true _ (mkstats 1 1 0) eq_refl)).
Defined.

Lemma process_reviews_ignores_rows_witness :
  count no_asin_row Sample.mixed_reviews = 1%nat /\
  process_reviews Sample.float_repr Sample.str_repr Sample.year_text
      (filter counted Sample.mixed_reviews) Sample.index true
    = process_reviews Sample.float_repr Sample.str_repr Sample.year_text
        Sample.mixed_reviews Sample.index true.
Proof.
  split; [reflexivity|].
  exact (proj1 (process_reviews_ignores_rows Sample.float_repr Sample.str_repr
                  Sample.year_text Sample.mixed_reviews Sample.index true)).
Defined.

Lemma written_records_sound_witness :
  exists rec,
    In rec (fst (process_reviews Sample.float_repr Sample.str_repr Sample.year_text
                   Sample.reviews Sample.index true)) /\
    exists r,
      In (Parsed (VDict r)) Sample.reviews /\
      truthy (Dict.get r "asin") = true /\
      prod_truthy (Index.lookup Sample.index (Dict.get r "asin")) = true.
Proof.
  assert (Hin : In (hd VNone
                      (fst (process_reviews Sample.float_repr Sample.str_repr
                              Sample.year_text Sample.reviews Sample.index true)))
                   (fst (process_reviews Sample.float_repr Sample.str_repr
                           Sample.year_text Sample.reviews Sample.index true)))
    by (left; reflexivity).
  eexists. split; [exact Hin|].
  destruct (written_records_sound Sample.float_repr Sample.str_repr Sample.year_text
              _ _ _ _ Hin) as (r & text & rt & Hr & Ha & Hp & _).
  exists r. split; [exact Hr|]. split; [exact Ha|exact (Hp eq_refl)].
Defined.

Lemma also_fields_never_filled_witness :
  load_asin_meta Sample.float_repr Sample.str_repr Sample.meta_with_also None None
    = Ok [(VStr "B1", [("title", VStr "Toy Car")])] /\
  exists rec,
    In rec (fst (process_reviews Sample.float_repr Sample.str_repr Sample.year_text
                   Sample.reviews [(VStr "B1", [("title", VStr "Toy Car")])] true)) /\
    record_meta rec "also_buy" = Some VNone /\
    record_meta rec "also_view" = Some VNone.
Proof.
  assert (Hl : load_asin_meta Sample.float_repr Sample.str_repr
                 Sample.meta_with_also None None
               = Ok [(VStr "B1", [("title", VStr "Toy Car")])])
    by reflexivity.
  split; [exact Hl|].
  assert (Hin : In (hd VNone
                      (fst (process_reviews Sample.float_repr Sample.str_repr
                              Sample.year_text Sample.reviews
                              [(VStr "B1", [("title", VStr "Toy Car")])] true)))
                   (fst (process_reviews Sample.float_repr Sample.str_repr
                           Sample.year_text Sample.reviews
                           [(VStr "B1", [("title", VStr "Toy Car")])] true)))
    by (left; reflexivity).
  eexists. split; [exact Hin|].
  exact (also_fields_never_filled Sample.float_repr Sample.str_repr Sample.year_text
           Sample.meta_with_also Sample.reviews None _ true _ Hl Hin).
Defined.

Lemma no_drop_keeps_every_row_witness :
  snd (process_reviews Sample.float_repr Sample.str_repr Sample.year_text
         Sample.mixed_reviews Sample.index false) = Ok (mkstats 4 3 0) /\
  count has_asin Sample.mixed_reviews = 3%nat /\
  missing_meta (mkstats 4 3 0) = 0%nat.
Proof.
  split; [reflexivity|]. split; [reflexivity|].
  exact (proj1 (no_drop_keeps_every_row Sample.float_repr Sample.str_repr
                  Sample.year_text Sample.mixed_reviews Sample.index
                  _ (mkstats 4 3 0) eq_refl)).
Defined.

Lemma main_empty_index_writes_nothing_witness :
  load_asin_meta Sample.float_repr Sample.str_repr [Blank] None None = Ok [] /\
  out_file (fst (main Sample.float_repr Sample.str_repr Sample.json_dumps
                   Sample.year_text
                   (mkfiles [Blank] Sample.mixed_reviews (Some "stale"))))
    = Some "".
Proof.
  split; [reflexivity|].
  exact (proj1 (main_empty_index_writes_nothing Sample.float_repr Sample.str_repr
                  Sample.json_dumps Sample.year_text
                  (mkfiles [Blank] Sample.mixed_reviews (Some "stale")) eq_refl)).
Defined.

Lemma main_unique_asins_count_witness :
  snd (main Sample.float_repr Sample.str_repr Sample.json_dumps Sample.year_text
         (mkfiles Sample.repeated_meta Sample.reviews None))
    = Ok (mksummary (mkstats 1 1 0) 2) /\
  count has_asin Sample.repeated_meta = 3%nat /\
  first_occurrences (row_ids Sample.repeated_meta) = [VStr "B1"; VStr "B2"] /\
  unique_asins_meta (mksummary (mkstats 1 1 0) 2)
    = length (first_occurrences (row_ids Sample.repeated_meta)).
Proof.
  split; [reflexivity|]. split; [reflexivity|]. split; [reflexivity|].
  destruct (main_unique_asins_count Sample.float_repr Sample.str_repr
              Sample.json_dumps Sample.year_text
              (mkfiles Sample.repeated_meta Sample.reviews None)
              (mksummary (mkstats 1 1 0) 2) eq_refl)
    as (asin_map & _ & _ & Hn & _).
  exact Hn.
Defined.
